(** * Sentiment portfolio: the adaptive allocation pipeline

    A shallow embedding of the decision pipeline of the repository
    (sentiment aggregation, sensitivity learning, scenario weights,
    Phase-1 selection, Phase-2 refinement and the feedback loop) and the
    properties its specification states about it, followed by further
    properties of the same code: bounds, invariants, round trips and what
    each step leaves untouched.

    Conventions of the embedding:
    - Python floats are exact rationals ([Q]); comparisons against decimal
      literals are comparisons against the decimal fraction.  Equalities
      between computed numbers are stated with [==].  Where the rounding of
      binary floating point decides a result, the code is embedded a second
      time on binary64 numbers ([Float64], [Harvester64]).
    - A Python dict with string keys is an association list in insertion
      order without repeated keys; a JSON document is a value of [json].
    - Files are components of an explicit store; the clock, the price
      history and the text backend are parameters of the functions that
      consult them. *)

From Stdlib Require Import List String Ascii Bool Arith ZArith QArith Qround Qpower.
From Stdlib Require Import Decimal DecimalString.
From Stdlib Require Floats.
From Stdlib Require Import Lqa Lia Permutation Sorted.
Import ListNotations.

Local Open Scope string_scope.
Local Open Scope list_scope.

(* ================================================================== *)
(** * Part I: the embedding *)
(* ================================================================== *)

(** ** Python prelude: numbers, strings, dicts, JSON values *)

Module Py.

(** *** Numbers *)

Definition Qlt_bool (x y : Q) : bool := negb (Qle_bool y x).

(** [max(a, b)] and [min(a, b)] of Python: the first argument wins ties. *)
Definition max (a b : Q) : Q := if Qlt_bool a b then b else a.

Definition min (a b : Q) : Q := if Qlt_bool b a then b else a.

Definition abs (x : Q) : Q := if Qlt_bool x 0 then (- x)%Q else x.

(** [sum(xs)]: left to right from 0. *)
Definition sum (xs : list Q) : Q := fold_left Qplus xs 0%Q.

Fixpoint pow10 (n : nat) : Z :=
  match n with O => 1%Z | S k => (10 * pow10 k)%Z end.

(** [round(x, n)]: to [n] decimals, a tie going to the even neighbour. *)
Definition round (x : Q) (n : nat) : Q :=
  let s := inject_Z (pow10 n) in
  let y := (x * s)%Q in
  let f := Qfloor y in
  let r := (y - inject_Z f)%Q in
  if Qlt_bool r (1 # 2) then (inject_Z f / s)%Q
  else if Qlt_bool (1 # 2) r then (inject_Z (f + 1) / s)%Q
  else if Z.even f then (inject_Z f / s)%Q else (inject_Z (f + 1) / s)%Q.

(** [len(xs)] as a number. *)
Definition len {A : Type} (xs : list A) : Q := inject_Z (Z.of_nat (List.length xs)).

(** [sorted(xs, key=..., reverse=True)]: descending, and stable: of two
    elements with equal keys the one that came first stays first. *)
Fixpoint insert_desc {A : Type} (key : A -> Q) (x : A) (l : list A) : list A :=
  match l with
  | [] => [x]
  | y :: r =>
      if Qlt_bool (key x) (key y) then y :: insert_desc key x r else x :: l
  end.

Definition sorted_desc {A : Type} (key : A -> Q) (l : list A) : list A :=
  fold_right (insert_desc key) [] l.

(** *** Strings *)

Definition is_upper (c : ascii) : bool :=
  let n := nat_of_ascii c in (65 <=? n)%nat && (n <=? 90)%nat.

Definition is_lower (c : ascii) : bool :=
  let n := nat_of_ascii c in (97 <=? n)%nat && (n <=? 122)%nat.

Definition lower_char (c : ascii) : ascii :=
  if is_upper c then ascii_of_nat (nat_of_ascii c + 32) else c.

Definition upper_char (c : ascii) : ascii :=
  if is_lower c then ascii_of_nat (nat_of_ascii c - 32) else c.

Fixpoint map_string (f : ascii -> ascii) (s : string) : string :=
  match s with
  | EmptyString => EmptyString
  | String c r => String (f c) (map_string f r)
  end.

(** [s.lower()] and [s.upper()] on ASCII text. *)
Definition lower : string -> string := map_string lower_char.

Definition upper : string -> string := map_string upper_char.

(** [sub in s]. *)
Fixpoint contains (sub s : string) : bool :=
  if String.prefix sub s then true
  else match s with
       | EmptyString => false
       | String _ r => contains sub r
       end.

Definition is_space (c : ascii) : bool :=
  let n := nat_of_ascii c in ((9 <=? n)%nat && (n <=? 13)%nat) || (n =? 32)%nat.

Fixpoint lstrip (s : string) : string :=
  match s with
  | String c r => if is_space c then lstrip r else s
  | EmptyString => EmptyString
  end.

Fixpoint rstrip (s : string) : string :=
  match s with
  | String c r =>
      match rstrip r with
      | EmptyString => if is_space c then EmptyString else String c EmptyString
      | r' => String c r'
      end
  | EmptyString => EmptyString
  end.

(** [s.strip()]. *)
Definition strip (s : string) : string := rstrip (lstrip s).

(** [s.split(sep)] for a non-empty [sep]: [skip] counts the characters of a
    separator still to pass over, [cur] is the piece being read. *)
Fixpoint split_go (sep : string) (skip : nat) (cur s : string) : list string :=
  match s with
  | EmptyString => [cur]
  | String c r =>
      match skip with
      | S k => split_go sep k cur r
      | O =>
          if String.prefix sep s
          then cur :: split_go sep (String.length sep - 1) EmptyString r
          else split_go sep 0 (cur ++ String c EmptyString) r
      end
  end.

Definition split (sep s : string) : list string := split_go sep 0 EmptyString s.

(** The suffix of [s] that starts at its first [c]. *)
Fixpoint from_first (c : ascii) (s : string) : option string :=
  match s with
  | EmptyString => None
  | String a r => if Ascii.eqb a c then Some s else from_first c r
  end.

(** The prefix of [s] that ends with its last [c]. *)
Fixpoint upto_last (c : ascii) (s : string) : option string :=
  match s with
  | EmptyString => None
  | String a r =>
      match upto_last c r with
      | Some p => Some (String a p)
      | None => if Ascii.eqb a c then Some (String a EmptyString) else None
      end
  end.

(** [re.search(r'\{[\s\S]*\}', s)]: from the first opening brace to the
    last closing brace after it. *)
Definition search_braces (s : string) : option string :=
  match from_first "{" s with
  | Some (String a r) =>
      match upto_last "}" r with
      | Some p => Some (String a p)
      | None => None
      end
  | _ => None
  end.

(** [str(n)] for integers. *)
Definition string_of_Z (z : Z) : string := NilZero.string_of_int (Z.to_int z).

Definition string_of_nat (n : nat) : string := NilZero.string_of_uint (Nat.to_uint n).

(** The distinct elements of a list, each at its first occurrence: an
    iteration order of [set(xs)]. *)
Fixpoint dedup (xs : list string) : list string :=
  match xs with
  | [] => []
  | x :: r => x :: filter (fun y => negb (String.eqb y x)) (dedup r)
  end.

(** *** Exceptions: a call returns a value or raises *)

Inductive result (A : Type) : Type :=
| Ok (a : A)
| Raise (e : string).

Arguments Ok {A} a.
Arguments Raise {A} e.

Definition bind {A B : Type} (r : result A) (f : A -> result B) : result B :=
  match r with
  | Ok a => f a
  | Raise e => Raise e
  end.

Notation "x <- r ;; k" := (bind r (fun x => k))
  (at level 61, r at next level, right associativity).

Fixpoint mapM {A B : Type} (f : A -> result B) (l : list A) : result (list B) :=
  match l with
  | [] => Ok []
  | x :: r => y <- f x ;; ys <- mapM f r ;; Ok (y :: ys)
  end.

(** [x in xs] for a list (or set) of strings. *)
Definition mem (x : string) (xs : list string) : bool :=
  existsb (String.eqb x) xs.

(** *** Dicts: association lists in insertion order, keys unique *)

Definition dict (V : Type) : Type := list (string * V).

Fixpoint get {V : Type} (k : string) (d : dict V) : option V :=
  match d with
  | [] => None
  | (k', v) :: r => if String.eqb k k' then Some v else get k r
  end.

(** [d.get(k, dflt)]. *)
Definition get_default {V : Type} (k : string) (dflt : V) (d : dict V) : V :=
  match get k d with Some v => v | None => dflt end.

(** [k in d]. *)
Definition has_key {V : Type} (k : string) (d : dict V) : bool :=
  match get k d with Some _ => true | None => false end.

(** [d[k] = v]: an existing key keeps its place, a new key goes last. *)
Fixpoint set {V : Type} (k : string) (v : V) (d : dict V) : dict V :=
  match d with
  | [] => [(k, v)]
  | (k', v') :: r =>
      if String.eqb k k' then (k', v) :: r else (k', v') :: set k v r
  end.

(** [d.update(e)] for a dict [e]. *)
Definition update {V : Type} (d e : dict V) : dict V :=
  fold_left (fun acc kv => set (fst kv) (snd kv) acc) e d.

Definition keys {V : Type} (d : dict V) : list string := map fst d.

Definition values {V : Type} (d : dict V) : list V := map snd d.

(** [d = {}; for k in ks: d[k] = f(k)]. *)
Definition build {V : Type} (f : string -> V) (ks : list string) : dict V :=
  fold_left (fun acc k => set k (f k) acc) ks [].

(** [{k: f(v) for k, v in d.items()}]. *)
Definition map_values {V W : Type} (f : V -> W) (d : dict V) : dict W :=
  map (fun kv => (fst kv, f (snd kv))) d.

(** *** JSON documents as [json.loads] returns them *)

#[warnings="-register-all"]
Inductive json : Type :=
| JNull
| JBool (b : bool)
| JNum (q : Q)
| JStr (s : string)
| JArr (l : list json)
| JObj (d : list (string * json)).

(** A JSON value used as a number: [true] and [false] count as 1 and 0,
    anything else raises [TypeError]. *)
Definition as_number (v : json) : result Q :=
  match v with
  | JNum q => Ok q
  | JBool true => Ok 1%Q
  | JBool false => Ok 0%Q
  | _ => Raise "TypeError: unsupported operand type"
  end.

(** A JSON value used as a dict ([v.get], [v.values()], [v.items()]). *)
Definition as_dict (v : json) : result (dict json) :=
  match v with
  | JObj d => Ok d
  | _ => Raise "AttributeError: object is not a dict"
  end.

(** A dict of numbers as a JSON object, and back. *)
Definition json_of_allocation (a : dict Q) : json := JObj (map_values JNum a).

Definition allocation_of_json (v : json) : result (dict Q) :=
  d <- as_dict v ;;
  mapM (fun kv => q <- as_number (snd kv) ;; Ok (fst kv, q)) d.

End Py.

(** ** [portfolio_engine.py]: scenario weights *)

Module PortfolioEngine.
Import Py.

(** [self.config['sectors']]. *)
Definition sectors : list string :=
  ["XLK"; "XLV"; "XLF"; "XLY"; "XLP"; "XLE"; "ICLN"; "XLI"; "XLB"; "XLU";
   "XLRE"; "XLC"; "CRYPTO"].

(** [self.config['scenarios']]. *)
Definition scenarios : list string :=
  ["benchmark"; "momentum"; "aggressive"; "defensive"; "contrarian"; "spy_only"].

(** An entry of [sentiment_data['sector_sentiment']]; only ['score'] is read. *)
Record sector_entry : Type := { score : option Q }.

Record sentiment_data : Type := { sector_sentiment : option (dict sector_entry) }.

(** [sector_scores.get(s, {}).get('score', 0)]. *)
Definition score_of (sector_scores : dict sector_entry) (s : string) : Q :=
  match get s sector_scores with
  | Some e => match score e with Some q => q | None => 0%Q end
  | None => 0%Q
  end.

(** [{k: (v/total)*100 for k, v in allocations.items()}] with
    [total = sum(allocations.values())]. *)
Definition normalize (allocations : dict Q) : dict Q :=
  let total := sum (values allocations) in
  map_values (fun v => ((v / total) * 100)%Q) allocations.

Definition momentum_weight (sector_scores : dict sector_entry) (s : string) : Q :=
  let base_weight := (100 / len sectors)%Q in
  let adjustment := (score_of sector_scores s * 50)%Q in
  max 2 (min 20 (base_weight + adjustment)%Q).

Definition aggressive_weight (sector_scores : dict sector_entry) (s : string) : Q :=
  let sorted_sectors := sorted_desc (score_of sector_scores) sectors in
  let top_3 := firstn 3 sorted_sectors in
  if mem s top_3 then 30%Q else 1%Q.

Definition defensive_base : list string := ["XLU"; "XLP"; "XLV"; "XLRE"; "XLF"].

Definition defensive_weight (sector_scores : dict sector_entry) (s : string) : Q :=
  let sc := score_of sector_scores s in
  let base := if mem s defensive_base then 15%Q else 3%Q in
  if Qlt_bool (4 # 10) sc then (base + 5)%Q
  else if Qlt_bool sc (- (3 # 10)) then max 1 (base - 5)%Q
  else base.

Definition contrarian_weight (sector_scores : dict sector_entry) (s : string) : Q :=
  let base_weight := (100 / len sectors)%Q in
  let adjustment := (- score_of sector_scores s * 50)%Q in
  max 2 (min 20 (base_weight + adjustment)%Q).

(** [PortfolioEngine.calculate_rebalance]. *)
Definition calculate_rebalance (scenario : string) (sd : sentiment_data) : dict Q :=
  if String.eqb scenario "spy_only" then [("SPY", 100%Q)]
  else if String.eqb scenario "benchmark" then
    let equal_weight := (100 / len sectors)%Q in
    map (fun s => (s, equal_weight)) sectors
  else
    let sector_scores :=
      match sector_sentiment sd with Some d => d | None => [] end in
    if String.eqb scenario "momentum" then
      normalize (build (momentum_weight sector_scores) sectors)
    else if String.eqb scenario "aggressive" then
      build (aggressive_weight sector_scores) sectors
    else if String.eqb scenario "defensive" then
      normalize (build (defensive_weight sector_scores) sectors)
    else if String.eqb scenario "contrarian" then
      normalize (build (contrarian_weight sector_scores) sectors)
    else [].

(** *** A sentiment snapshot *)

Definition entry (q : Q) : sector_entry := {| score := Some q |}.

(** Scores with a tie at 0.8 behind the leader. *)
Definition tied_sentiment : sentiment_data :=
  {| sector_sentiment :=
       Some [("XLK", entry (9 # 10)); ("XLF", entry (8 # 10));
             ("XLE", entry (8 # 10)); ("XLU", entry (- (5 # 10)))] |}.

End PortfolioEngine.

(** ** [weekly_rebalance.py]: the allocator of the weekly run *)

Module WeeklyRebalance.
Import Py.

(** [{k: round((v/total)*100, 2) for k, v in allocations.items()}]. *)
Definition normalize_rounded (allocations : dict Q) : dict Q :=
  let total := sum (values allocations) in
  map_values (fun v => round ((v / total) * 100) 2) allocations.

(** [calculate_new_allocations(scenario, sentiment)]: the formulas of
    [PortfolioEngine.calculate_rebalance] over the same sectors, every
    weight rounded to 2 decimals. *)
Definition calculate_new_allocations (scenario : string)
  (sentiment : PortfolioEngine.sentiment_data) : dict Q :=
  let sectors := PortfolioEngine.sectors in
  let sector_scores :=
    match PortfolioEngine.sector_sentiment sentiment with
    | Some d => d
    | None => []
    end in
  if String.eqb scenario "spy_only" then [("SPY", 100%Q)]
  else if String.eqb scenario "benchmark" then
    let equal := (100 / len sectors)%Q in
    map (fun s => (s, round equal 2)) sectors
  else if String.eqb scenario "momentum" then
    normalize_rounded (build (PortfolioEngine.momentum_weight sector_scores) sectors)
  else if String.eqb scenario "aggressive" then
    normalize_rounded (build (PortfolioEngine.aggressive_weight sector_scores) sectors)
  else if String.eqb scenario "defensive" then
    normalize_rounded (build (PortfolioEngine.defensive_weight sector_scores) sectors)
  else if String.eqb scenario "contrarian" then
    normalize_rounded (build (PortfolioEngine.contrarian_weight sector_scores) sectors)
  else [].

End WeeklyRebalance.

(** ** [harvester.py]: sector classification and sentiment aggregation *)

Module Harvester.
Import Py.

(** [sectors[code]]; classification reads its ['keywords'] only. *)
Record sector_info : Type := { keywords : list string }.

(** A headline dict: ['title'] and ['source'] from the fetchers, ['sectors']
    set by the classifier, ['sentiment'] set by the aggregation. *)
Record headline : Type := {
  title : string;
  source : string;
  hl_sectors : option (list string);
  sentiment : option Q
}.

Definition with_sectors (hl : headline) (s : list string) : headline :=
  {| title := title hl; source := source hl;
     hl_sectors := Some s; sentiment := sentiment hl |}.

Definition with_sentiment (hl : headline) (q : Q) : headline :=
  {| title := title hl; source := source hl;
     hl_sectors := hl_sectors hl; sentiment := Some q |}.

(** The inner loop of [classify_sectors]: some keyword occurs in the title. *)
Definition keyword_match (title_lower : string) (info : sector_info) : bool :=
  existsb (fun keyword => contains (lower keyword) title_lower) (keywords info).

(** [classify_sectors(headline, sectors)]. *)
Definition classify_sectors (hl : headline) (sectors : dict sector_info)
  : list string :=
  let title_lower := lower (title hl) in
  let matched :=
    keys (filter (fun kv => keyword_match title_lower (snd kv)) sectors) in
  match matched with
  | [] => ["general"]
  | _ => matched
  end.

Definition strong_positive : list string :=
  ["surge"; "soar"; "skyrocket"; "boom"; "breakout"; "record high";
   "all-time high"; "beat expectations"; "blowout"; "massive gain"].

Definition positive : list string :=
  ["rise"; "gain"; "up"; "jump"; "rally"; "climb"; "advance"; "bullish";
   "optimistic"; "growth"; "profit"; "beat"; "upgrade"; "buy"; "outperform";
   "strong"; "recovery"; "expand"; "success"; "boost"; "improve"; "positive";
   "higher"; "increase"; "exceed"; "momentum"; "breakthrough"; "innovation";
   "deal"; "partnership"; "acquisition"; "launch"; "stijg"; "winst"; "groei";
   "positief"].

Definition strong_negative : list string :=
  ["crash"; "plunge"; "collapse"; "tank"; "disaster"; "crisis"; "bankruptcy";
   "fraud"; "scandal"; "all-time low"; "miss badly"].

Definition negative : list string :=
  ["fall"; "drop"; "down"; "decline"; "sink"; "slip"; "bearish";
   "pessimistic"; "loss"; "miss"; "cut"; "downgrade"; "sell"; "underperform";
   "weak"; "warning"; "risk"; "fear"; "concern"; "worry"; "threat"; "layoff";
   "recession"; "inflation"; "debt"; "default"; "lawsuit"; "investigation";
   "probe"; "lower"; "decrease"; "slowdown"; "delay"; "daal"; "verlies";
   "negatief"; "risico"].

(** [for word in words: if word in text: score += step]. *)
Definition count_words (text : string) (words : list string) (step score : Q) : Q :=
  fold_left (fun sc word => if contains word text then (sc + step)%Q else sc)
    words score.

(** [simple_sentiment(text)]. *)
Definition simple_sentiment (text : string) : Q :=
  let text_lower := lower text in
  let score := count_words text_lower strong_positive (4 # 10) 0%Q in
  let score := count_words text_lower positive (15 # 100) score in
  let score := count_words text_lower strong_negative (- (4 # 10)) score in
  let score := count_words text_lower negative (- (15 # 100)) score in
  max (min score 1) (- (1)).

(** [sector_data[code]]: the member headlines and their scores. *)
Record bucket : Type := { b_headlines : list headline; b_scores : list Q }.

Definition empty_bucket : bucket := {| b_headlines := []; b_scores := [] |}.

(** An entry of the aggregation result. *)
Record sector_result : Type := {
  score : Q;
  count : nat;
  signal : string;
  top_positive : list string;
  top_negative : list string
}.

(** The body of the loop over [hl.get('sectors', ['general'])]. *)
Definition add_to_sector (hl : headline) (s : Q)
  (sector_data : dict bucket) (sector : string) : dict bucket :=
  match get sector sector_data with
  | Some b =>
      set sector {| b_headlines := b_headlines b ++ [hl];
                    b_scores := b_scores b ++ [s] |} sector_data
  | None => sector_data
  end.

(** [hl.get('sectors', ['general'])]. *)
Definition tags (hl : headline) : list string :=
  match hl_sectors hl with Some l => l | None => ["general"] end.

(** The scorer is a parameter: [simple_sentiment] here, the model-backed
    scorer in the other harvester. *)
Definition add_headline (scorer : string -> Q)
  (sector_data : dict bucket) (hl : headline) : dict bucket :=
  let s := scorer (title hl) in
  let hl' := with_sentiment hl (round s 2) in
  fold_left (add_to_sector hl' s) (tags hl) sector_data.

Definition signal_of (avg : Q) : string :=
  if Qlt_bool (25 # 100) avg then "BUY"
  else if Qlt_bool avg (- (25 # 100)) then "SELL" else "HOLD".

Definition sentiment_or_zero (h : headline) : Q :=
  match sentiment h with Some q => q | None => 0%Q end.

Definition summarize (b : bucket) : sector_result :=
  let avg := (sum (b_scores b) / len (b_scores b))%Q in
  let top_headlines :=
    firstn 5 (sorted_desc (fun h => abs (sentiment_or_zero h)) (b_headlines b)) in
  {| score := round avg 3;
     count := List.length (b_scores b);
     signal := signal_of avg;
     top_positive :=
       firstn 2 (map (fun h => substring 0 80 (title h))
                   (filter (fun h => Qlt_bool 0 (sentiment_or_zero h)) top_headlines));
     top_negative :=
       firstn 2 (map (fun h => substring 0 80 (title h))
                   (filter (fun h => Qlt_bool (sentiment_or_zero h) 0) top_headlines)) |}.

(** [aggregate_sentiment(headlines, sectors)], for any scorer. *)
Definition aggregate_with (scorer : string -> Q)
  (headlines : list headline) (sectors : dict sector_info)
  : dict sector_result :=
  let sector_data :=
    set "general" empty_bucket (map_values (fun _ => empty_bucket) sectors) in
  let sector_data := fold_left (add_headline scorer) headlines sector_data in
  map_values summarize
    (filter (fun kv => match b_scores (snd kv) with [] => false | _ => true end)
       sector_data).

Definition aggregate_sentiment : list headline -> dict sector_info -> dict sector_result :=
  aggregate_with simple_sentiment.

(** The two steps of [harvest_all] that the report's sector sentiment comes
    from: tag every headline, then aggregate. *)
Definition harvest_sentiment (headlines : list headline)
  (sectors : dict sector_info) : dict sector_result :=
  aggregate_sentiment
    (map (fun hl => with_sectors hl (classify_sectors hl sectors)) headlines)
    sectors.

(** *** Vocabulary of the properties *)

(** A bucket after one more member, and after a run of members. *)
Definition push (hl : headline) (s : Q) (b : bucket) : bucket :=
  {| b_headlines := b_headlines b ++ [hl]; b_scores := b_scores b ++ [s] |}.

Definition extend (scorer : string -> Q) (hls : list headline) (b : bucket)
  : bucket :=
  {| b_headlines :=
       b_headlines b
       ++ map (fun hl => with_sentiment hl (round (scorer (title hl)) 2)) hls;
     b_scores := b_scores b ++ map (fun hl => scorer (title hl)) hls |}.

Definition nonempty (b : bucket) : bool :=
  match b_scores b with [] => false | _ => true end.

(** The members of sector [c]: the headlines the classifier tags with it. *)
Definition members (headlines : list headline) (sectors : dict sector_info)
  (c : string) : list headline :=
  filter (fun hl => mem c (classify_sectors hl sectors)) headlines.

Definition mean (xs : list Q) : Q := (sum xs / len xs)%Q.

(** *** A small harvest *)

Definition two_sectors : dict sector_info :=
  [("XLK", {| keywords := ["tech"; "chip"] |});
   ("XLE", {| keywords := ["oil"; "energy"] |})].

Definition fresh (t : string) : headline :=
  {| title := t; source := "wire"; hl_sectors := None; sentiment := None |}.

Definition three_headlines : list headline :=
  [fresh "Chip stocks surge on record high demand";
   fresh "Oil prices fall as tech shares rally";
   fresh "Central bank holds rates"].

End Harvester.

(** ** [llm_sentiment.py]: the sector sentiment recomputed from model scores *)

Module LlmSentiment.
Import Py.

(** An entry of [harvest['sector_sentiment']] as [save_llm_results] writes it. *)
Record sector_summary : Type := { score : Q; count : nat; signal : string }.

(** A result of the analysis: each key is read with [.get]. *)
Record llm_result : Type := {
  r_title : option string;
  r_sentiment : option Q;
  r_sectors : option (list string)
}.

Definition title_key (t : string) : string := substring 0 50 t.

(** [{r.get('title', '')[:50]: r for r in results}]. *)
Definition title_to_result (results : list llm_result) : dict llm_result :=
  fold_left
    (fun acc r =>
       set (title_key (match r_title r with Some t => t | None => EmptyString end))
         r acc)
    results [].

(** The update of one headline from the analysis results. *)
Definition update_headline (by_title : dict llm_result) (h : Harvester.headline)
  : Harvester.headline :=
  match get (title_key (Harvester.title h)) by_title with
  | Some r =>
      {| Harvester.title := Harvester.title h;
         Harvester.source := Harvester.source h;
         Harvester.hl_sectors :=
           Some (match r_sectors r with
                 | Some l => l
                 | None => Harvester.tags h
                 end);
         Harvester.sentiment :=
           Some (match r_sentiment r with
                 | Some q => q
                 | None => Harvester.sentiment_or_zero h
                 end) |}
  | None => h
  end.

(** The loop that fills [sector_scores]: a sector gets its list of scores
    when the first headline tagged with it is met. *)
Definition add_scores (sector_scores : dict (list Q)) (h : Harvester.headline)
  : dict (list Q) :=
  let sent := Harvester.sentiment_or_zero h in
  fold_left
    (fun acc sector => set sector (get_default sector [] acc ++ [sent]) acc)
    (Harvester.tags h) sector_scores.

Definition summarize (scores : list Q) : sector_summary :=
  let avg := (sum scores / len scores)%Q in
  {| score := round avg 3;
     count := List.length scores;
     signal := Harvester.signal_of avg |}.

(** The recomputation of [harvest['sector_sentiment']]. *)
Definition recalculate (headlines : list Harvester.headline) : dict sector_summary :=
  map_values summarize
    (filter (fun kv => match snd kv with [] => false | _ => true end)
       (fold_left add_scores headlines [])).

(** [save_llm_results(results)] on the headlines of the harvest: the
    updated headlines and the sector sentiment. *)
Definition save_llm_results (results : list llm_result)
  (headlines : list Harvester.headline)
  : list Harvester.headline * dict sector_summary :=
  let headlines := map (update_headline (title_to_result results)) headlines in
  (headlines, recalculate headlines).

(** *** Vocabulary of the properties *)

(** The scores filed under sector [c]: one per tag [c] of a headline. *)
Definition scores_for (c : string) (headlines : list Harvester.headline) : list Q :=
  flat_map
    (fun h =>
       map (fun _ => Harvester.sentiment_or_zero h)
         (filter (String.eqb c) (Harvester.tags h)))
    headlines.

End LlmSentiment.

(** ** Python floats as binary64 *)

Module Float64.
Import PrimFloat SpecFloat FloatOps.

(** The integer nearest to [num / den] (with [den > 0]), a tie going to
    the even one. *)
Definition half_even (num den : Z) : Z :=
  let q := (num / den)%Z in
  let r := (num mod den)%Z in
  match (2 * r ?= den)%Z with
  | Lt => q
  | Gt => (q + 1)%Z
  | Eq => if Z.even q then q else (q + 1)%Z
  end.

(** The float nearest to the decimal number [k / 10^n], with the sign
    given: the correctly rounded quotient of the two integers. *)
Definition decimal (negative : bool) (k : Z) (n : nat) : float :=
  match k with
  | Z.pos p =>
      SF2Prim (SFdiv prec emax (S754_finite negative p 0)
                 (S754_finite false (Z.to_pos (Py.pow10 n)) 0))
  | _ => SF2Prim (S754_zero negative)
  end.

(** [m * 2^e * 10^n] as a fraction of integers. *)
Definition scaled (m : positive) (e : Z) (n : nat) : Z * Z :=
  if (0 <=? e)%Z then ((Z.pos m * Py.pow10 n * 2 ^ e)%Z, 1%Z)
  else ((Z.pos m * Py.pow10 n)%Z, (2 ^ (- e))%Z).

(** [round(x, n)] for a float [x] and [n >= 0]: the exact value of [x],
    which is [m * 2^e] up to its sign, is rounded to [n] decimals, a tie
    going to the even neighbour, and the result is the float nearest to
    that decimal number.  Zeros, infinities and NaN are returned as they
    are. *)
Definition round (x : float) (n : nat) : float :=
  match Prim2SF x with
  | S754_finite s m e =>
      let (num, den) := scaled m e n in decimal s (half_even num den) n
  | _ => x
  end.


(** [len(xs)] as a float. *)
Definition len {A : Type} (xs : list A) : float :=
  of_uint63 (Uint63.of_Z (Z.of_nat (List.length xs))).

(** [max(a, b)] and [min(a, b)] of Python: the first argument wins ties. *)
Definition max (a b : float) : float := if ltb a b then b else a.

Definition min (a b : float) : float := if ltb b a then b else a.

(** [sum(xs)] as CPython computes it up to version 3.11: left to right
    from 0.  (From 3.12 on it carries a compensation term; the two agree
    on a list with one element, and wherever every addition is exact.) *)
Definition left_sum (xs : list float) : float := fold_left add xs 0%float.

(** [sorted(xs, key=..., reverse=True)] on float keys: descending and
    stable. *)
Fixpoint insert_desc {A : Type} (key : A -> float) (x : A) (l : list A)
  : list A :=
  match l with
  | [] => [x]
  | y :: r => if ltb (key x) (key y) then y :: insert_desc key x r else x :: l
  end.

Definition sorted_desc {A : Type} (key : A -> float) (l : list A) : list A :=
  fold_right (insert_desc key) [] l.

End Float64.

(** ** [harvester.py]: the sector sentiment in floating point

    The same functions as in [Harvester], with the scores as the binary64
    numbers the interpreter computes: the sum of 0.15 and 0.4 steps, the
    mean and the rounding are not those of the decimal fractions. *)

Module Harvester64.
Import Py PrimFloat.

#[local] Set Warnings "-inexact-float".

(** A headline dict, its ['sentiment'] a float. *)
Record headline : Type := {
  title : string;
  source : string;
  hl_sectors : option (list string);
  sentiment : option float
}.

Definition with_sectors (hl : headline) (s : list string) : headline :=
  {| title := title hl; source := source hl;
     hl_sectors := Some s; sentiment := sentiment hl |}.

Definition with_sentiment (hl : headline) (x : float) : headline :=
  {| title := title hl; source := source hl;
     hl_sectors := hl_sectors hl; sentiment := Some x |}.

(** [classify_sectors(headline, sectors)]. *)
Definition classify_sectors (hl : headline)
  (sectors : dict Harvester.sector_info) : list string :=
  let title_lower := lower (title hl) in
  let matched :=
    keys (filter (fun kv => Harvester.keyword_match title_lower (snd kv)) sectors) in
  match matched with
  | [] => ["general"]
  | _ => matched
  end.

(** [for word in words: if word in text: score += step] and the same with
    [score -= step]. *)
Definition add_words (text : string) (words : list string) (step score : float)
  : float :=
  fold_left (fun sc word => if contains word text then (sc + step)%float else sc)
    words score.

Definition sub_words (text : string) (words : list string) (step score : float)
  : float :=
  fold_left (fun sc word => if contains word text then (sc - step)%float else sc)
    words score.

(** [simple_sentiment(text)]. *)
Definition simple_sentiment (text : string) : float :=
  let text_lower := lower text in
  let score := add_words text_lower Harvester.strong_positive 0.4%float 0%float in
  let score := add_words text_lower Harvester.positive 0.15%float score in
  let score := sub_words text_lower Harvester.strong_negative 0.4%float score in
  let score := sub_words text_lower Harvester.negative 0.15%float score in
  Float64.max (Float64.min score 1%float) (-1)%float.

(** [sector_data[code]]: the member headlines and their scores. *)
Record bucket : Type := { b_headlines : list headline; b_scores : list float }.

Definition empty_bucket : bucket := {| b_headlines := []; b_scores := [] |}.

(** An entry of the aggregation result. *)
Record sector_result : Type := {
  score : float;
  count : nat;
  signal : string;
  top_positive : list string;
  top_negative : list string
}.

(** The body of the loop over [hl.get('sectors', ['general'])]. *)
Definition add_to_sector (hl : headline) (s : float)
  (sector_data : dict bucket) (sector : string) : dict bucket :=
  match get sector sector_data with
  | Some b =>
      set sector {| b_headlines := b_headlines b ++ [hl];
                    b_scores := b_scores b ++ [s] |} sector_data
  | None => sector_data
  end.

(** [hl.get('sectors', ['general'])]. *)
Definition tags (hl : headline) : list string :=
  match hl_sectors hl with Some l => l | None => ["general"] end.

Definition add_headline (scorer : string -> float)
  (sector_data : dict bucket) (hl : headline) : dict bucket :=
  let s := scorer (title hl) in
  let hl' := with_sentiment hl (Float64.round s 2) in
  fold_left (add_to_sector hl' s) (tags hl) sector_data.

(** ['BUY' if avg > 0.25 else ('SELL' if avg < -0.25 else 'HOLD')]. *)
Definition signal_of (avg : float) : string :=
  if ltb 0.25%float avg then "BUY"
  else if ltb avg (-0.25)%float then "SELL" else "HOLD".

Definition sentiment_or_zero (h : headline) : float :=
  match sentiment h with Some x => x | None => 0%float end.

Section WithSum.

(** The builtin [sum] on a list of floats. *)
Variable py_sum : list float -> float.

Definition summarize (b : bucket) : sector_result :=
  let avg := (py_sum (b_scores b) / Float64.len (b_scores b))%float in
  let top_headlines :=
    firstn 5 (Float64.sorted_desc (fun h => abs (sentiment_or_zero h))
                (b_headlines b)) in
  {| score := Float64.round avg 3;
     count := List.length (b_scores b);
     signal := signal_of avg;
     top_positive :=
       firstn 2 (map (fun h => substring 0 80 (title h))
                   (filter (fun h => ltb 0%float (sentiment_or_zero h))
                      top_headlines));
     top_negative :=
       firstn 2 (map (fun h => substring 0 80 (title h))
                   (filter (fun h => ltb (sentiment_or_zero h) 0%float)
                      top_headlines)) |}.

(** [aggregate_sentiment(headlines, sectors)], for any scorer. *)
Definition aggregate_with (scorer : string -> float)
  (headlines : list headline) (sectors : dict Harvester.sector_info)
  : dict sector_result :=
  let sector_data :=
    set "general" empty_bucket (map_values (fun _ => empty_bucket) sectors) in
  let sector_data := fold_left (add_headline scorer) headlines sector_data in
  map_values summarize
    (filter (fun kv => match b_scores (snd kv) with [] => false | _ => true end)
       sector_data).

Definition aggregate_sentiment
  : list headline -> dict Harvester.sector_info -> dict sector_result :=
  aggregate_with simple_sentiment.

(** The two steps of [harvest_all] that the report's sector sentiment comes
    from: tag every headline, then aggregate. *)
Definition harvest_sentiment (headlines : list headline)
  (sectors : dict Harvester.sector_info) : dict sector_result :=
  aggregate_sentiment
    (map (fun hl => with_sectors hl (classify_sectors hl sectors)) headlines)
    sectors.

(** The mean as the code computes it. *)
Definition mean (xs : list float) : float := (py_sum xs / Float64.len xs)%float.

End WithSum.

(** *** [llm_sentiment.py]: the recomputation *)

(** An entry of [harvest['sector_sentiment']] as [save_llm_results] writes it. *)
Record sector_summary : Type := {
  s_score : float; s_count : nat; s_signal : string
}.

(** A result of the analysis: each key is read with [.get]. *)
Record llm_result : Type := {
  r_title : option string;
  r_sentiment : option float;
  r_sectors : option (list string)
}.

(** [{r.get('title', '')[:50]: r for r in results}]. *)
Definition title_to_result (results : list llm_result) : dict llm_result :=
  fold_left
    (fun acc r =>
       set (LlmSentiment.title_key
              (match r_title r with Some t => t | None => EmptyString end))
         r acc)
    results [].

(** The update of one headline from the analysis results. *)
Definition update_headline (by_title : dict llm_result) (h : headline)
  : headline :=
  match get (LlmSentiment.title_key (title h)) by_title with
  | Some r =>
      {| title := title h;
         source := source h;
         hl_sectors :=
           Some (match r_sectors r with Some l => l | None => tags h end);
         sentiment :=
           Some (match r_sentiment r with
                 | Some x => x
                 | None => sentiment_or_zero h
                 end) |}
  | None => h
  end.

(** The loop that fills [sector_scores]. *)
Definition add_scores (sector_scores : dict (list float)) (h : headline)
  : dict (list float) :=
  let sent := sentiment_or_zero h in
  fold_left
    (fun acc sector => set sector (get_default sector [] acc ++ [sent]) acc)
    (tags h) sector_scores.

Section Recalculation.

Variable py_sum : list float -> float.

Definition summarize_scores (scores : list float) : sector_summary :=
  let avg := (py_sum scores / Float64.len scores)%float in
  {| s_score := Float64.round avg 3;
     s_count := List.length scores;
     s_signal := signal_of avg |}.

(** The recomputation of [harvest['sector_sentiment']]. *)
Definition recalculate (headlines : list headline) : dict sector_summary :=
  map_values summarize_scores
    (filter (fun kv => match snd kv with [] => false | _ => true end)
       (fold_left add_scores headlines [])).

(** [save_llm_results(results)] on the headlines of the harvest. *)
Definition save_llm_results (results : list llm_result)
  (headlines : list headline) : list headline * dict sector_summary :=
  let headlines := map (update_headline (title_to_result results)) headlines in
  (headlines, recalculate headlines).

End Recalculation.

(** *** Vocabulary of the properties *)

Definition push (hl : headline) (s : float) (b : bucket) : bucket :=
  {| b_headlines := b_headlines b ++ [hl]; b_scores := b_scores b ++ [s] |}.

Definition extend (scorer : string -> float) (hls : list headline) (b : bucket)
  : bucket :=
  {| b_headlines :=
       b_headlines b
       ++ map (fun hl => with_sentiment hl (Float64.round (scorer (title hl)) 2))
            hls;
     b_scores := b_scores b ++ map (fun hl => scorer (title hl)) hls |}.

Definition nonempty (b : bucket) : bool :=
  match b_scores b with [] => false | _ => true end.

(** The members of sector [c]: the headlines the classifier tags with it. *)
Definition members (headlines : list headline)
  (sectors : dict Harvester.sector_info) (c : string) : list headline :=
  filter (fun hl => mem c (classify_sectors hl sectors)) headlines.

(** The scores filed under sector [c]: one per tag [c] of a headline. *)
Definition scores_for (c : string) (headlines : list headline) : list float :=
  flat_map
    (fun h =>
       map (fun _ => sentiment_or_zero h) (filter (String.eqb c) (tags h)))
    headlines.

(** *** Headlines on a threshold *)

Definition fresh (t : string) : headline :=
  {| title := t; source := "wire"; hl_sectors := None; sentiment := None |}.

(** Three positive words (growth, profit, rally), one strong negative
    (crash) and two negative ones (debt, fear): as decimal fractions,
    0.45 - 0.4 - 0.3 = -0.25. *)
Definition mixed_headline : headline :=
  fresh "Growth and profit rally ends in crash on debt fear".

(** One positive word (rally) and three headlines without any. *)
Definition quiet_headlines : list headline :=
  [fresh "Markets rally"; fresh "Central bank holds rates";
   fresh "Parliament votes on Tuesday"; fresh "Weather stays mild"].

End Harvester64.

(** ** [daily_learning.py]: the sector sensitivity update *)

Module DailyLearning.
Import Py.

(** An entry of [model['sector_sensitivity']]; each field is read with
    [.get(field, default)]. *)
Record sensitivity : Type := {
  sentiment_multiplier : option Q;
  correct_predictions : option Z;
  total_predictions : option Z
}.

(** The default entry for a sector the model has not seen. *)
Definition default_sensitivity : sensitivity :=
  {| sentiment_multiplier := Some 1%Q;
     correct_predictions := Some 0%Z;
     total_predictions := Some 0%Z |}.

(** An entry of [sentiment['sector_sentiment']]; only ['score'] is read. *)
Record sent_data : Type := { score : option Q }.

Definition multiplier_of (s : sensitivity) : Q :=
  match sentiment_multiplier s with Some m => m | None => 1%Q end.

Definition get_Z (o : option Z) : Z := match o with Some z => z | None => 0%Z end.

(** The [if / elif / elif / else] chain that decides [correct]. *)
Definition is_correct (predicted actual : Q) : bool :=
  if Qlt_bool (1 # 10) predicted && Qlt_bool 0 actual then true
  else if Qlt_bool predicted (- (1 # 10)) && Qlt_bool actual 0 then true
  else if Qle_bool (abs predicted) (1 # 10) && Qle_bool (abs actual) 1 then true
  else false.

(** The update of one entry. *)
Definition update_sensitivity (sens : sensitivity) (correct : bool) : sensitivity :=
  let total := (get_Z (total_predictions sens) + 1)%Z in
  if correct then
    {| sentiment_multiplier := Some (min 2 (multiplier_of sens * (102 # 100))%Q);
       correct_predictions := Some (get_Z (correct_predictions sens) + 1)%Z;
       total_predictions := Some total |}
  else
    {| sentiment_multiplier := Some (max (1 # 2) (multiplier_of sens * (98 # 100))%Q);
       correct_predictions := correct_predictions sens;
       total_predictions := Some total |}.

(** One turn of the loop over [sector_sentiment.items()]. *)
Definition learn_sector (price_changes : dict Q)
  (sector_sensitivity : dict sensitivity) (item : string * sent_data)
  : dict sensitivity :=
  let (sector, sd) := item in
  match get sector price_changes with
  | None => sector_sensitivity
  | Some actual =>
      let predicted := match score sd with Some p => p | None => 0%Q end in
      let correct := is_correct predicted actual in
      let sens := get_default sector default_sensitivity sector_sensitivity in
      set sector (update_sensitivity sens correct) sector_sensitivity
  end.

(** The sector part of [daily_learn]. *)
Definition daily_learn_sectors (sector_sentiment : dict sent_data)
  (price_changes : dict Q) (sector_sensitivity : dict sensitivity)
  : dict sensitivity :=
  fold_left (learn_sector price_changes) sector_sentiment sector_sensitivity.

(** *** A bullish prediction that came true *)

Definition bullish : sent_data := {| score := Some (2 # 10) |}.

Definition rose : dict Q := [("XLV", 3 # 2)].

End DailyLearning.

(** ** [portfolio_engine.py]: the weekly variant of the sensitivity update *)

Module WeeklyLearning.
Import Py.

(** [correct] in [PortfolioEngine.learn_from_week]. *)
Definition is_correct (predicted_direction actual_change : Q) : bool :=
  (Qlt_bool 0 predicted_direction && Qlt_bool 0 actual_change)
  || (Qlt_bool predicted_direction 0 && Qlt_bool actual_change 0)
  || (Qlt_bool (abs predicted_direction) (1 # 10) && Qlt_bool (abs actual_change) 1).

(** The new [sentiment_multiplier] in [PortfolioEngine.learn_from_week]. *)
Definition update_multiplier (multiplier : Q) (correct : bool) : Q :=
  if correct then min 2 (multiplier * (105 # 100))%Q
  else max (1 # 2) (multiplier * (95 # 100))%Q.

(** [sens[field]]: the entry is indexed, a missing field is a [KeyError]. *)
Definition field {A : Type} (name : string) (o : option A) : result A :=
  match o with Some a => Ok a | None => Raise ("KeyError: " ++ name) end.

(** The update of one entry, in place. *)
Definition update_sensitivity (sens : DailyLearning.sensitivity) (correct : bool)
  : result DailyLearning.sensitivity :=
  total <- field "total_predictions" (DailyLearning.total_predictions sens) ;;
  if correct then
    hits <- field "correct_predictions" (DailyLearning.correct_predictions sens) ;;
    m <- field "sentiment_multiplier" (DailyLearning.sentiment_multiplier sens) ;;
    Ok {| DailyLearning.sentiment_multiplier := Some (update_multiplier m true);
          DailyLearning.correct_predictions := Some (hits + 1)%Z;
          DailyLearning.total_predictions := Some (total + 1)%Z |}
  else
    m <- field "sentiment_multiplier" (DailyLearning.sentiment_multiplier sens) ;;
    Ok {| DailyLearning.sentiment_multiplier := Some (update_multiplier m false);
          DailyLearning.correct_predictions := DailyLearning.correct_predictions sens;
          DailyLearning.total_predictions := Some (total + 1)%Z |}.

(** One turn of the loop of [learn_from_week] over the configured sectors. *)
Definition learn_sector (previous_sentiment : dict DailyLearning.sent_data)
  (price_changes : dict Q)
  (sector_sensitivity : dict DailyLearning.sensitivity) (sector : string)
  : result (dict DailyLearning.sensitivity) :=
  let predicted_direction :=
    match get sector previous_sentiment with
    | Some sd => match DailyLearning.score sd with Some p => p | None => 0%Q end
    | None => 0%Q
    end in
  let actual_change := get_default sector 0%Q price_changes in
  let correct := is_correct predicted_direction actual_change in
  match get sector sector_sensitivity with
  | None => Raise ("KeyError: " ++ sector)
  | Some sens =>
      sens' <- update_sensitivity sens correct ;;
      Ok (set sector sens' sector_sensitivity)
  end.

(** *** A weak positive score before a rise of 2% *)

Definition weak_positive : dict DailyLearning.sent_data :=
  [("XLV", {| DailyLearning.score := Some (5 # 100) |})].

Definition rose_2 : dict Q := [("XLV", 2%Q)].

Definition initial_model : dict DailyLearning.sensitivity :=
  [("XLV", DailyLearning.default_sensitivity)].

End WeeklyLearning.

(** ** [ollama_portfolio.py], [ollama_portfolio_v2.py]: Phase-1 selection *)

Module OllamaPortfolio.
Import Py.

(** An entry of [sector_assets.json]. *)
Record stock : Type := { ticker : string; name : string; focus : option string }.

(** [{s['ticker'] for s in available_stocks}]. *)
Definition valid_tickers (stocks : list stock) : list string :=
  dedup (map ticker stocks).

(** [for a in selected]: a list gives its items, a dict its keys, a string
    its characters; anything else is not iterable. *)
Definition iterate (v : json) : result (list json) :=
  match v with
  | JArr l => Ok l
  | JObj d => Ok (map JStr (keys d))
  | JStr s => Ok (map (fun c => JStr (String c EmptyString)) (list_ascii_of_string s))
  | _ => Raise "TypeError: object is not iterable"
  end.

(** [a.get('weight', 0)] used as a number. *)
Definition weight_of (a : dict json) : result Q :=
  as_number (get_default "weight" (JNum 0) a).

(** [asset['weight'] = asset.get('weight', 0) / total_weight;
     asset['amount'] = round(asset['weight'] * budget, 2)]. *)
Definition normalize_asset (total_weight budget : Q) (asset : dict json)
  : result (dict json) :=
  w <- weight_of asset ;;
  let w' := (w / total_weight)%Q in
  Ok (set "amount" (JNum (round (w' * budget) 2)) (set "weight" (JNum w') asset)).

(** [a.get('ticker') in valid_tickers]: a list or a dict is unhashable. *)
Definition ticker_is_valid (valid : list string) (a : dict json) : result bool :=
  match get "ticker" a with
  | Some (JStr t) => Ok (mem t valid)
  | Some (JArr _) | Some (JObj _) => Raise "TypeError: unhashable type"
  | _ => Ok false
  end.

Fixpoint filterM {A : Type} (p : A -> result bool) (l : list A) : result (list A) :=
  match l with
  | [] => Ok []
  | x :: r =>
      b <- p x ;; ys <- filterM p r ;; Ok (if b then x :: ys else ys)
  end.

(** The body of the [try] once [json.loads] has returned [data]: weights
    are normalised first, tickers outside the candidate set dropped after. *)
Definition structured_selection (data : json) (stocks : list stock) (budget : Q)
  : result (list (dict json) * dict json) :=
  d <- as_dict data ;;
  items <- iterate (get_default "selected_assets" (JArr []) d) ;;
  selected <- mapM as_dict items ;;
  weights <- mapM weight_of selected ;;
  let total_weight := sum weights in
  selected <- (if Qlt_bool 0 total_weight
               then mapM (normalize_asset total_weight budget) selected
               else Ok selected) ;;
  selected <- filterM (ticker_is_valid (valid_tickers stocks)) selected ;;
  Ok (selected, d).

(** [mentioned = [t for t in valid_tickers if t in response.upper()]]. *)
Definition mentioned (response : string) (stocks : list stock) : list string :=
  filter (fun t => contains t (upper response)) (valid_tickers stocks).

(** The assets of the lenient fallback: every mentioned ticker weighs
    [1 / len(mentioned)], and the first five are returned. *)
Definition fallback_assets (extra : dict json) (response : string)
  (stocks : list stock) (budget : Q) : list (dict json) :=
  let m := mentioned response stocks in
  let weight := (1 / len m)%Q in
  map (fun t => [("ticker", JStr t); ("weight", JNum weight);
                 ("amount", JNum (round (weight * budget) 2))] ++ extra)
    (firstn 5 m).

Section WithJson.

(** [json.loads]; [Raise] is a [JSONDecodeError]. *)
Variable json_loads : string -> result json.

(** [parse_portfolio_response(response, available_stocks, budget)]: only a
    [JSONDecodeError] leads to the fallback, any other exception leaves the
    function. *)
Definition parse_portfolio_response (response : string) (stocks : list stock)
  (budget : Q) : result (option (dict json)) :=
  let structured :=
    match search_braces response with
    | Some text =>
        match json_loads text with
        | Ok data => Some (structured_selection data stocks budget)
        | Raise _ => None
        end
    | None => None
    end in
  match structured with
  | Some (Ok (selected, d)) =>
      Ok (Some [("selected_assets", JArr (map JObj selected));
                ("rationale",
                 get_default "rationale" (JStr "No rationale provided") d);
                ("risk_level", get_default "risk_level" (JStr "medium") d)])
  | Some (Raise e) => Raise e
  | None =>
      match mentioned response stocks with
      | [] => Ok None
      | _ =>
          Ok (Some [("selected_assets",
                     JArr (map JObj
                             (fallback_assets
                                [("reason", JStr "mentioned in response")]
                                response stocks budget)));
                    ("rationale", JStr "Extracted from unstructured response");
                    ("risk_level", JStr "medium")])
      end
  end.

(** The part of [select_assets] (v2) that follows the backend call, on the
    ['response'] text of the reply: here every exception of the structured
    path leads to the fallback. *)
Definition select_assets_from_response (sector : string) (sentiment : Q)
  (stocks : list stock) (budget : Q) (response : string) : option (dict json) :=
  let structured :=
    match search_braces response with
    | Some text =>
        match json_loads text with
        | Ok data =>
            match structured_selection data stocks budget with
            | Ok r => Some r
            | Raise _ => None
            end
        | Raise _ => None
        end
    | None => None
    end in
  match structured with
  | Some (selected, d) =>
      Some [("sector", JStr sector); ("sentiment", JNum sentiment);
            ("selected_assets", JArr (map JObj selected));
            ("rationale", get_default "rationale" (JStr "N/A") d);
            ("risk_level", get_default "risk_level" (JStr "medium") d);
            ("phase", JNum 1)]
  | None =>
      match mentioned response stocks with
      | [] => None
      | _ =>
          Some [("sector", JStr sector); ("sentiment", JNum sentiment);
                ("selected_assets",
                 JArr (map JObj (fallback_assets [] response stocks budget)));
                ("rationale", JStr "Extracted from response");
                ("risk_level", JStr "medium");
                ("phase", JNum 1)]
      end
  end.

(** [select_assets(sector, sentiment, scenario, budget)] (v2), given the
    outcome of the backend call: the body of the HTTP reply, or the
    exception [urlopen] raised. *)
Definition select_assets (sector : string) (sentiment : Q) (stocks : list stock)
  (budget : Q) (reply : result string) : option (dict json) :=
  match stocks with
  | [] => None
  | _ =>
      match reply with
      | Raise _ => None
      | Ok body =>
          match json_loads body with
          | Ok (JObj result) =>
              match get_default "response" (JStr EmptyString) result with
              | JStr response =>
                  select_assets_from_response sector sentiment stocks budget response
              | _ => None
              end
          | _ => None
          end
      end
  end.

End WithJson.

(** *** Reading a selection *)

(** The asset dicts of a selection result. *)
Definition assets_of (r : dict json) : list (dict json) :=
  match get "selected_assets" r with
  | Some (JArr l) =>
      flat_map (fun v => match v with JObj a => [a] | _ => [] end) l
  | _ => []
  end.

Definition ticker_of (a : dict json) : option string :=
  match get "ticker" a with Some (JStr t) => Some t | _ => None end.

Definition weight_or_zero (a : dict json) : Q :=
  match get "weight" a with Some (JNum q) => q | _ => 0%Q end.

Definition total_weight (r : dict json) : Q :=
  sum (map weight_or_zero (assets_of r)).

(** *** Two responses *)

Definition mk_stock (t : string) : stock :=
  {| ticker := t; name := t; focus := None |}.

(** A structured response that selects a candidate and a ticker outside
    the candidate set, each with weight 0.5: the document
    [{selected_assets: [{ticker: AAPL, weight: 0.5}, {ticker: TSLA, weight: 0.5}]}]. *)
Definition two_assets_doc : json :=
  JObj [("selected_assets",
         JArr [JObj [("ticker", JStr "AAPL"); ("weight", JNum (1 # 2))];
               JObj [("ticker", JStr "TSLA"); ("weight", JNum (1 # 2))]])].

Definition two_assets_text : string := "{selected_assets: AAPL 0.5, TSLA 0.5}".

(** A [json.loads] that reads [two_assets_text] as [two_assets_doc]. *)
Definition two_assets_loads (text : string) : result json :=
  if String.eqb text two_assets_text then Ok two_assets_doc
  else Raise "JSONDecodeError".

Definition two_stocks : list stock := [mk_stock "AAPL"; mk_stock "MSFT"].

(** A response without JSON that mentions six candidates. *)
Definition six_stocks : list stock :=
  map mk_stock ["AAPL"; "MSFT"; "NVDA"; "GOOG"; "AMZN"; "META"].

Definition six_mentions : string := "Buy aapl, msft, nvda, goog, amzn and meta.".

Definition no_json (text : string) : result json := Raise "JSONDecodeError".

End OllamaPortfolio.

(** ** [refined_strategy.py]: Phase-2 refinement *)

Module RefinedStrategy.
Import Py.

(** What [requests.post] does: it raises (timeout, connection error) or
    returns a reply with a status code and a body. *)
Inductive reply : Type :=
| Failed (e : string)
| Reply (status_code : Z) (body : string).

(** What the statements between [json.loads] and the end of the outer
    [try] can raise on a reply of an unexpected shape; the handler uses
    the exception's text only. *)
Inductive failure : Type :=
| NoAttribute (v : json) (attribute : string)
    (* [v.get], [v.strip], [v.values]: AttributeError *)
| NotIterable (v : json)
    (* [result.update(v)]: TypeError *)
| BadUpdateElement (position : nat) (item : json)
    (* [result.update([...])]: an element that is not a pair (TypeError or
       ValueError) or whose key is unhashable (TypeError) *)
| NotSummable (vs : list json).
    (* [sum(new_alloc.values())]: TypeError *)

(** [d.update(items)] for a list [items]: every item must be a pair, and
    the first one that is not stops the update with an exception, the
    earlier ones staying in [d].  Only string keys are recorded: an entry
    under another hashable key is invisible to the string lookups made on
    the result.  [position] is the index of the first of [items]. *)
Fixpoint update_from_items (position : nat) (d : dict json) (items : list json)
  : dict json * option failure :=
  match items with
  | [] => (d, None)
  | item :: rest =>
      match item with
      | JArr [JStr k; v] => update_from_items (S position) (set k v d) rest
      | JArr [JArr _; _] | JArr [JObj _; _] =>
          (d, Some (BadUpdateElement position item))
      | JArr [_; _] => update_from_items (S position) d rest
      | JStr (String a (String b EmptyString)) =>
          update_from_items (S position)
            (set (String a EmptyString) (JStr (String b EmptyString)) d) rest
      | JObj [(k1, _); (k2, _)] =>
          update_from_items (S position) (set k1 (JStr k2) d) rest
      | _ => (d, Some (BadUpdateElement position item))
      end
  end.

(** The extraction of the JSON text from the model's answer. *)
Definition extract_json_text (text : string) : string :=
  if contains "```json" text then
    strip (hd EmptyString (split "```" (nth 1 (split "```json" text) EmptyString)))
  else if contains "```" text then
    strip (hd EmptyString (split "```" (nth 1 (split "```" text) EmptyString)))
  else text.

(** [result["action"] = "keep"; result["reasoning"] = ...;
     result["new_allocation"] = current_allocation; result["confidence"] = 0.0]. *)
Definition keep_with (reasoning : string) (current_allocation : dict Q)
  (result : dict json) : dict json :=
  set "confidence" (JNum 0)
    (set "new_allocation" (json_of_allocation current_allocation)
       (set "reasoning" (JStr reasoning)
          (set "action" (JStr "keep") result))).

(** The outcome of a [refine_allocation] call: the dict it returns, the
    prompts it posted to the backend, and the line it appended to the
    refinement log, if any. *)
Record outcome : Type := {
  returned : dict json;
  posted : list string;
  logged : option (dict json)
}.

Section WithBackend.

(** [json.loads]; [Raise] is a [JSONDecodeError] with its message. *)
Variable json_loads : string -> result json.

(** [requests.post(OLLAMA_URL, json={... "prompt": prompt ...}, timeout=90)]. *)
Variable post : string -> reply.

(** The text [build_refinement_prompt] returns, sent to the backend. *)
Variable build_refinement_prompt :
  string -> Q -> dict Q -> dict json -> list json -> string.

(** [datetime.now().isoformat()] and the formatting of a float. *)
Variable now : string.
Variable format_number : Q -> string.

(** [str(e)] for the exceptions above. *)
Variable exception_text : failure -> string.

(** The statements of the inner [try] after [json.loads] returned
    [decision]: a failure leaves to the outer handler with the [result]
    dict as it is at that moment. *)
Definition apply_decision (decision : json) (result : dict json)
  : dict json * option failure :=
  match decision with
  | JObj d =>
      let result := update result d in
      let new_alloc := get_default "new_allocation" (JObj []) d in
      match allocation_of_json new_alloc with
      | Ok new_alloc =>
          let total := sum (values new_alloc) in
          if Qlt_bool 5 (abs (total - 100))
          then (set "warning"
                  (JStr ("Allocation sums to " ++ format_number total
                         ++ "%, expected 100%")) result, None)
          else (result, None)
      | Raise _ =>
          (result,
           Some (match new_alloc with
                 | JObj a => NotSummable (values a)
                 | v => NoAttribute v "values"
                 end))
      end
  | JArr items =>
      match update_from_items 0 result items with
      | (result, Some e) => (result, Some e)
      | (result, None) => (result, Some (NoAttribute decision "get"))
      end
  | JStr EmptyString => (result, Some (NoAttribute decision "get"))
  | JStr (String c _) =>
      (result, Some (BadUpdateElement 0 (JStr (String c EmptyString))))
  | _ => (result, Some (NotIterable decision))
  end.

(** The body of the outer [try], given the reply of the backend. *)
Definition handle_reply (current_allocation : dict Q) (result : dict json)
  (r : reply) : dict json :=
  match r with
  | Failed e => keep_with ("Exception: " ++ e) current_allocation result
  | Reply status_code body =>
      if (status_code =? 200)%Z then
        match json_loads body with
        | Raise e => keep_with ("Exception: " ++ e) current_allocation result
        | Ok (JObj b) =>
            match get_default "response" (JStr EmptyString) b with
            | JStr raw =>
                let text := extract_json_text (strip raw) in
                match json_loads text with
                | Ok decision =>
                    match apply_decision decision result with
                    | (result, None) => result
                    | (result, Some e) =>
                        keep_with ("Exception: " ++ exception_text e)
                          current_allocation result
                    end
                | Raise e =>
                    set "raw_response" (JStr (substring 0 500 text))
                      (keep_with ("JSON parse error: " ++ e)
                         current_allocation result)
                end
            | v =>
                keep_with ("Exception: " ++ exception_text (NoAttribute v "strip"))
                  current_allocation result
            end
        | Ok v =>
            keep_with ("Exception: " ++ exception_text (NoAttribute v "get"))
              current_allocation result
        end
      else
        keep_with ("Ollama error: " ++ string_of_Z status_code)
          current_allocation result
  end.

(** The [result] dict before the decision is made. *)
Definition initial_result (embeddings : dict json) (sector : string)
  (sentiment_score : Q) (current_allocation : dict Q) (scenario : string)
  : dict json :=
  let tickers := keys current_allocation in
  let have_embeddings := filter (fun t => has_key t embeddings) tickers in
  let missing_embeddings := filter (fun t => negb (has_key t embeddings)) tickers in
  [("sector", JStr sector);
   ("sentiment_score", JNum sentiment_score);
   ("scenario", JStr scenario);
   ("original_allocation", json_of_allocation current_allocation);
   ("embedding_coverage",
    JStr (string_of_nat (List.length have_embeddings) ++ "/"
          ++ string_of_nat (List.length tickers)));
   ("missing_embeddings", JArr (map JStr missing_embeddings));
   ("timestamp", JStr now)].

(** [refine_allocation(sector, sentiment_score, current_allocation, scenario)]
    once the prompt is built, with the company profiles
    ([load_embeddings()]) and the recent news ([get_recent_news(sector)])
    it loads: [build_refinement_prompt] is here a parameter that returns
    the text.  The builder of the source, which raises on profiles and
    news it cannot show, and the call with it are in [RefinementCall]. *)
Definition refine_allocation (embeddings : dict json) (news : list json)
  (sector : string) (sentiment_score : Q) (current_allocation : dict Q)
  (scenario : string) : outcome :=
  let tickers := keys current_allocation in
  let have_embeddings := filter (fun t => has_key t embeddings) tickers in
  let result :=
    initial_result embeddings sector sentiment_score current_allocation scenario in
  match have_embeddings with
  | [] =>
      {| returned :=
           set "confidence" (JNum 0)
             (set "new_allocation" (json_of_allocation current_allocation)
                (set "reasoning" (JStr "No embeddings available for refinement")
                   (set "action" (JStr "keep") result)));
         posted := [];
         logged := None |}
  | _ =>
      let prompt :=
        build_refinement_prompt sector sentiment_score current_allocation
          embeddings news in
      let result := handle_reply current_allocation result (post prompt) in
      {| returned := result; posted := [prompt]; logged := Some result |}
  end.

End WithBackend.

(** *** Vocabulary of the properties *)

(** A decision that is a no-op: keep, with confidence 0.0 and the
    allocation that was passed in. *)
Definition is_noop (current_allocation : dict Q) (result : dict json) : Prop :=
  get "action" result = Some (JStr "keep") /\
  get "confidence" result = Some (JNum 0) /\
  get "new_allocation" result = Some (json_of_allocation current_allocation).

(** *** A reply that keeps, with another allocation *)

Definition keep_other_doc : json :=
  JObj [("action", JStr "keep");
        ("reasoning", JStr "Allocation is fine");
        ("new_allocation", JObj [("MSFT", JNum 100)]);
        ("confidence", JNum (9 # 10))].

Definition keep_other_loads (text : string) : result json :=
  if String.eqb text "body" then Ok (JObj [("response", JStr "decision")])
  else if String.eqb text "decision" then Ok keep_other_doc
  else Raise "JSONDecodeError".

Definition reply_ok (prompt : string) : reply := Reply 200 "body".

Definition reply_timeout (prompt : string) : reply := Failed "Read timed out".

Definition any_prompt (sector : string) (sentiment_score : Q)
  (current_allocation : dict Q) (embeddings : dict json) (news : list json)
  : string := "prompt".

Definition show_number (q : Q) : string := "n".

Definition show_failure (e : failure) : string := "e".

Definition apple_profile : dict json := [("AAPL", JObj [("company_name", JStr "Apple")])].

End RefinedStrategy.

(** ** [refined_strategy.py]: the prompt, and the call as a whole *)

Module RefinementCall.
Import Py RefinedStrategy.

Definition nl : string := String (ascii_of_nat 10) EmptyString.

Definition quoted (s : string) : string :=
  (String (ascii_of_nat 34) EmptyString ++ s
   ++ String (ascii_of_nat 34) EmptyString)%string.

(** The characters of a string, as Python iterates it. *)
Definition chars (s : string) : list string :=
  map (fun c => String c EmptyString) (list_ascii_of_string s).

(** [', '.join(v[:2])]: a list is cut to its first two elements, which
    must be strings; a string is cut to its first two characters; any
    other value cannot be sliced. *)
Definition join_first_two (v : json) : result string :=
  match v with
  | JArr l =>
      parts <- mapM (fun x =>
                       match x with
                       | JStr s => Ok s
                       | _ => Raise "TypeError: sequence item: expected str instance"
                       end)
                 (firstn 2 l) ;;
      Ok (String.concat ", " parts)
  | JStr s => Ok (String.concat ", " (chars (substring 0 2 s)))
  | _ => Raise "TypeError: object cannot be sliced"
  end.

Section WithBackend.

Variable json_loads : string -> result json.
Variable post : string -> reply.
Variable now : string.
Variable format_number : Q -> string.
Variable exception_text : failure -> string.

(** [str(v)], as an f-string shows a value that is not a string. *)
Variable py_str : json -> string.

Definition shown (v : json) : string :=
  match v with JStr s => s | _ => py_str v end.

(** The text added to [company_context] for a ticker with a profile. *)
Definition profile_text (ticker : string) (alloc : Q) (profile : json)
  : result string :=
  match profile with
  | JObj p =>
      risks <- join_first_two (get_default "risks" (JArr []) p) ;;
      catalysts <- join_first_two (get_default "catalysts" (JArr []) p) ;;
      Ok (nl ++ "**" ++ ticker ++ "** (current allocation: "
          ++ py_str (JNum alloc) ++ "%)" ++ nl
          ++ "- Company: " ++ shown (get_default "company_name" (JStr "Unknown") p)
          ++ nl
          ++ "- Business: " ++ shown (get_default "summary" (JStr "N/A") p) ++ nl
          ++ "- Market position: "
          ++ shown (get_default "market_position" (JStr "N/A") p) ++ nl
          ++ "- Volatility: " ++ shown (get_default "volatility" (JStr "N/A") p)
          ++ nl
          ++ "- Key risks: " ++ risks ++ nl
          ++ "- Catalysts: " ++ catalysts ++ nl)%string
  | _ => Raise "AttributeError: object has no attribute 'get'"
  end.

(** The loop over [current_allocation.items()]. *)
Fixpoint company_context (items : list (string * Q)) (embeddings : dict json)
  : result string :=
  match items with
  | [] => Ok EmptyString
  | (ticker, alloc) :: rest =>
      block <- match get ticker embeddings with
               | Some profile => profile_text ticker alloc profile
               | None =>
                   Ok (nl ++ "**" ++ ticker ++ "** (current allocation: "
                       ++ py_str (JNum alloc) ++ "%) - No profile available"
                       ++ nl)%string
               end ;;
      more <- company_context rest embeddings ;;
      Ok (block ++ more)%string
  end.

(** The loop over [news[:5]] and the default that follows it.  The news
    are what [get_recent_news] returned: dicts, since its sort key reads
    [x.get("date", "")] on every item. *)
Definition news_context (news : list (dict json)) : string :=
  let lines :=
    map (fun item =>
           ("- " ++ shown (get_default "title" (JStr "No title") item) ++ nl)%string)
      (firstn 5 news) in
  match String.concat EmptyString lines with
  | EmptyString => ("- No recent news available" ++ nl)%string
  | text => text
  end.

(** [build_refinement_prompt(sector, sentiment_score, current_allocation,
    embeddings, news)]. *)
Definition build_refinement_prompt (sector : string) (sentiment_score : Q)
  (current_allocation : dict Q) (embeddings : dict json)
  (news : list (dict json)) : result string :=
  company <- company_context current_allocation embeddings ;;
  let recent := news_context news in
  Ok ("You are a portfolio strategist refining asset allocations based on company fundamentals and news."
      ++ nl ++ nl
      ++ "## Current Situation" ++ nl
      ++ "**Sector:** " ++ sector ++ nl
      ++ "**Sentiment Score:** " ++ py_str (JNum sentiment_score)
      ++ " (scale: -1 bearish to +1 bullish)" ++ nl ++ nl
      ++ "## Recent News" ++ nl
      ++ recent ++ nl ++ nl
      ++ "## Current Allocation & Company Profiles" ++ nl
      ++ company ++ nl ++ nl
      ++ "## Your Task" ++ nl
      ++ "Review the current allocation considering:" ++ nl
      ++ "1. How each company's business model aligns with current market sentiment"
      ++ nl
      ++ "2. Company-specific risks vs current news themes" ++ nl
      ++ "3. Potential catalysts that could amplify or dampen sector trends" ++ nl
      ++ "4. Volatility characteristics for risk management" ++ nl ++ nl
      ++ "Should the allocation be adjusted? If so, how?" ++ nl ++ nl
      ++ "Return ONLY valid JSON (no markdown, no explanation):" ++ nl
      ++ "{" ++ nl
      ++ "    " ++ quoted "action" ++ ": " ++ quoted "keep" ++ " or "
      ++ quoted "adjust" ++ "," ++ nl
      ++ "    " ++ quoted "reasoning" ++ ": "
      ++ quoted "Brief explanation (1-2 sentences)" ++ "," ++ nl
      ++ "    " ++ quoted "new_allocation" ++ ": {" ++ quoted "TICKER"
      ++ ": percentage, ...}," ++ nl
      ++ "    " ++ quoted "confidence" ++ ": 0.0 to 1.0," ++ nl
      ++ "    " ++ quoted "risk_notes" ++ ": "
      ++ quoted "Any specific risks to watch" ++ nl
      ++ "}" ++ nl ++ nl
      ++ "If action is " ++ quoted "keep"
      ++ ", new_allocation should match current allocation." ++ nl
      ++ "Percentages must sum to 100.")%string.

(** [refine_allocation(sector, sentiment_score, current_allocation, scenario)]
    as a whole, with the company profiles ([load_embeddings()]) and the
    recent news ([get_recent_news(sector)]) it loaded: the prompt is built
    before the [try], so an exception of the builder leaves the function,
    with nothing posted and nothing logged. *)
Definition refine_allocation (embeddings : dict json) (news : list (dict json))
  (sector : string) (sentiment_score : Q) (current_allocation : dict Q)
  (scenario : string) : result outcome :=
  let tickers := keys current_allocation in
  let have_embeddings := filter (fun t => has_key t embeddings) tickers in
  let result :=
    initial_result now embeddings sector sentiment_score current_allocation
      scenario in
  match have_embeddings with
  | [] =>
      Ok {| returned :=
              set "confidence" (JNum 0)
                (set "new_allocation" (json_of_allocation current_allocation)
                   (set "reasoning"
                      (JStr "No embeddings available for refinement")
                      (set "action" (JStr "keep") result)));
            posted := [];
            logged := None |}
  | _ =>
      prompt <- build_refinement_prompt sector sentiment_score
                  current_allocation embeddings news ;;
      let result :=
        handle_reply json_loads format_number exception_text current_allocation
          result (post prompt) in
      Ok {| returned := result; posted := [prompt]; logged := Some result |}
  end.

End WithBackend.

(** *** Vocabulary of the properties *)

(** A value [', '.join(v[:2])] accepts. *)
Definition joinable (v : json) : bool :=
  match v with
  | JArr l => forallb (fun x => match x with JStr _ => true | _ => false end)
                (firstn 2 l)
  | JStr _ => true
  | _ => false
  end.

(** A profile the prompt can show: an object whose [risks] and
    [catalysts], where present, can be cut and joined. *)
Definition presentable (profile : json) : bool :=
  match profile with
  | JObj p =>
      joinable (get_default "risks" (JArr []) p)
      && joinable (get_default "catalysts" (JArr []) p)
  | _ => false
  end.

(** Every profile of a ticker of the allocation is presentable. *)
Definition showable (current_allocation : dict Q) (embeddings : dict json)
  : bool :=
  forallb (fun t => match get t embeddings with
                    | Some profile => presentable profile
                    | None => true
                    end) (keys current_allocation).

(** *** A profile the prompt cannot show *)

Definition show_value (v : json) : string := "v".

(** [risks] is [null]. *)
Definition null_risks_profile : dict json :=
  [("AAPL", JObj [("company_name", JStr "Apple"); ("risks", JNull)])].

End RefinementCall.

(** ** [phase2_feedback.py]: the feedback loop *)

Module Phase2Feedback.
Import Py.

(** Instants are microseconds since the epoch ([datetime]'s resolution),
    dates are day numbers. *)
Definition day_us : Z := 86400000000.

Definition date_of (t : Z) : Z := (t / day_us)%Z.

(** The feedback configuration after [load_config] merged the defaults in. *)
Record config : Type := {
  min_confidence_threshold : Q;
  evaluation_days : Z;
  learning_rate : Q;
  min_evaluations_for_learning : Z;
  version : Z;
  last_updated : option Z
}.

Definition DEFAULT_CONFIG : config :=
  {| min_confidence_threshold := 6 # 10;
     evaluation_days := 3;
     learning_rate := 5 # 100;
     min_evaluations_for_learning := 5;
     version := 1;
     last_updated := None |}.

(** The keys the config file holds; a missing key takes its default. *)
Record config_file : Type := {
  f_min_confidence_threshold : option Q;
  f_evaluation_days : option Z;
  f_learning_rate : option Q;
  f_min_evaluations_for_learning : option Z;
  f_version : option Z;
  f_last_updated : option Z
}.

(** A line of the decision log. *)
Record decision : Type := {
  timestamp : Z;
  date : Z;
  sector : string;
  sentiment : Q;
  action : string;
  confidence : json;
  original_allocation : dict Q;
  final_allocation : dict Q;
  reasoning : string;
  evaluated : option bool
}.

(** A line of the evaluation log. *)
Record evaluation : Type := {
  decision_timestamp : Z;
  evaluation_timestamp : Z;
  e_sector : string;
  e_action : string;
  e_confidence : json;
  original_return : Q;
  final_return : Q;
  delta : Q;
  outperformed : bool;
  days_evaluated : Z
}.

(** The three files; [None] is a file that does not exist. *)
Record store : Type := {
  decisions_file : option (list decision);
  evaluations_file : option (list evaluation);
  feedback_config_file : option config_file
}.

Definition or_default {A : Type} (o : option A) (d : A) : A :=
  match o with Some a => a | None => d end.

(** [load_config()]: [{**DEFAULT_CONFIG, **config}]. *)
Definition load_config (st : store) : config :=
  match feedback_config_file st with
  | Some f =>
      {| min_confidence_threshold :=
           or_default (f_min_confidence_threshold f)
             (min_confidence_threshold DEFAULT_CONFIG);
         evaluation_days :=
           or_default (f_evaluation_days f) (evaluation_days DEFAULT_CONFIG);
         learning_rate :=
           or_default (f_learning_rate f) (learning_rate DEFAULT_CONFIG);
         min_evaluations_for_learning :=
           or_default (f_min_evaluations_for_learning f)
             (min_evaluations_for_learning DEFAULT_CONFIG);
         version := or_default (f_version f) (version DEFAULT_CONFIG);
         last_updated := f_last_updated f |}
  | None => DEFAULT_CONFIG
  end.

(** [save_config(config)]. *)
Definition save_config (now : Z) (c : config) (st : store) : store :=
  {| decisions_file := decisions_file st;
     evaluations_file := evaluations_file st;
     feedback_config_file :=
       Some {| f_min_confidence_threshold := Some (min_confidence_threshold c);
               f_evaluation_days := Some (evaluation_days c);
               f_learning_rate := Some (learning_rate c);
               f_min_evaluations_for_learning :=
                 Some (min_evaluations_for_learning c);
               f_version := Some (version c);
               f_last_updated := Some now |} |}.

(** [open(path, 'a')] and one line written. *)
Definition append_line {A : Type} (file : option (list A)) (x : A)
  : option (list A) :=
  Some (or_default file [] ++ [x]).

(** [log_decision(...)]. *)
Definition log_decision (now : Z) (sector : string) (sentiment : Q)
  (action : string) (confidence : json)
  (original_allocation final_allocation : dict Q) (reasoning : string)
  (st : store) : decision * store :=
  let d := {| timestamp := now; date := date_of now; sector := sector;
              sentiment := sentiment; action := action;
              confidence := confidence;
              original_allocation := original_allocation;
              final_allocation := final_allocation;
              reasoning := reasoning; evaluated := Some false |} in
  (d, {| decisions_file := append_line (decisions_file st) d;
         evaluations_file := evaluations_file st;
         feedback_config_file := feedback_config_file st |}).

(** [decision.get("evaluated", False)]. *)
Definition is_evaluated (d : decision) : bool := or_default (evaluated d) false.

(** [get_pending_evaluations(min_days)]. *)
Definition get_pending_evaluations (now : Z) (min_days : Z) (st : store)
  : list decision :=
  match decisions_file st with
  | None => []
  | Some ds =>
      let cutoff := (now - min_days * day_us)%Z in
      filter (fun d => negb (is_evaluated d) && (timestamp d <? cutoff)%Z) ds
  end.

(** [normalize(alloc)] inside [evaluate_decision]. *)
Definition normalize (alloc : dict Q) : dict Q :=
  let total := sum (values alloc) in
  if Qlt_bool 0 total then map_values (fun v => (v / total)%Q) alloc else alloc.

(** [should_apply_adjustment]'s comparison [confidence >= threshold]. *)
Definition confidence_reaches (confidence : json) (threshold : Q) : result bool :=
  c <- as_number confidence ;; Ok (Qle_bool threshold c).

(** [should_apply_adjustment(confidence)]. *)
Definition should_apply_adjustment (confidence : json) (st : store) : result bool :=
  confidence_reaches confidence (min_confidence_threshold (load_config st)).

(** [int(s)] for a string of ASCII characters without blanks or sign:
    decimal digits, single underscores allowed between them. *)
Fixpoint int_of_digits (s : string) (acc : Z) (after_digit : bool) : option Z :=
  match s with
  | EmptyString => if after_digit then Some acc else None
  | String c rest =>
      let n := nat_of_ascii c in
      if (48 <=? n)%nat && (n <=? 57)%nat
      then int_of_digits rest (acc * 10 + Z.of_nat (n - 48))%Z true
      else if (n =? 95)%nat && after_digit then int_of_digits rest acc false
      else None
  end.

(** [s * n] for a string. *)
Fixpoint repeat_string (n : nat) (s : string) : string :=
  match n with O => EmptyString | S k => (s ++ repeat_string k s)%string end.

(** The label [f"{int(confidence * 10) * 10}%+"] of a confidence bucket.
    For a number the product is truncated towards zero.  A string is
    repeated ten times and read as an integer, which raises [ValueError]
    unless it is made of digits; any other value raises [TypeError]. *)
Definition confidence_bucket (confidence : json) : result string :=
  match confidence with
  | JStr s =>
      match int_of_digits (repeat_string 10 s) 0 false with
      | Some n => Ok (string_of_Z (n * 10) ++ "%+")%string
      | None => Raise "ValueError: invalid literal for int() with base 10"
      end
  | _ =>
      c <- as_number confidence ;;
      Ok (string_of_Z (Z.quot (Qnum (c * 10)) (Z.pos (Qden (c * 10))) * 10)
            ++ "%+")%string
  end.

(** The statistics [learn_from_evaluations] reads: [stats["adjust"]]. *)
Record action_stats : Type := {
  count : Z;
  n_outperformed : Z;
  deltas : list Q
}.

Definition empty_stats : action_stats :=
  {| count := 0; n_outperformed := 0; deltas := [] |}.

Definition add_evaluation (e : evaluation) (s : action_stats) : action_stats :=
  {| count := count s + 1;
     n_outperformed := if outperformed e then n_outperformed s + 1
                       else n_outperformed s;
     deltas := deltas s ++ [delta e] |}.

(** [s.get("win_rate", 0)] and [s.get("avg_delta", 0)]: both keys are set
    only when [s["deltas"]] is not empty. *)
Definition win_rate (s : action_stats) : Q :=
  match deltas s with
  | [] => 0%Q
  | _ => (inject_Z (n_outperformed s) / inject_Z (count s))%Q
  end.

Definition avg_delta (s : action_stats) : Q :=
  match deltas s with
  | [] => 0%Q
  | ds => (sum ds / len ds)%Q
  end.

(** The loop of [get_performance_stats] over the evaluation log, for the
    ["adjust"] and ["keep"] entries: [stats[action]] raises [KeyError] for
    any other action, and the bucket label raises for a confidence that is
    not a number. *)
Fixpoint collect_stats (es : list evaluation) (adjust keep : action_stats)
  : result (action_stats * action_stats) :=
  match es with
  | [] => Ok (adjust, keep)
  | e :: rest =>
      if String.eqb (e_action e) "adjust" then
        _ <- confidence_bucket (e_confidence e) ;;
        collect_stats rest (add_evaluation e adjust) keep
      else if String.eqb (e_action e) "keep" then
        _ <- confidence_bucket (e_confidence e) ;;
        collect_stats rest adjust (add_evaluation e keep)
      else Raise ("KeyError: " ++ e_action e)
  end.

(** [get_performance_stats()]: [None] without an evaluation log. *)
Definition get_performance_stats (st : store)
  : result (option (action_stats * action_stats)) :=
  match evaluations_file st with
  | None => Ok None
  | Some es => s <- collect_stats es empty_stats empty_stats ;; Ok (Some s)
  end.

(** The threshold [learn_from_evaluations] decides on, from the loaded
    configuration and the statistics of the adjust decisions. *)
Definition learned_threshold (c : config) (adjust_stats : action_stats) : Q :=
  let old_threshold := min_confidence_threshold c in
  if Qlt_bool (6 # 10) (win_rate adjust_stats)
     && Qlt_bool 0 (avg_delta adjust_stats)
  then max (4 # 10) (old_threshold - learning_rate c)%Q
  else if Qlt_bool (win_rate adjust_stats) (4 # 10)
          || Qlt_bool (avg_delta adjust_stats) (- (5 # 10))
  then min (9 # 10) (old_threshold + learning_rate c)%Q
  else old_threshold.

Definition with_threshold (c : config) (t : Q) : config :=
  {| min_confidence_threshold := t;
     evaluation_days := evaluation_days c;
     learning_rate := learning_rate c;
     min_evaluations_for_learning := min_evaluations_for_learning c;
     version := version c;
     last_updated := last_updated c |}.

(** [config["last_updated"] = datetime.now().isoformat()] in [save_config],
    on the dict the caller holds. *)
Definition stamp (now : Z) (c : config) : config :=
  {| min_confidence_threshold := min_confidence_threshold c;
     evaluation_days := evaluation_days c;
     learning_rate := learning_rate c;
     min_evaluations_for_learning := min_evaluations_for_learning c;
     version := version c;
     last_updated := Some now |}.

(** [learn_from_evaluations()]: the configuration it returns and the store
    it leaves, or the exception that ends it. *)
Definition learn_from_evaluations (now : Z) (st : store) : result (config * store) :=
  let c := load_config st in
  stats <- get_performance_stats st ;;
  match stats with
  | None => Ok (c, st)
  | Some (adjust_stats, _) =>
      if (count adjust_stats <? min_evaluations_for_learning c)%Z then Ok (c, st)
      else
        let c' := with_threshold c (learned_threshold c adjust_stats) in
        Ok (stamp now c', save_config now c' st)
  end.

(** [decision["evaluated"] = True]. *)
Definition set_evaluated (d : decision) : decision :=
  {| timestamp := timestamp d; date := date d; sector := sector d;
     sentiment := sentiment d; action := action d; confidence := confidence d;
     original_allocation := original_allocation d;
     final_allocation := final_allocation d;
     reasoning := reasoning d; evaluated := Some true |}.

(** [if decision["timestamp"] in timestamps_set: decision["evaluated"] = True]. *)
Definition mark_one (timestamps : list Z) (d : decision) : decision :=
  if existsb (Z.eqb (timestamp d)) timestamps then set_evaluated d else d.

Section WithPrices.

(** [fetch_price_change(ticker, start_date, end_date)]: the relative price
    change, or [None] when the price history has less than two closes. *)
Variable fetch_price_change : string -> Z -> Z -> option Q.

(** [calculate_portfolio_return(allocation, start_date, end_date)]. *)
Definition calculate_portfolio_return (allocation : dict Q)
  (start_date end_date : Z) : option Q :=
  let (total_return, total_weight) :=
    fold_left
      (fun acc kv =>
         match fetch_price_change (fst kv) start_date end_date with
         | Some change =>
             ((fst acc + change * snd kv)%Q, (snd acc + snd kv)%Q)
         | None => acc
         end)
      allocation (0%Q, 0%Q) in
  if Qlt_bool 0 total_weight
  then Some (total_return / total_weight * 100)%Q
  else None.

(** The [evaluation] dict that [evaluate_decision] builds, or [None] when a
    portfolio return is unavailable. *)
Definition evaluation_of (now : Z) (d : decision) (days : Z) : option evaluation :=
  let start_date := date d in
  let end_date := (start_date + days)%Z in
  let original := normalize (original_allocation d) in
  let final := normalize (final_allocation d) in
  match calculate_portfolio_return original start_date end_date,
        calculate_portfolio_return final start_date end_date with
  | Some o_ret, Some f_ret =>
      Some {| decision_timestamp := timestamp d;
              evaluation_timestamp := now;
              e_sector := sector d;
              e_action := action d;
              e_confidence := confidence d;
              original_return := round o_ret 3;
              final_return := round f_ret 3;
              delta := round (f_ret - o_ret) 3;
              outperformed := Qlt_bool o_ret f_ret;
              days_evaluated := days |}
  | _, _ => None
  end.

(** [evaluate_decision(decision, days)]: the evaluation it returns, if
    any, and the store after the call: an evaluation is appended to the
    evaluation log.  The [evaluated] flag of the decision is neither read
    nor written. *)
Definition evaluate_decision (now : Z) (d : decision) (days : Z) (st : store)
  : option evaluation * store :=
  match evaluation_of now d days with
  | Some e =>
      (Some e, {| decisions_file := decisions_file st;
                  evaluations_file := append_line (evaluations_file st) e;
                  feedback_config_file := feedback_config_file st |})
  | None => (None, st)
  end.

(** [mark_decisions_evaluated(timestamps)]. *)
Definition mark_decisions_evaluated (timestamps : list Z) (st : store) : store :=
  match decisions_file st with
  | None => st
  | Some ds =>
      {| decisions_file := Some (map (mark_one timestamps) ds);
         evaluations_file := evaluations_file st;
         feedback_config_file := feedback_config_file st |}
  end.

(** The loop of [run_evaluations] over the pending decisions.  Printing a
    decision formats its confidence as a percentage, which raises when the
    confidence is not a number; the loop then ends where it is. *)
Fixpoint evaluate_all (now : Z) (days : Z) (pending : list decision)
  (results : list evaluation) (st : store)
  : result (list evaluation) * store :=
  match pending with
  | [] => (Ok results, st)
  | d :: rest =>
      match as_number (confidence d) with
      | Raise e => (Raise e, st)
      | Ok _ =>
          match evaluate_decision now d days st with
          | (Some e, st') => evaluate_all now days rest (results ++ [e]) st'
          | (None, st') => evaluate_all now days rest results st'
          end
      end
  end.

(** [run_evaluations()]: what it returns, or the exception that ends it,
    and the store it leaves. *)
Definition run_evaluations (now : Z) (st : store)
  : result (list evaluation) * store :=
  let c := load_config st in
  let pending := get_pending_evaluations now (evaluation_days c) st in
  match pending with
  | [] => (Ok [], st)
  | _ =>
      match evaluate_all now (evaluation_days c) pending [] st with
      | (Ok results, st') =>
          (Ok results, mark_decisions_evaluated (map timestamp pending) st')
      | (Raise e, st') => (Raise e, st')
      end
  end.

End WithPrices.

(** *** Vocabulary of the properties *)

(** The lines of a log file. *)
Definition lines {A : Type} (file : option (list A)) : list A := or_default file [].

Definition decisions (st : store) : list decision := lines (decisions_file st).

Definition evaluations (st : store) : list evaluation := lines (evaluations_file st).

(** The evaluations a list of decisions yields, in order. *)
Definition yields (fetch : string -> Z -> Z -> option Q) (now days : Z)
  (ds : list decision) : list evaluation :=
  flat_map (fun d => match evaluation_of fetch now d days with
                     | Some e => [e]
                     | None => []
                     end) ds.

Definition append_lines {A : Type} (file : option (list A)) (l : list A)
  : option (list A) :=
  match l with [] => file | _ => Some (lines file ++ l) end.

Definition numeric (v : json) : Prop := exists q, as_number v = Ok q.

(** The statistics after a run of evaluations has been added. *)
Definition tally (es : list evaluation) (s : action_stats) : action_stats :=
  fold_left (fun s e => add_evaluation e s) es s.

(** *** A matured decision and a price history *)

Definition constant_prices (ticker : string) (start_date end_date : Z) : option Q :=
  Some (1 # 100).

Definition no_prices (ticker : string) (start_date end_date : Z) : option Q := None.

Definition matured_decision : decision :=
  {| timestamp := 0; date := 0; sector := "XLK"; sentiment := 6 # 10;
     action := "adjust"; confidence := JNum (8 # 10);
     original_allocation := [("AAPL", 60%Q); ("MSFT", 40%Q)];
     final_allocation := [("AAPL", 50%Q); ("MSFT", 50%Q)];
     reasoning := "rebalance"; evaluated := Some false |}.

Definition one_decision_store : store :=
  {| decisions_file := Some [matured_decision];
     evaluations_file := None;
     feedback_config_file := None |}.

(** Ten days after the decision. *)
Definition ten_days_later : Z := 10 * day_us.

(** Five evaluated adjust decisions that all beat the Phase-1 allocation. *)
Definition winning_evaluation (t : Z) : evaluation :=
  {| decision_timestamp := t; evaluation_timestamp := ten_days_later;
     e_sector := "XLK"; e_action := "adjust"; e_confidence := JNum (8 # 10);
     original_return := 1; final_return := 2; delta := 1;
     outperformed := true; days_evaluated := 3 |}.

Definition five_wins_store : store :=
  {| decisions_file := None;
     evaluations_file := Some (map winning_evaluation [1; 2; 3; 4; 5]%Z);
     feedback_config_file := None |}.

(** The same log after the evaluation of a decision that the gate turned
    into [keep_low_conf]. *)
Definition low_conf_evaluation : evaluation :=
  {| decision_timestamp := 6; evaluation_timestamp := ten_days_later;
     e_sector := "XLK"; e_action := "keep_low_conf";
     e_confidence := JNum (55 # 100);
     original_return := 1; final_return := 1; delta := 0;
     outperformed := false; days_evaluated := 3 |}.

Definition five_wins_and_low_conf_store : store :=
  {| decisions_file := None;
     evaluations_file :=
       Some (map winning_evaluation [1; 2; 3; 4; 5]%Z ++ [low_conf_evaluation]);
     feedback_config_file := None |}.

End Phase2Feedback.

(** ** [ollama_portfolio_v2.py], [two_phase_strategy.py]: applying a refinement *)

Module TwoPhase.
Import Py.

(** The text of a JSON value inside an f-string or as a logged label; a
    value that is not a string is shown by a placeholder. *)
Definition text_of (v : json) : string :=
  match v with JStr s => s | _ => "<not a string>" end.

(** [action == "adjust"]. *)
Definition is_adjust (action : json) : bool :=
  match action with JStr s => String.eqb s "adjust" | _ => false end.

(** The truth value of [asset.get("ticker")] and the key it gives: a
    non-empty string is the key; [None], [False], [0], the empty string
    and the empty containers are skipped; any other value is not a string
    key ([select_assets] returns none). *)
Definition ticker_key (a : dict json) : result (option string) :=
  match get "ticker" a with
  | None | Some JNull | Some (JBool false) | Some (JStr EmptyString)
  | Some (JArr []) | Some (JObj []) => Ok None
  | Some (JStr t) => Ok (Some t)
  | Some (JNum q) => if Qeq_bool q 0 then Ok None
                     else Raise "a key that is not a string"
  | Some _ => Raise "TypeError: unhashable type"
  end.

(** [current_allocation[ticker] = round(weight * 100, 1)] for every asset
    with a ticker. *)
Fixpoint current_allocation_of (assets : list (dict json)) (acc : dict Q)
  : result (dict Q) :=
  match assets with
  | [] => Ok acc
  | a :: rest =>
      k <- ticker_key a ;;
      match k with
      | None => current_allocation_of rest acc
      | Some t =>
          w <- as_number (get_default "weight" (JNum 0) a) ;;
          current_allocation_of rest (set t (round (w * 100) 1) acc)
      end
  end.

(** The assets built from [new_allocation.items()]. *)
Definition refined_assets (budget : Q) (new_allocation : json)
  : result (list (dict json)) :=
  items <- as_dict new_allocation ;;
  mapM (fun kv =>
          pct <- as_number (snd kv) ;;
          let weight := (pct / 100)%Q in
          Ok [("ticker", JStr (fst kv)); ("weight", JNum weight);
              ("amount", JNum (round (weight * budget) 2))])
    items.

Section WithRefinement.

(** [refine_allocation(sector, sentiment, current_allocation, scenario)] as
    called from here: the dict it returns. *)
Variable refine : string -> Q -> dict Q -> string -> dict json.

(** [get_missing_embeddings] and [fetch_missing_embeddings] on the tickers. *)
Variable fetch_embeddings : list (dict json) -> result unit.

(** The statements of the body before the call of [refine_allocation]: the
    allocation that is handed to it, [None] when Phase 1 selected no asset
    (the function then returns the Phase-1 result at once). *)
Definition allocation_to_refine (phase1_result : dict json)
  : result (option (dict Q)) :=
  items <- OllamaPortfolio.iterate
             (get_default "selected_assets" (JArr []) phase1_result) ;;
  assets <- mapM as_dict items ;;
  match assets with
  | [] => Ok None
  | _ =>
      _ <- fetch_embeddings assets ;;
      current_allocation <- current_allocation_of assets [] ;;
      Ok (Some current_allocation)
  end.

(** The body of the [try] in [run_phase2_refinement]. *)
Definition refinement_body (feedback_enabled : bool) (now : Z)
  (phase1_result : dict json) (sector : string) (sentiment : Q)
  (scenario : string) (st : Phase2Feedback.store)
  : result (dict json * Phase2Feedback.store) :=
  items <- OllamaPortfolio.iterate
             (get_default "selected_assets" (JArr []) phase1_result) ;;
  assets <- mapM as_dict items ;;
  match assets with
  | [] => Ok (phase1_result, st)
  | _ =>
      _ <- fetch_embeddings assets ;;
      current_allocation <- current_allocation_of assets [] ;;
      let refinement := refine sector sentiment current_allocation scenario in
      let action := get_default "action" (JStr "keep") refinement in
      let confidence := get_default "confidence" (JNum 0) refinement in
      let new_allocation :=
        get_default "new_allocation" (json_of_allocation current_allocation)
          refinement in
      let reasoning := get_default "reasoning" (JStr EmptyString) refinement in
      gate <- (if is_adjust action && feedback_enabled
               then ok <- Phase2Feedback.should_apply_adjustment confidence st ;;
                    Ok (if ok then (true, text_of action)
                        else (false, "keep_low_conf"))
               else Ok (is_adjust action, text_of action)) ;;
      let (apply_adjustment, action_label) := gate : bool * string in
      applied <-
        (if apply_adjustment
         then
           amounts <- mapM (fun a => as_number (get_default "amount" (JNum 0) a))
                        assets ;;
           refined <- refined_assets (sum amounts) new_allocation ;;
           final <- allocation_of_json new_allocation ;;
           Ok (set "refinement_confidence" confidence
                 (set "phase" (JNum 2)
                    (set "rationale" (JStr ("[Refined] " ++ text_of reasoning))
                       (set "selected_assets" (JArr (map JObj refined))
                          phase1_result))),
               final)
         else Ok (set "phase" (JStr "1+2") phase1_result, current_allocation)) ;;
      let (result, final_allocation) := applied : dict json * dict Q in
      if feedback_enabled
      then
        let (_, st') :=
          Phase2Feedback.log_decision now sector sentiment action_label
            confidence current_allocation final_allocation (text_of reasoning) st in
        Ok (set "phase" (JStr "1+2") result, st')
      else Ok (result, st)
  end.

(** [run_phase2_refinement(phase1_result, sector, sentiment, scenario)]: an
    exception in the body returns the Phase-1 result. *)
Definition run_phase2_refinement (ENABLE_PHASE2 feedback_enabled : bool)
  (now : Z) (phase1_result : dict json) (sector : string) (sentiment : Q)
  (scenario : string) (st : Phase2Feedback.store)
  : dict json * Phase2Feedback.store :=
  if negb ENABLE_PHASE2 then (phase1_result, st)
  else
    match refinement_body feedback_enabled now phase1_result sector sentiment
            scenario st with
    | Ok r => r
    | Raise _ => (phase1_result, st)
    end.

End WithRefinement.

(** One turn of the final loop of [run_both_phases]: [p1] is the Phase-1
    entry of a sector and [p2] its refinement, [{}] when there is none. *)
Definition final_entry (p1 p2 : dict json) : dict json :=
  let phase1_allocation := get_default "allocation" (JObj []) p1 in
  if match get "action" p2 with
     | Some (JStr s) => String.eqb s "adjust"
     | _ => false
     end
  then [("allocation", get_default "new_allocation" phase1_allocation p2);
        ("sentiment", get_default "sentiment" (JNum 0) p1);
        ("refined", JBool true)]
  else [("allocation", phase1_allocation);
        ("sentiment", get_default "sentiment" (JNum 0) p1);
        ("refined", JBool false)].

(** [final_allocations] in [run_both_phases]. *)
Definition final_allocations (phase1_results : dict (dict json))
  (phase2_results : option (dict (dict json))) : dict (dict json) :=
  map (fun kv =>
         (fst kv,
          final_entry (snd kv)
            (match phase2_results with
             | Some p2s => get_default (fst kv) [] p2s
             | None => []
             end)))
    phase1_results.

(** [get_current_sentiment()]: the cache file as loaded ([None] when there
    is no file), reduced to one score per sector. *)
Definition get_current_sentiment (cache : option json) : result (dict json) :=
  entries <- as_dict (match cache with Some c => c | None => JObj [] end) ;;
  Ok (fold_left
        (fun sentiments kv =>
           match snd kv with
           | JObj data =>
               match get "score" data with
               | Some score => set (fst kv) score sentiments
               | None => sentiments
               end
           | JNum _ | JBool _ => set (fst kv) (snd kv) sentiments
           | _ => sentiments
           end)
        entries []).

(** [run_phase1(scenario, dry_run)].  Without sentiment data it returns
    [None].  Otherwise it executes
    [from ollama_portfolio import select_assets_for_sector]:
    [ollama_portfolio.py] defines no such function
    ([ollama_portfolio_v2.py] does), so the statement raises [ImportError]
    and the loop that would fill [allocations] is never entered. *)
Definition run_phase1 (cache : option json)
  : result (option (dict (dict json))) :=
  sentiments <- get_current_sentiment cache ;;
  match sentiments with
  | [] => Ok None
  | _ =>
      Raise "ImportError: cannot import name 'select_assets_for_sector' from 'ollama_portfolio'"
  end.

(** What [run_both_phases] returns. *)
Record run_summary : Type := {
  phase1 : dict (dict json);
  phase2 : option (dict (dict json));
  final : dict (dict json)
}.

Section RunBothPhases.

(** [get_embedding_stats()], whose result is only printed, and
    [run_phase2(phase1_results, scenario, dry_run)]. *)
Variable get_embedding_stats : result unit.
Variable run_phase2 : dict (dict json) -> result (option (dict (dict json))).

(** [run_both_phases(scenario, dry_run)], given the sentiment cache. *)
Definition run_both_phases (cache : option json) : result (option run_summary) :=
  _ <- get_embedding_stats ;;
  phase1_results <- run_phase1 cache ;;
  match phase1_results with
  | None | Some [] => Ok None
  | Some p1 =>
      phase2_results <- run_phase2 p1 ;;
      let final_allocations := final_allocations p1 phase2_results in
      _ <- get_embedding_stats ;;
      Ok (Some {| phase1 := p1; phase2 := phase2_results;
                  final := final_allocations |})
  end.

End RunBothPhases.

(** A sentiment cache with one sector. *)
Definition one_sector_cache : option json :=
  Some (JObj [("XLK", JObj [("score", JNum (6 # 10)); ("signal", JStr "BUY")])]).

(** *** A refinement below the threshold *)

(** An adjust decision with confidence 0.55. *)
Definition low_confidence_adjust (sector : string) (sentiment : Q)
  (current_allocation : dict Q) (scenario : string) : dict json :=
  [("sector", JStr sector);
   ("original_allocation", json_of_allocation current_allocation);
   ("action", JStr "adjust");
   ("reasoning", JStr "Shift towards the stronger name");
   ("new_allocation", JObj [("AAPL", JNum 40); ("MSFT", JNum 60)]);
   ("confidence", JNum (55 # 100))].

Definition fetch_nothing (assets : list (dict json)) : result unit := Ok tt.

(** A Phase-1 result of [select_assets]: 60% and 40% of a budget of 10000. *)
Definition phase1_example : dict json :=
  [("sector", JStr "XLK"); ("sentiment", JNum (6 # 10));
   ("selected_assets",
    JArr [JObj [("ticker", JStr "AAPL"); ("weight", JNum (6 # 10));
                ("amount", JNum 6000)];
          JObj [("ticker", JStr "MSFT"); ("weight", JNum (4 # 10));
                ("amount", JNum 4000)]]);
   ("rationale", JStr "Momentum"); ("risk_level", JStr "medium");
   ("phase", JNum 1)].

(** The same allocation as an entry of [phase1_results]. *)
Definition phase1_entry : dict json :=
  [("sentiment", JNum (6 # 10)); ("stance", JStr "aggressive");
   ("allocation", JObj [("AAPL", JNum 60); ("MSFT", JNum 40)]);
   ("reasoning", JStr "Momentum")].

(** No config file: the threshold is the default, 0.6. *)
Definition empty_store : Phase2Feedback.store :=
  {| Phase2Feedback.decisions_file := None;
     Phase2Feedback.evaluations_file := None;
     Phase2Feedback.feedback_config_file := None |}.

End TwoPhase.

(** ** [daily_learning.py]: source reliability, history and accuracy *)

Module SourceLearning.
Import Py.

(** A headline of the harvest as [calculate_source_reliability] reads it:
    every key with [.get]. *)
Record headline : Type := {
  source : option string;
  sentiment : option Q;
  sectors : option (list string)
}.

(** [source_scores[source]]. *)
Record source_score : Type := { correct : Z; total : Z }.

Definition zero_score : source_score := {| correct := 0; total := 0 |}.

(** [correct] in [calculate_source_reliability]. *)
Definition matches (sentiment actual : Q) : bool :=
  (Qlt_bool 0 sentiment && Qlt_bool 0 actual)
  || (Qlt_bool sentiment 0 && Qlt_bool actual 0)
  || (Qlt_bool (abs sentiment) (1 # 10) && Qlt_bool (abs actual) (1 # 2)).

(** The body of the loop over the sectors of a headline. *)
Definition count_sector (source : string) (sentiment : Q)
  (actual_outcomes : dict Q) (source_scores : dict source_score)
  (sector : string) : dict source_score :=
  match get sector actual_outcomes with
  | Some actual =>
      let is_match := matches sentiment actual in
      let source_scores :=
        if has_key source source_scores then source_scores
        else set source zero_score source_scores in
      let sc := get_default source zero_score source_scores in
      set source
        {| correct := if is_match then (correct sc + 1)%Z else correct sc;
           total := (total sc + 1)%Z |}
        source_scores
  | None => source_scores
  end.

(** The body of the loop over the headlines. *)
Definition count_headline (actual_outcomes : dict Q)
  (source_scores : dict source_score) (h : headline) : dict source_score :=
  fold_left
    (count_sector (match source h with Some s => s | None => "unknown" end)
       (match sentiment h with Some q => q | None => 0%Q end)
       actual_outcomes)
    (match sectors h with Some l => l | None => [] end)
    source_scores.

(** [calculate_source_reliability(headlines, actual_outcomes)]. *)
Definition calculate_source_reliability (headlines : list headline)
  (actual_outcomes : dict Q) : dict source_score :=
  fold_left (count_headline actual_outcomes) headlines [].

(** One turn of the loop of [daily_learn] over the ten sources with the
    most scored headlines: [model['source_weights']] is created when the
    first weight is written. *)
Definition update_source_weight (source_weights : option (dict Q))
  (item : string * source_score) : option (dict Q) :=
  let (source, scores) := item in
  if (3 <=? total scores)%Z then
    let reliability := (inject_Z (correct scores) / inject_Z (total scores))%Q in
    let weights := match source_weights with Some w => w | None => [] end in
    let old_weight := get_default source 1%Q weights in
    let new_weight := (old_weight * (9 # 10) + reliability * (1 # 10))%Q in
    Some (set source new_weight weights)
  else source_weights.

(** The source part of [daily_learn]. *)
Definition learn_sources (headlines : list headline) (price_changes : dict Q)
  (source_weights : option (dict Q)) : option (dict Q) :=
  let source_scores := calculate_source_reliability headlines price_changes in
  fold_left update_source_weight
    (firstn 10
       (sorted_desc (fun kv => inject_Z (total (snd kv))) source_scores))
    source_weights.

(** [l[-n:]] for a positive [n]. *)
Definition last_n {A : Type} (n : nat) (l : list A) : list A :=
  skipn (List.length l - n) l.

(** [model['learning_history'].append(learning_entry)] followed by
    [model['learning_history'] = model['learning_history'][-90:]]; the
    list is created when the model has none. *)
Definition add_history {A : Type} (learning_history : option (list A))
  (learning_entry : A) : list A :=
  last_n 90
    (match learning_history with Some h => h | None => [] end
     ++ [learning_entry]).

(** [sum(s.get(field, 0) for s in model['sector_sensitivity'].values())]. *)
Definition sum_Z (xs : list Z) : Z := fold_left Z.add xs 0%Z.

(** [model['overall_accuracy']]. *)
Definition overall_accuracy (sector_sensitivity : dict DailyLearning.sensitivity)
  : Q :=
  let all_correct :=
    sum_Z (map (fun s => DailyLearning.get_Z (DailyLearning.correct_predictions s))
             (values sector_sensitivity)) in
  let all_total :=
    sum_Z (map (fun s => DailyLearning.get_Z (DailyLearning.total_predictions s))
             (values sector_sensitivity)) in
  if (0 <? all_total)%Z
  then (inject_Z all_correct / inject_Z all_total * 100)%Q
  else 0%Q.

(** *** Vocabulary of the properties *)

(** An entry of the sensitivity model that is in range: the multiplier
    within [0.5, 2.0] and no more correct predictions than predictions. *)
Definition in_range (s : DailyLearning.sensitivity) : Prop :=
  (1 # 2 <= DailyLearning.multiplier_of s)%Q /\
  (DailyLearning.multiplier_of s <= 2)%Q /\
  (0 <= DailyLearning.get_Z (DailyLearning.correct_predictions s))%Z /\
  (DailyLearning.get_Z (DailyLearning.correct_predictions s)
   <= DailyLearning.get_Z (DailyLearning.total_predictions s))%Z.

(** The scored pairs of a source: one for each sector of each of its
    headlines that has an outcome. *)
Definition scored_pairs (name : string) (headlines : list headline)
  (actual_outcomes : dict Q) : list (Q * Q) :=
  flat_map
    (fun h =>
       if String.eqb (match source h with
                      | Some s => s
                      | None => "unknown"
                      end) name
       then
         flat_map
           (fun sector =>
              match get sector actual_outcomes with
              | Some actual =>
                  [(match sentiment h with Some q => q | None => 0%Q end, actual)]
              | None => []
              end)
           (match sectors h with Some l => l | None => [] end)
       else [])
    headlines.

(** *** A day of headlines *)

Definition wire (q : Q) (l : list string) : headline :=
  {| source := Some "wire"; sentiment := Some q; sectors := Some l |}.

Definition one_day : list headline :=
  [wire (3 # 10) ["XLK"]; wire (- (2 # 10)) ["XLK"; "XLE"]; wire 0 ["XLU"]].

Definition one_day_outcomes : dict Q := [("XLK", 1%Q); ("XLE", - (2))%Q].

End SourceLearning.

(** ** [embedding_manager.py]: which company profiles to fetch *)

Module EmbeddingManager.
Import Py.

Definition EMBEDDING_MAX_AGE_DAYS : Z := 30.

(** The truth value of a JSON value in an [if]. *)
Definition truthy (v : json) : bool :=
  match v with
  | JNull | JBool false | JStr EmptyString | JArr [] | JObj [] => false
  | JNum q => negb (Qeq_bool q 0)
  | _ => true
  end.

(** The embeddings file: [data["companies"]] and
    [data["_meta"]["last_updated"]].  A file that does not exist reads as
    no companies. *)
Record embeddings_file : Type := {
  companies : dict (dict json);
  meta_last_updated : option Z
}.

Section WithBackend.

(** [datetime.fromisoformat(updated)] as an instant; [None] stands for
    an exception inside the [try] (a text that is no date, a value that is
    not a text, a date that cannot be compared with the cutoff). *)
Variable fromisoformat : string -> option Z.

(** [fetch_company_profile(ticker)]: the profile the backend gives for a
    ticker, [None] on any failure. *)
Variable fetch_company_profile : string -> option (dict json).

(** The [else] branch of the loop of [get_missing_embeddings]: the
    profile of a known ticker is outdated. *)
Definition is_outdated (now : Z) (profile : dict json) : bool :=
  let cutoff := (now - EMBEDDING_MAX_AGE_DAYS * Phase2Feedback.day_us)%Z in
  match get "updated" profile with
  | Some updated =>
      if truthy updated then
        match updated with
        | JStr s =>
            match fromisoformat s with
            | Some updated_dt => (updated_dt <? cutoff)%Z
            | None => true
            end
        | _ => true
        end
      else true
  | None => true
  end.

(** [get_missing_embeddings(tickers)]: the missing and the outdated
    tickers. *)
Definition get_missing_embeddings (now : Z) (tickers : list string)
  (companies : dict (dict json)) : list string * list string :=
  fold_left
    (fun acc ticker =>
       match get ticker companies with
       | None => (fst acc ++ [ticker], snd acc)
       | Some profile =>
           if is_outdated now profile then (fst acc, snd acc ++ [ticker])
           else acc
       end)
    tickers ([], []).

(** One turn of the loop of [fetch_missing_embeddings]: a profile that is
    [None] or empty counts as a failure. *)
Definition fetch_one (acc : dict (dict json) * list string) (ticker : string)
  : dict (dict json) * list string :=
  match fetch_company_profile ticker with
  | Some (kv :: rest) => (set ticker (kv :: rest) (fst acc), snd acc ++ [ticker])
  | _ => acc
  end.

(** [fetch_missing_embeddings(tickers, max_fetch)]: the tickers fetched and
    the file afterwards, written only when something was fetched. *)
Definition fetch_missing_embeddings (now : Z) (tickers : list string)
  (max_fetch : nat) (file : embeddings_file) : list string * embeddings_file :=
  let (missing, outdated) := get_missing_embeddings now tickers (companies file) in
  let to_fetch := firstn max_fetch (missing ++ outdated) in
  match to_fetch with
  | [] => ([], file)
  | _ =>
      let (companies', fetched) :=
        fold_left fetch_one to_fetch (companies file, []) in
      match fetched with
      | [] => ([], file)
      | _ => (fetched, {| companies := companies';
                          meta_last_updated := Some now |})
      end
  end.

End WithBackend.

(** *** A file with one fresh profile *)

Definition iso_clock (s : string) : option Z :=
  if String.eqb s "2026-01-10" then Some (10 * Phase2Feedback.day_us)%Z else None.

Definition fresh_profile (name : string) : dict json :=
  [("company_name", JStr name); ("updated", JStr "2026-01-10")].

Definition one_company : embeddings_file :=
  {| companies := [("AAPL", fresh_profile "Apple")];
     meta_last_updated := None |}.

Definition backend_knows_all (ticker : string) : option (dict json) :=
  Some (fresh_profile ticker).

End EmbeddingManager.

(** ** [ollama_portfolio.py]: the selection for all sectors *)

Module SectorPortfolio.
Import Py.

(** The entry of a sector for which [select_assets] returned nothing. *)
Definition etf_fallback (sector : string) (budget_per_sector : Q) : dict json :=
  [("selected_assets",
    JArr [JObj [("ticker", JStr sector); ("weight", JNum 1);
                ("amount", JNum budget_per_sector);
                ("reason", JStr "fallback to ETF")]]);
   ("rationale", JStr "LLM selection failed, defaulting to sector ETF");
   ("risk_level", JStr "low")].

(** [total_budget / num_sectors if num_sectors > 0 else 0]. *)
Definition budget_per_sector (sector_sentiments : dict Q) (total_budget : Q) : Q :=
  if Qlt_bool 0 (len sector_sentiments)
  then (total_budget / len sector_sentiments)%Q
  else 0%Q.

Section WithSelector.

(** [select_assets(sector, sentiment_score, scenario, budget)]. *)
Variable select_assets : string -> Q -> string -> Q -> option (dict json).

(** [if allocation: ... else: ...]: [None] and an empty dict both lead to
    the fallback. *)
Definition sector_entry (scenario : string) (budget : Q)
  (sector : string) (sentiment : Q) : dict json :=
  match select_assets sector sentiment scenario budget with
  | Some (kv :: rest) => kv :: rest
  | _ => etf_fallback sector budget
  end.

(** [select_portfolio_for_all_sectors(sector_sentiments, scenario,
    total_budget)]: the ['sectors'] entry of what it returns. *)
Definition select_portfolio_for_all_sectors (sector_sentiments : dict Q)
  (scenario : string) (total_budget : Q) : dict (dict json) :=
  let budget := budget_per_sector sector_sentiments total_budget in
  fold_left
    (fun sectors kv =>
       set (fst kv) (sector_entry scenario budget (fst kv) (snd kv)) sectors)
    sector_sentiments [].

End WithSelector.

(** *** Vocabulary of the properties *)

(** The amounts of the assets of an entry. *)
Definition amount_or_zero (a : dict json) : Q :=
  match get "amount" a with Some (JNum q) => q | _ => 0%Q end.

Definition total_amount (r : dict json) : Q :=
  sum (map amount_or_zero (OllamaPortfolio.assets_of r)).

(** *** A selector that always fails *)

Definition select_nothing (sector : string) (sentiment : Q) (scenario : string)
  (budget : Q) : option (dict json) := None.

Definition two_sentiments : dict Q := [("XLK", 5 # 10); ("XLE", - (2 # 10))].

End SectorPortfolio.

(* ================================================================== *)
(** * Part II: properties *)
(* ================================================================== *)

Module PyFacts.
Import Py.

Lemma Qlt_bool_iff (x y : Q) : Qlt_bool x y = true <-> (x < y)%Q.
Proof.
  unfold Qlt_bool. rewrite negb_true_iff.
  split; intro H.
  - apply Qnot_le_lt. intro Hle. apply Qle_bool_iff in Hle. congruence.
  - destruct (Qle_bool y x) eqn:E; [|reflexivity].
    apply Qle_bool_iff in E. exfalso. apply (Qlt_not_le _ _ H E).
Qed.

Lemma Qlt_bool_false_iff (x y : Q) : Qlt_bool x y = false <-> (y <= x)%Q.
Proof.
  unfold Qlt_bool. rewrite negb_false_iff. apply Qle_bool_iff.
Qed.

Lemma Qlt_bool_spec (x y : Q) : reflect (x < y)%Q (Qlt_bool x y).
Proof.
  destruct (Qlt_bool x y) eqn:E; constructor.
  - now apply Qlt_bool_iff.
  - apply Qlt_bool_false_iff in E. lra.
Qed.

Lemma max_spec (a b : Q) :
  ((a < b)%Q /\ max a b = b) \/ ((b <= a)%Q /\ max a b = a).
Proof.
  unfold max. destruct (Qlt_bool_spec a b); [left|right]; split; auto; lra.
Qed.

Lemma min_spec (a b : Q) :
  ((b < a)%Q /\ min a b = b) \/ ((a <= b)%Q /\ min a b = a).
Proof.
  unfold min. destruct (Qlt_bool_spec b a); [left|right]; split; auto; lra.
Qed.

Lemma mem_In x xs : mem x xs = true <-> In x xs.
Proof.
  unfold mem. rewrite existsb_exists. split.
  - intros [y [Hy E]]. apply String.eqb_eq in E. now subst.
  - intro H. exists x. split; [assumption|apply String.eqb_refl].
Qed.

Lemma get_set_same {V} k (v : V) d : get k (set k v d) = Some v.
Proof.
  induction d as [|[k' v'] r IH]; simpl.
  - now rewrite String.eqb_refl.
  - destruct (String.eqb k k') eqn:E; simpl; rewrite E; auto.
Qed.

Lemma get_set_other {V} k k' (v : V) d :
  k <> k' -> get k (set k' v d) = get k d.
Proof.
  intro Hne. induction d as [|[k0 v0] r IH]; simpl.
  - destruct (String.eqb k k') eqn:E;
      [apply String.eqb_eq in E; contradiction|reflexivity].
  - destruct (String.eqb k' k0) eqn:E; simpl.
    + apply String.eqb_eq in E; subst k0.
      destruct (String.eqb k k') eqn:E2;
        [apply String.eqb_eq in E2; contradiction|reflexivity].
    + rewrite IH. reflexivity.
Qed.

(** Setting a key the dict does not have appends the entry. *)
Lemma set_fresh {V} k (v : V) d : ~ In k (keys d) -> set k v d = d ++ [(k, v)].
Proof.
  induction d as [|[k' v'] r IH]; simpl; intro H; [reflexivity|].
  destruct (String.eqb k k') eqn:E.
  - apply String.eqb_eq in E. subst. exfalso. apply H. now left.
  - f_equal. apply IH. intro. apply H. now right.
Qed.

Lemma build_acc {V} (f : string -> V) ks acc :
  NoDup ks -> (forall k, In k ks -> ~ In k (keys acc)) ->
  fold_left (fun acc k => set k (f k) acc) ks acc
  = acc ++ map (fun k => (k, f k)) ks.
Proof.
  revert acc. induction ks as [|k r IH]; intros acc Hnd Hdisj; simpl.
  - now rewrite app_nil_r.
  - inversion Hnd as [|? ? Hk Hr]; subst.
    rewrite set_fresh by (apply Hdisj; now left).
    rewrite IH; auto.
    + now rewrite <- app_assoc.
    + intros k' Hk' Hin. unfold keys in Hin. rewrite map_app in Hin.
      apply in_app_or in Hin. destruct Hin as [Hin|Hin].
      * apply (Hdisj k'); [now right|exact Hin].
      * simpl in Hin. destruct Hin as [->|[]]. contradiction.
Qed.

(** Filling a dict from distinct keys lists them in order. *)
Lemma build_map {V} (f : string -> V) ks :
  NoDup ks -> build f ks = map (fun k => (k, f k)) ks.
Proof.
  intro Hnd. unfold build. rewrite build_acc; auto.
Qed.

Lemma fold_left_Qplus_acc (xs : list Q) (a : Q) :
  (fold_left Qplus xs a == a + fold_left Qplus xs 0)%Q.
Proof.
  revert a. induction xs as [|x r IH]; intro a; simpl.
  - lra.
  - rewrite (IH (a + x)%Q), (IH (0 + x)%Q). lra.
Qed.

Lemma sum_cons (x : Q) (xs : list Q) : (sum (x :: xs) == x + sum xs)%Q.
Proof.
  unfold sum. simpl. rewrite fold_left_Qplus_acc. lra.
Qed.

Lemma sum_nil : (sum [] == 0)%Q.
Proof. reflexivity. Qed.

Lemma sum_app (xs ys : list Q) : (sum (xs ++ ys) == sum xs + sum ys)%Q.
Proof.
  induction xs as [|x r IH]; simpl.
  - rewrite sum_nil. lra.
  - rewrite !sum_cons, IH. lra.
Qed.

Lemma len_nil {A} : (len (@nil A) == 0)%Q.
Proof. reflexivity. Qed.

Lemma len_cons {A} (x : A) (xs : list A) : (len (x :: xs) == 1 + len xs)%Q.
Proof.
  unfold len. simpl List.length. rewrite Nat2Z.inj_succ. unfold Z.succ.
  rewrite inject_Z_plus. change (inject_Z 1) with 1%Q. lra.
Qed.

Lemma sum_lower_bound (c : Q) (xs : list Q) :
  (forall x, In x xs -> (c <= x)%Q) -> (c * len xs <= sum xs)%Q.
Proof.
  induction xs as [|x r IH]; intro H.
  - rewrite sum_nil, len_nil. lra.
  - rewrite sum_cons, len_cons.
    assert (c <= x)%Q by (apply H; now left).
    assert (c * len r <= sum r)%Q by (apply IH; intros; apply H; now right).
    lra.
Qed.

(** Scaling every summand scales the sum. *)
Lemma sum_map_scale (f : Q -> Q) (c : Q) (xs : list Q) :
  (forall x, (f x == x * c)%Q) ->
  (sum (map f xs) == sum xs * c)%Q.
Proof.
  intro Hf. induction xs as [|x r IH]; simpl.
  - rewrite sum_nil. lra.
  - rewrite !sum_cons, IH, Hf. lra.
Qed.

(** The stable descending sort only reorders. *)
Lemma insert_desc_perm {A} (key : A -> Q) x l : Permutation (x :: l) (insert_desc key x l).
Proof.
  induction l as [|y r IH]; simpl; [reflexivity|].
  destruct (Qlt_bool (key x) (key y)); [|reflexivity].
  rewrite perm_swap. now apply perm_skip.
Qed.

Lemma sorted_desc_perm {A} (key : A -> Q) l : Permutation l (sorted_desc key l).
Proof.
  induction l as [|x r IH]; simpl; [reflexivity|].
  rewrite <- insert_desc_perm. now apply perm_skip.
Qed.

Lemma get_None_keys {V} k (d : dict V) : get k d = None <-> ~ In k (keys d).
Proof.
  induction d as [|[k' v] r IH]; simpl.
  - tauto.
  - destruct (String.eqb k k') eqn:E.
    + apply String.eqb_eq in E. subst. split; [discriminate|]. intro H.
      exfalso. apply H. now left.
    + apply String.eqb_neq in E. rewrite IH. split.
      * intros H [H1|H1]; [congruence|contradiction].
      * intros H H1. apply H. now right.
Qed.

Lemma get_Some_In {V} k (v : V) d : get k d = Some v -> In (k, v) d.
Proof.
  induction d as [|[k' v'] r IH]; simpl; [discriminate|].
  destruct (String.eqb k k') eqn:E.
  - apply String.eqb_eq in E. intro H. inversion H. subst. now left.
  - intro H. right. now apply IH.
Qed.

Lemma In_get_Some {V} k (v : V) d :
  NoDup (keys d) -> In (k, v) d -> get k d = Some v.
Proof.
  induction d as [|[k' v'] r IH]; simpl; intros Hnd Hin; [contradiction|].
  inversion Hnd as [|? ? Hk Hr]; subst.
  destruct Hin as [Heq|Hin].
  - inversion Heq; subst. now rewrite String.eqb_refl.
  - destruct (String.eqb k k') eqn:E.
    + apply String.eqb_eq in E. subst. exfalso. apply Hk.
      unfold keys. apply in_map_iff. now exists (k', v).
    + now apply IH.
Qed.

Lemma keys_set_present {V} k (v : V) d : In k (keys d) -> keys (set k v d) = keys d.
Proof.
  induction d as [|[k' v'] r IH]; simpl; intro H; [contradiction|].
  destruct (String.eqb k k') eqn:E; simpl; [reflexivity|].
  f_equal. apply IH. destruct H as [H|H]; [|exact H].
  apply String.eqb_neq in E. congruence.
Qed.

Lemma keys_set_NoDup {V} k (v : V) d : NoDup (keys d) -> NoDup (keys (set k v d)).
Proof.
  intro Hnd. destruct (in_dec string_dec k (keys d)) as [Hin|Hout].
  - now rewrite keys_set_present.
  - rewrite set_fresh by assumption. unfold keys in *. rewrite map_app. simpl.
    apply NoDup_app; [assumption|constructor; [tauto|constructor]|].
    intros a Ha [<-|[]]. contradiction.
Qed.

Lemma keys_map_values {V W} (f : V -> W) d : keys (map_values f d) = keys d.
Proof.
  unfold keys, map_values. rewrite map_map. reflexivity.
Qed.

Lemma get_map_values {V W} (f : V -> W) k d :
  get k (map_values f d) = option_map f (get k d).
Proof.
  induction d as [|[k' v] r IH]; simpl; [reflexivity|].
  destruct (String.eqb k k'); [reflexivity|exact IH].
Qed.

Lemma get_filter {V} (p : V -> bool) k d :
  NoDup (keys d) ->
  get k (filter (fun kv => p (snd kv)) d)
  = match get k d with
    | Some v => if p v then Some v else None
    | None => None
    end.
Proof.
  induction d as [|[k' v] r IH]; simpl; intro Hnd; [reflexivity|].
  inversion Hnd as [|? ? Hk Hr]; subst.
  destruct (String.eqb k k') eqn:E.
  - apply String.eqb_eq in E. subst k'.
    destruct (p v) eqn:Ep; simpl.
    + now rewrite String.eqb_refl.
    + rewrite IH by assumption.
      apply get_None_keys in Hk. now rewrite Hk.
  - destruct (p v); simpl; [rewrite E|]; now apply IH.
Qed.

Lemma filter_nil_iff {A} (p : A -> bool) l :
  filter p l = [] <-> forall x, In x l -> p x = false.
Proof.
  induction l as [|a r IH]; simpl.
  - split; [intros _ x []|reflexivity].
  - destruct (p a) eqn:E.
    + split; [discriminate|]. intro H. specialize (H a (or_introl eq_refl)). congruence.
    + rewrite IH. split.
      * intros H x [<-|Hx]; auto.
      * intros H x Hx. apply H. now right.
Qed.

Lemma filter_map_comm {A B} (g : A -> B) (p : B -> bool) l :
  filter p (map g l) = map g (filter (fun x => p (g x)) l).
Proof.
  induction l as [|a r IH]; simpl; [reflexivity|].
  destruct (p (g a)); simpl; now rewrite IH.
Qed.

Lemma min_cap (c x : Q) :
  ((x <= c)%Q -> (min c x == x)%Q) /\ ((c < x)%Q -> (min c x == c)%Q).
Proof.
  destruct (min_spec c x) as [[H ->]|[H ->]]; split; intros; lra.
Qed.

Lemma max_floor (c x : Q) :
  ((c <= x)%Q -> (max c x == x)%Q) /\ ((x < c)%Q -> (max c x == c)%Q).
Proof.
  destruct (max_spec c x) as [[H ->]|[H ->]]; split; intros; lra.
Qed.

Lemma pow10_pos n : (0 < pow10 n)%Z.
Proof.
  induction n; [reflexivity|].
  change (pow10 (S n)) with (10 * pow10 n)%Z. lia.
Qed.

(** [round x n] is a multiple of [10^-n] at distance at most half a unit
    from [x]. *)
Lemma round_spec (x : Q) (n : nat) :
  exists k : Z,
    (round x n == inject_Z k / inject_Z (pow10 n))%Q /\
    (inject_Z k - (1 # 2) <= x * inject_Z (pow10 n))%Q /\
    (x * inject_Z (pow10 n) <= inject_Z k + (1 # 2))%Q.
Proof.
  unfold round. cbv zeta.
  set (y := (x * inject_Z (pow10 n))%Q).
  pose proof (Qfloor_le y) as Hlo. pose proof (Qlt_floor y) as Hhi.
  rewrite inject_Z_plus in Hhi. change (inject_Z 1) with 1%Q in Hhi.
  destruct (Qlt_bool_spec (y - inject_Z (Qfloor y)) (1 # 2)) as [H1|H1].
  - exists (Qfloor y). split; [reflexivity|]. split; lra.
  - destruct (Qlt_bool_spec (1 # 2) (y - inject_Z (Qfloor y))) as [H2|H2].
    + exists (Qfloor y + 1)%Z. split; [reflexivity|].
      rewrite inject_Z_plus. change (inject_Z 1) with 1%Q. split; lra.
    + destruct (Z.even (Qfloor y)).
      * exists (Qfloor y). split; [reflexivity|]. split; lra.
      * exists (Qfloor y + 1)%Z. split; [reflexivity|].
        rewrite inject_Z_plus. change (inject_Z 1) with 1%Q. split; lra.
Qed.

End PyFacts.

(** ** Scenario weights ([calculate_rebalance]) *)

Module PortfolioEngineSpec.
Import Py PyFacts PortfolioEngine.

Lemma sectors_NoDup : NoDup sectors.
Proof.
  replace sectors with (nodup string_dec sectors) by reflexivity.
  apply NoDup_nodup.
Qed.

Lemma len_sectors : (len sectors == 13)%Q.
Proof. reflexivity. Qed.

Lemma values_build (f : string -> Q) :
  values (build f sectors) = map f sectors.
Proof.
  rewrite build_map by apply sectors_NoDup.
  unfold values. rewrite map_map. reflexivity.
Qed.

Lemma values_normalize (d : dict Q) :
  values (normalize d)
  = map (fun v => ((v / sum (values d)) * 100)%Q) (values d).
Proof.
  unfold normalize, map_values, values. rewrite !map_map. reflexivity.
Qed.

(** Renormalising weights with a positive total makes them sum to 100. *)
Lemma normalize_sum (d : dict Q) :
  (0 < sum (values d))%Q -> (sum (values (normalize d)) == 100)%Q.
Proof.
  intro Hpos. rewrite values_normalize.
  rewrite (sum_map_scale _ (100 / sum (values d))%Q).
  - field. lra.
  - intro x. field. lra.
Qed.

Lemma normalize_nonneg (d : dict Q) :
  (0 < sum (values d))%Q ->
  (forall v, In v (values d) -> (0 <= v)%Q) ->
  forall v, In v (values (normalize d)) -> (0 <= v)%Q.
Proof.
  intros Hpos Hnn v Hv. rewrite values_normalize in Hv.
  apply in_map_iff in Hv. destruct Hv as [x [<- Hx]].
  specialize (Hnn x Hx).
  assert (0 < / sum (values d))%Q by (apply Qinv_lt_0_compat; exact Hpos).
  unfold Qdiv.
  assert (0 <= x * / sum (values d))%Q
    by (apply Qmult_le_0_compat; lra).
  lra.
Qed.

(** A dict over the 13 sectors whose weights are at least [c > 0] has a
    positive total. *)
Lemma build_total_pos (f : string -> Q) (c : Q) :
  (0 < c)%Q -> (forall s, (c <= f s)%Q) ->
  (0 < sum (values (build f sectors)))%Q.
Proof.
  intros Hc Hf. rewrite values_build.
  assert (H : (c * len (map f sectors) <= sum (map f sectors))%Q).
  { apply sum_lower_bound. intros x Hx. apply in_map_iff in Hx.
    destruct Hx as [s [<- _]]. apply Hf. }
  assert (Hl : (len (map f sectors) == 13)%Q) by reflexivity.
  rewrite Hl in H. lra.
Qed.

Lemma momentum_weight_ge_2 sc s : (2 <= momentum_weight sc s)%Q.
Proof.
  unfold momentum_weight.
  destruct (max_spec 2 (min 20 (100 / len sectors + score_of sc s * 50)))
    as [[H ->]|[H ->]]; lra.
Qed.

Lemma contrarian_weight_ge_2 sc s : (2 <= contrarian_weight sc s)%Q.
Proof.
  unfold contrarian_weight.
  destruct (max_spec 2 (min 20 (100 / len sectors + - score_of sc s * 50)))
    as [[H ->]|[H ->]]; lra.
Qed.

Lemma defensive_weight_ge_1 sc s : (1 <= defensive_weight sc s)%Q.
Proof.
  unfold defensive_weight.
  destruct (mem s defensive_base);
    destruct (Qlt_bool (4 # 10) (score_of sc s));
    destruct (Qlt_bool (score_of sc s) (- (3 # 10)));
    try lra;
    match goal with
    | |- (_ <= max ?a ?b)%Q =>
        destruct (max_spec a b) as [[H ->]|[H ->]]; lra
    end.
Qed.

(** Weights [hi] on the members of [t] and [lo] elsewhere add up by the
    number of members. *)
Lemma sum_two_level (t l : list string) (hi lo : Q) :
  (sum (map (fun s => if mem s t then hi else lo) l)
   == (hi - lo) * len (filter (fun s => mem s t) l) + lo * len l)%Q.
Proof.
  induction l as [|x r IH]; simpl map; simpl filter.
  - rewrite sum_nil, !len_nil. lra.
  - rewrite sum_cons, IH.
    destruct (mem x t); rewrite !len_cons; lra.
Qed.

(** Distinct elements of [l] chosen as [t] are found again, each once. *)
Lemma filter_mem_length (t l : list string) :
  NoDup l -> NoDup t -> incl t l ->
  List.length (filter (fun s => mem s t) l) = List.length t.
Proof.
  intros Hl Ht Hincl. apply Nat.le_antisymm.
  - apply NoDup_incl_length.
    + now apply NoDup_filter.
    + intros s Hs. apply filter_In in Hs. apply mem_In. tauto.
  - apply NoDup_incl_length; [assumption|].
    intros s Hs. apply filter_In. split; [now apply Hincl|now apply mem_In].
Qed.

(** The aggressive scenario always singles out exactly three sectors. *)
Lemma top_3_count sc :
  List.length
    (filter (fun s => mem s (firstn 3 (sorted_desc (score_of sc) sectors)))
       sectors) = 3%nat.
Proof.
  set (srt := sorted_desc (score_of sc) sectors).
  assert (Hp : Permutation sectors srt) by apply sorted_desc_perm.
  assert (Hnd : NoDup srt) by (eapply Permutation_NoDup; [exact Hp|apply sectors_NoDup]).
  assert (Hlen : List.length srt = 13%nat)
    by (rewrite <- (Permutation_length Hp); reflexivity).
  rewrite filter_mem_length.
  - rewrite firstn_length_le; lia.
  - apply sectors_NoDup.
  - rewrite <- (firstn_skipn 3 srt) in Hnd. now apply NoDup_app_remove_r in Hnd.
  - intros s Hs. apply (Permutation_in s (Permutation_sym Hp)).
    rewrite <- (firstn_skipn 3 srt). apply in_or_app. now left.
Qed.

Lemma aggressive_sum sc :
  (sum (values (build (aggressive_weight sc) sectors)) == 100)%Q.
Proof.
  rewrite values_build. unfold aggressive_weight.
  rewrite sum_two_level. unfold len. rewrite top_3_count. reflexivity.
Qed.

(** For each of the six scenarios the weights sum to 100. *)
Lemma calculate_rebalance_sum_100 scenario sd :
  In scenario scenarios ->
  (sum (values (calculate_rebalance scenario sd)) == 100)%Q.
Proof.
  intro Hin. unfold scenarios in Hin. simpl in Hin.
  destruct Hin as [<-|[<-|[<-|[<-|[<-|[<-|[]]]]]]];
    unfold calculate_rebalance; simpl String.eqb; cbv iota.
  - reflexivity.
  - apply normalize_sum, (build_total_pos _ 2); [lra|apply momentum_weight_ge_2].
  - apply aggressive_sum.
  - apply normalize_sum, (build_total_pos _ 1); [lra|apply defensive_weight_ge_1].
  - apply normalize_sum, (build_total_pos _ 2); [lra|apply contrarian_weight_ge_2].
  - reflexivity.
Qed.

Lemma calculate_rebalance_nonneg scenario sd :
  In scenario scenarios ->
  forall v, In v (values (calculate_rebalance scenario sd)) -> (0 <= v)%Q.
Proof.
  intro Hin. unfold scenarios in Hin. simpl in Hin.
  destruct Hin as [<-|[<-|[<-|[<-|[<-|[<-|[]]]]]]];
    unfold calculate_rebalance; simpl String.eqb; cbv iota; intros v Hv.
  - unfold values in Hv. rewrite map_map in Hv. apply in_map_iff in Hv.
    destruct Hv as [s [<- _]]. simpl snd. vm_compute. discriminate.
  - revert v Hv. apply normalize_nonneg.
    + apply (build_total_pos _ 2); [lra|apply momentum_weight_ge_2].
    + intros v Hv. rewrite values_build in Hv. apply in_map_iff in Hv.
      destruct Hv as [s [<- _]].
      apply Qle_trans with 2%Q; [lra|apply momentum_weight_ge_2].
  - rewrite values_build in Hv. apply in_map_iff in Hv.
    destruct Hv as [s [<- _]]. unfold aggressive_weight.
    destruct (mem s _); lra.
  - revert v Hv. apply normalize_nonneg.
    + apply (build_total_pos _ 1); [lra|apply defensive_weight_ge_1].
    + intros v Hv. rewrite values_build in Hv. apply in_map_iff in Hv.
      destruct Hv as [s [<- _]].
      apply Qle_trans with 1%Q; [lra|apply defensive_weight_ge_1].
  - revert v Hv. apply normalize_nonneg.
    + apply (build_total_pos _ 2); [lra|apply contrarian_weight_ge_2].
    + intros v Hv. rewrite values_build in Hv. apply in_map_iff in Hv.
      destruct Hv as [s [<- _]].
      apply Qle_trans with 2%Q; [lra|apply contrarian_weight_ge_2].
  - simpl in Hv. destruct Hv as [<-|[]]. lra.
Qed.

(** C8.  For each of the six scenarios (benchmark, spy_only, momentum,
    aggressive, defensive, contrarian) and every sentiment input, the
    weights returned by [calculate_rebalance] sum to 100 within 0.01 and
    none of them is negative. *)
Theorem C8_scenario_weights_sum_to_100 (scenario : string) (sd : sentiment_data) :
  In scenario scenarios ->
  let w := values (calculate_rebalance scenario sd) in
  (100 - (1 # 100) <= sum w)%Q /\ (sum w <= 100 + (1 # 100))%Q /\
  (forall v, In v w -> (0 <= v)%Q).
Proof.
  intros Hin w. unfold w.
  pose proof (calculate_rebalance_sum_100 scenario sd Hin) as Hs.
  repeat split.
  - rewrite Hs. lra.
  - rewrite Hs. lra.
  - apply calculate_rebalance_nonneg, Hin.
Qed.

Lemma C8_scenario_weights_witness :
  In "aggressive" scenarios /\
  let w := values (calculate_rebalance "aggressive" tied_sentiment) in
  (100 - (1 # 100) <= sum w)%Q /\ (sum w <= 100 + (1 # 100))%Q /\
  (forall v, In v w -> (0 <= v)%Q).
Proof.
  assert (H : In "aggressive" scenarios) by (simpl; tauto).
  split; [exact H|].
  exact (C8_scenario_weights_sum_to_100 "aggressive" tied_sentiment H).
Defined.

(** With a tie at the third place the sector that comes first in the
    configuration is taken. *)
Example aggressive_tie_break :
  filter (fun kv => Qeq_bool (snd kv) 30)
    (calculate_rebalance "aggressive" tied_sentiment)
  = [("XLK", 30%Q); ("XLF", 30%Q); ("XLE", 30%Q)].
Proof. vm_compute. reflexivity. Qed.

(** The allocator of [weekly_rebalance.py] rounds each weight: thirteen
    equal weights of 7.69 add up to 99.97. *)
Example weekly_benchmark_rounded :
  (sum (values (WeeklyRebalance.calculate_new_allocations "benchmark" tied_sentiment))
   == 9997 # 100)%Q.
Proof. vm_compute. reflexivity. Qed.

End PortfolioEngineSpec.

(** ** Sentiment aggregation ([classify_sectors], [aggregate_sentiment]) *)

Module HarvesterSpec.
Import Py PyFacts Harvester.

(** *** The classifier *)

Lemma classify_sectors_In hl sectors c :
  In c (classify_sectors hl sectors) <->
  (exists info, In (c, info) sectors /\
                keyword_match (lower (title hl)) info = true) \/
  (c = "general" /\
   forall c' info, In (c', info) sectors ->
                   keyword_match (lower (title hl)) info = false).
Proof.
  unfold classify_sectors.
  set (p := fun kv : string * sector_info =>
              keyword_match (lower (title hl)) (snd kv)).
  assert (Hk : forall c, In c (keys (filter p sectors)) <->
                 exists info, In (c, info) sectors /\
                   keyword_match (lower (title hl)) info = true).
  { intro c0. unfold keys. rewrite in_map_iff. split.
    - intros [[k info] [Hfst Hin]]. simpl in Hfst. subst k.
      apply filter_In in Hin. exists info. exact Hin.
    - intros [info [Hin Hm]]. exists (c0, info). split; [reflexivity|].
      apply filter_In. split; assumption. }
  destruct (filter p sectors) as [|kv rest] eqn:Ef.
  - simpl. split.
    + intros [<-|[]]. right. split; [reflexivity|].
      intros c' info Hin.
      exact (proj1 (filter_nil_iff p sectors) Ef (c', info) Hin).
    + intros [[info [Hin Hm]]|[-> _]]; [|now left].
      exfalso.
      pose proof (proj1 (filter_nil_iff p sectors) Ef (c, info) Hin) as H.
      unfold p in H. simpl in H. congruence.
  - rewrite Hk. split; [intro H; now left|].
    intros [H|[_ Hnone]]; [exact H|].
    exfalso.
    assert (Hin : In kv (filter p sectors)) by (rewrite Ef; now left).
    apply filter_In in Hin. destruct Hin as [Hin Hp]. destruct kv as [k i].
    specialize (Hnone k i Hin). unfold p in Hp. simpl in Hp. congruence.
Qed.

Lemma NoDup_keys_filter {V} (p : string * V -> bool) (d : dict V) :
  NoDup (keys d) -> NoDup (keys (filter p d)).
Proof.
  induction d as [|[k v] r IH]; simpl; intro Hnd; [constructor|].
  inversion Hnd as [|? ? Hk Hr]; subst.
  destruct (p (k, v)); simpl; [|now apply IH].
  constructor; [|now apply IH].
  intro Hin. apply Hk. unfold keys in *. apply in_map_iff in Hin.
  destruct Hin as [x [Hx Hin]]. apply filter_In in Hin.
  apply in_map_iff. exists x. tauto.
Qed.

Lemma classify_sectors_NoDup hl sectors :
  NoDup (keys sectors) -> NoDup (classify_sectors hl sectors).
Proof.
  intro Hnd. unfold classify_sectors.
  pose proof (NoDup_keys_filter
                (fun kv => keyword_match (lower (title hl)) (snd kv))
                sectors Hnd) as H.
  destruct (keys (filter _ sectors)); [|exact H].
  constructor; [intros []|constructor].
Qed.

(** *** The accumulation loops *)

Lemma get_add_to_sector hl s sd t c :
  get c (add_to_sector hl s sd t)
  = if String.eqb c t then option_map (push hl s) (get c sd) else get c sd.
Proof.
  unfold add_to_sector.
  destruct (String.eqb c t) eqn:E.
  - apply String.eqb_eq in E. subst t.
    destruct (get c sd) as [b|] eqn:G; simpl.
    + now rewrite get_set_same.
    + exact G.
  - apply String.eqb_neq in E.
    destruct (get t sd) as [b|]; [|reflexivity].
    now apply get_set_other.
Qed.

Lemma get_fold_add hl s tgs sd c :
  NoDup tgs ->
  get c (fold_left (add_to_sector hl s) tgs sd)
  = if mem c tgs then option_map (push hl s) (get c sd) else get c sd.
Proof.
  revert sd. induction tgs as [|t r IH]; intros sd Hnd; simpl; [reflexivity|].
  inversion Hnd as [|? ? Ht Hr]; subst.
  rewrite IH by assumption. rewrite get_add_to_sector.
  destruct (String.eqb c t) eqn:E; simpl.
  - apply String.eqb_eq in E. subst t.
    destruct (mem c r) eqn:M; [|reflexivity].
    apply mem_In in M. contradiction.
  - reflexivity.
Qed.

Lemma extend_nil scorer b : extend scorer [] b = b.
Proof.
  destruct b. unfold extend. simpl. now rewrite !app_nil_r.
Qed.

Lemma extend_cons scorer hl hls b :
  extend scorer (hl :: hls) b
  = extend scorer hls
      (push (with_sentiment hl (round (scorer (title hl)) 2)) (scorer (title hl)) b).
Proof.
  unfold extend, push. simpl. now rewrite <- !app_assoc.
Qed.

Lemma get_fold_headlines scorer hls sd c :
  (forall hl, In hl hls -> NoDup (tags hl)) ->
  get c (fold_left (add_headline scorer) hls sd)
  = option_map
      (extend scorer (filter (fun hl => mem c (tags hl)) hls)) (get c sd).
Proof.
  revert sd. induction hls as [|hl r IH]; intros sd Hnd; simpl.
  - destruct (get c sd); simpl; [now rewrite extend_nil|reflexivity].
  - rewrite IH by (intros; apply Hnd; now right).
    unfold add_headline.
    rewrite get_fold_add by (apply Hnd; now left).
    destruct (mem c (tags hl)); [|reflexivity].
    destruct (get c sd); simpl; [now rewrite extend_cons|reflexivity].
Qed.

Lemma keys_add_to_sector hl s sd t : keys (add_to_sector hl s sd t) = keys sd.
Proof.
  unfold add_to_sector. destruct (get t sd) eqn:G; [|reflexivity].
  apply keys_set_present.
  destruct (in_dec string_dec t (keys sd)) as [H|H]; [exact H|].
  apply get_None_keys in H. congruence.
Qed.

Lemma keys_fold_headlines scorer hls sd :
  keys (fold_left (add_headline scorer) hls sd) = keys sd.
Proof.
  revert sd. induction hls as [|hl r IH]; intro sd; simpl; [reflexivity|].
  rewrite IH. unfold add_headline.
  generalize (tags hl). intro l. revert sd. induction l as [|t l IHl]; intro sd; simpl; [reflexivity|].
  rewrite IHl. apply keys_add_to_sector.
Qed.

(** *** The aggregation result, sector by sector *)

Lemma get_aggregate_with scorer hls sectors c :
  NoDup (keys sectors) ->
  (forall hl, In hl hls -> NoDup (tags hl)) ->
  get c (aggregate_with scorer hls sectors)
  = let ms := filter (fun hl => mem c (tags hl)) hls in
    if (mem c (keys sectors) || String.eqb c "general") && negb (Nat.eqb (List.length ms) 0)
    then Some (summarize (extend scorer ms empty_bucket))
    else None.
Proof.
  intros Hnd Htags. unfold aggregate_with.
  set (sd0 := set "general" empty_bucket (map_values (fun _ => empty_bucket) sectors)).
  assert (Hnd0 : NoDup (keys sd0)).
  { apply keys_set_NoDup. now rewrite keys_map_values. }
  assert (Hget0 : get c sd0
                  = if mem c (keys sectors) || String.eqb c "general"
                    then Some empty_bucket else None).
  { unfold sd0. destruct (String.eqb c "general") eqn:E.
    - apply String.eqb_eq in E. subst c. rewrite get_set_same.
      now rewrite orb_true_r.
    - apply String.eqb_neq in E. rewrite get_set_other by assumption.
      rewrite get_map_values, orb_false_r.
      destruct (mem c (keys sectors)) eqn:M.
      + apply mem_In in M.
        destruct (get c sectors) eqn:G; [reflexivity|].
        apply get_None_keys in G. contradiction.
      + destruct (get c sectors) eqn:G; [|reflexivity].
        apply get_Some_In in G.
        assert (In c (keys sectors))
          by (unfold keys; apply in_map_iff; now exists (c, s)).
        apply mem_In in H. congruence. }
  rewrite get_map_values.
  change (fun kv : string * bucket =>
            match b_scores (snd kv) with [] => false | _ :: _ => true end)
    with (fun kv : string * bucket => nonempty (snd kv)).
  rewrite get_filter by (now rewrite keys_fold_headlines).
  rewrite get_fold_headlines by assumption.
  rewrite Hget0. cbv zeta.
  destruct (mem c (keys sectors) || String.eqb c "general"); simpl; [|reflexivity].
  unfold nonempty, extend. simpl.
  destruct (filter (fun hl => mem c (tags hl)) hls); reflexivity.
Qed.

Lemma signal_of_spec avg :
  ((25 # 100 < avg)%Q -> signal_of avg = "BUY") /\
  ((avg < - (25 # 100))%Q -> signal_of avg = "SELL") /\
  ((- (25 # 100) <= avg)%Q -> (avg <= 25 # 100)%Q -> signal_of avg = "HOLD").
Proof.
  unfold signal_of.
  destruct (Qlt_bool_spec (25 # 100) avg);
    destruct (Qlt_bool_spec avg (- (25 # 100)));
    repeat split; intros; try reflexivity; lra.
Qed.

Lemma get_harvest_sentiment headlines sectors c :
  NoDup (keys sectors) ->
  get c (harvest_sentiment headlines sectors)
  = match members headlines sectors c with
    | [] => None
    | ms =>
        Some (summarize
                (extend simple_sentiment
                   (map (fun hl => with_sectors hl (classify_sectors hl sectors)) ms)
                   empty_bucket))
    end.
Proof.
  intro Hnd. unfold harvest_sentiment, aggregate_sentiment.
  rewrite get_aggregate_with; [|assumption|].
  2:{ intros hl Hin. apply in_map_iff in Hin. destruct Hin as [h [<- _]].
      simpl. now apply classify_sectors_NoDup. }
  cbv zeta. rewrite filter_map_comm.
  change (filter _ headlines) with (members headlines sectors c).
  destruct (members headlines sectors c) as [|m ms] eqn:Em; simpl.
  - now rewrite andb_false_r.
  - assert (Hin : In m (members headlines sectors c)) by (rewrite Em; now left).
    unfold members in Hin. apply filter_In in Hin. destruct Hin as [_ Hc].
    apply mem_In in Hc. apply classify_sectors_In in Hc.
    assert (Hk : mem c (keys sectors) || String.eqb c "general" = true).
    { destruct Hc as [[info [Hi _]]|[-> _]].
      - apply orb_true_iff. left. apply mem_In. unfold keys.
        apply in_map_iff. now exists (c, info).
      - now rewrite orb_true_r. }
    now rewrite Hk.
Qed.

(** *** The recomputation in [save_llm_results] *)

Lemma get_add_scores_step (acc : dict (list Q)) sent tgs c :
  get c (fold_left
           (fun acc sector => set sector (get_default sector [] acc ++ [sent]) acc)
           tgs acc)
  = match get c acc, filter (String.eqb c) tgs with
    | None, [] => None
    | o, l => Some (match o with Some x => x | None => [] end
                    ++ map (fun _ => sent) l)
    end.
Proof.
  revert acc. induction tgs as [|t r IH]; intro acc; simpl.
  - destruct (get c acc); [now rewrite app_nil_r|reflexivity].
  - rewrite IH. destruct (String.eqb c t) eqn:E.
    + apply String.eqb_eq in E. subst t. rewrite get_set_same.
      unfold get_default. simpl.
      destruct (get c acc); rewrite <- app_assoc; simpl;
        destruct (filter (String.eqb c) r); reflexivity.
    + apply String.eqb_neq in E. rewrite get_set_other by assumption.
      reflexivity.
Qed.

Lemma get_add_scores_all hs (acc : dict (list Q)) c :
  get c (fold_left LlmSentiment.add_scores hs acc)
  = match get c acc, LlmSentiment.scores_for c hs with
    | None, [] => None
    | o, l => Some (match o with Some x => x | None => [] end ++ l)
    end.
Proof.
  revert acc. induction hs as [|h r IH]; intro acc; simpl.
  - destruct (get c acc); [now rewrite app_nil_r|reflexivity].
  - rewrite IH. unfold LlmSentiment.add_scores.
    rewrite get_add_scores_step. unfold LlmSentiment.scores_for. simpl.
    fold (LlmSentiment.scores_for c r).
    destruct (get c acc) as [x|];
      destruct (filter (String.eqb c) (tags h)) as [|t l]; simpl;
      try rewrite <- app_assoc; simpl;
      destruct (LlmSentiment.scores_for c r); simpl;
      try rewrite app_nil_r; reflexivity.
Qed.

Lemma keys_add_scores_NoDup hs (acc : dict (list Q)) :
  NoDup (keys acc) -> NoDup (keys (fold_left LlmSentiment.add_scores hs acc)).
Proof.
  revert acc. induction hs as [|h r IH]; intros acc Hnd; simpl; [exact Hnd|].
  apply IH. unfold LlmSentiment.add_scores.
  generalize (tags h). intro l. revert acc Hnd.
  induction l as [|t l IHl]; intros acc Hnd; simpl; [exact Hnd|].
  apply IHl. now apply keys_set_NoDup.
Qed.

(** The recomputed entry of a sector is the summary of the scores of the
    headlines tagged with it: their mean rounded to 3 decimals, their
    number, and the signal of the mean by the same thresholds. *)
Lemma recalculate_entry hs c :
  get c (LlmSentiment.recalculate hs)
  = match LlmSentiment.scores_for c hs with
    | [] => None
    | scores =>
        Some {| LlmSentiment.score := round (mean scores) 3;
                LlmSentiment.count := List.length scores;
                LlmSentiment.signal := signal_of (mean scores) |}
    end.
Proof.
  unfold LlmSentiment.recalculate. rewrite get_map_values.
  rewrite (get_filter (fun l : list Q => match l with [] => false | _ => true end))
    by (apply keys_add_scores_NoDup; constructor).
  rewrite get_add_scores_all. simpl.
  destruct (LlmSentiment.scores_for c hs); reflexivity.
Qed.

End HarvesterSpec.

(** ** Rounding in binary64 *)

Module Float64Facts.
Import PrimFloat SpecFloat FloatOps.

#[local] Set Warnings "-inexact-float".





Local Open Scope float_scope.

(** [round] on values whose decimal expansion ends in 5: the binary value
    lies on one side of the tie, except for 0.125 and 2.5, which are
    ties. *)
Example round_examples :
  Float64.round 0.0375 3 = 0.037 /\
  Float64.round 2.675 2 = 2.67 /\
  Float64.round 33.45 1 = 33.5 /\
  Float64.round 0.125 2 = 0.12 /\
  Float64.round (-0.25000000000000006) 3 = (-0.25)%float /\
  Float64.round 2.5 0 = 2 /\
  Float64.round 0 3 = 0.
Proof. repeat split; vm_compute; reflexivity. Qed.

(** Sums of the keyword steps: 0.15 three times is not the double 0.45. *)
Example keyword_steps :
  (0 + 0.15 + 0.15 + 0.15)%float = 0.44999999999999996%float /\
  (0 + 0.15 + 0.15 + 0.15 - 0.4 - 0.15 - 0.15)%float
  = (-0.25000000000000006)%float /\
  (0.15 / 4)%float = 0.0375%float /\
  ltb (-0.25000000000000006) (-0.25) = true.
Proof. repeat split; vm_compute; reflexivity. Qed.

End Float64Facts.

(** ** Sector sentiment in floating point ([aggregate_sentiment], [save_llm_results]) *)

Module Harvester64Spec.
Import Py PyFacts PrimFloat SpecFloat FloatOps Harvester64.

#[local] Set Warnings "-inexact-float".



Section WithSum.

Variable py_sum : list float -> float.

Local Abbreviation summarize := (summarize py_sum).
Local Abbreviation aggregate_with := (aggregate_with py_sum).
Local Abbreviation harvest_sentiment := (harvest_sentiment py_sum).
Local Abbreviation recalculate := (recalculate py_sum).
Local Abbreviation mean := (mean py_sum).

(** *** The accumulation loops *)








(** *** The aggregation result, sector by sector *)



(** *** The recomputation in [save_llm_results] *)






End WithSum.


(** The same harvests with the scores taken as decimal fractions
    ([Harvester]) and as the floats of the code.  A single headline whose
    keyword steps add up to -0.25 as fractions (0.45 - 0.4 - 0.3): HOLD on
    fractions; the float sum is -0.25000000000000006 and the signal SELL.
    Four headlines with scores 0.15, 0, 0, 0: the fraction 0.0375 rounds
    to 0.038, the float quotient to 0.037. *)
Example decimal_fractions_differ :
  let sectors := Harvester.two_sectors in
  let exactly (hl : headline) := Harvester.fresh (title hl) in
  (Harvester.simple_sentiment (title mixed_headline) == - (25 # 100))%Q /\
  option_map Harvester.signal
    (get "general" (Harvester.harvest_sentiment [exactly mixed_headline] sectors))
  = Some "HOLD" /\
  simple_sentiment (title mixed_headline) = (-0.25000000000000006)%float /\
  option_map signal
    (get "general" (harvest_sentiment Float64.left_sum [mixed_headline] sectors))
  = Some "SELL" /\
  match get "general"
          (Harvester.harvest_sentiment (map exactly quiet_headlines) sectors) with
  | Some r => (Harvester.score r == 38 # 1000)%Q
  | None => False
  end /\
  option_map score
    (get "general" (harvest_sentiment Float64.left_sum quiet_headlines sectors))
  = Some 0.037%float.
Proof.
  cbv zeta. repeat split; vm_compute; reflexivity.
Qed.

End Harvester64Spec.

(** ** The sensitivity update ([daily_learn]) *)

Module DailyLearningSpec.
Import Py PyFacts DailyLearning.

Lemma abs_le (x c : Q) : (abs x <= c)%Q <-> (- c <= x)%Q /\ (x <= c)%Q.
Proof.
  unfold abs. destruct (Qlt_bool_spec x 0); split; intros; try split; lra.
Qed.

Lemma is_correct_iff (predicted actual : Q) :
  is_correct predicted actual = true <->
  ((1 # 10 < predicted)%Q /\ (0 < actual)%Q) \/
  ((predicted < - (1 # 10))%Q /\ (actual < 0)%Q) \/
  ((abs predicted <= 1 # 10)%Q /\ (abs actual <= 1)%Q).
Proof.
  unfold is_correct.
  destruct (Qlt_bool_spec (1 # 10) predicted) as [H1|H1];
    destruct (Qlt_bool_spec 0 actual) as [H2|H2]; simpl;
    try (split; [intros _; left; split; assumption|reflexivity]);
    (destruct (Qlt_bool_spec predicted (- (1 # 10))) as [H3|H3];
     destruct (Qlt_bool_spec actual 0) as [H4|H4]; simpl;
     try (split; [intros _; right; left; split; assumption|reflexivity]));
    (destruct (Qle_bool (abs predicted) (1 # 10)) eqn:E5;
     destruct (Qle_bool (abs actual) 1) eqn:E6; simpl;
     try (apply Qle_bool_iff in E5); try (apply Qle_bool_iff in E6);
     try (split; [intros _; right; right; split; assumption|reflexivity]));
    (split; [discriminate|]);
    intros [[A B]|[[A B]|[A B]]]; try lra;
    try (apply Qle_bool_iff in A; congruence);
    try (apply Qle_bool_iff in B; congruence).
Qed.

Lemma update_multiplier_bounds (sens : sensitivity) (correct : bool) :
  (1 # 2 <= multiplier_of sens)%Q -> (multiplier_of sens <= 2)%Q ->
  (1 # 2 <= multiplier_of (update_sensitivity sens correct))%Q /\
  (multiplier_of (update_sensitivity sens correct) <= 2)%Q.
Proof.
  intros Hlo Hhi. unfold update_sensitivity.
  destruct correct; unfold multiplier_of at 1 3; cbn [sentiment_multiplier].
  - destruct (min_spec 2 (multiplier_of sens * (102 # 100))) as [[H ->]|[H ->]];
      split; lra.
  - destruct (max_spec (1 # 2) (multiplier_of sens * (98 # 100))) as [[H ->]|[H ->]];
      split; lra.
Qed.

(** One sensitivity update of [daily_learn] for a sector with a price
    change: the prediction counts as correct exactly when predicted > 0.1
    and actual > 0, or predicted < -0.1 and actual < 0, or |predicted| <=
    0.1 and |actual| <= 1; a correct prediction multiplies the sector's
    multiplier by 1.02, capped at 2.0, an incorrect one by 0.98, floored at
    0.5; a multiplier within [0.5, 2.0] stays within [0.5, 2.0]. *)
Lemma daily_update_rule_and_bounds
  (price_changes : dict Q) (sector_sensitivity : dict sensitivity)
  (sector : string) (sd : sent_data) (actual : Q) :
  get sector price_changes = Some actual ->
  let predicted := match score sd with Some p => p | None => 0%Q end in
  let old := multiplier_of (get_default sector default_sensitivity sector_sensitivity) in
  let new := multiplier_of
               (get_default sector default_sensitivity
                  (learn_sector price_changes sector_sensitivity (sector, sd))) in
  let correct :=
    ((1 # 10 < predicted)%Q /\ (0 < actual)%Q) \/
    ((predicted < - (1 # 10))%Q /\ (actual < 0)%Q) \/
    ((abs predicted <= 1 # 10)%Q /\ (abs actual <= 1)%Q) in
  (correct ->
     ((old * (102 # 100) <= 2)%Q -> (new == old * (102 # 100))%Q) /\
     ((2 < old * (102 # 100))%Q -> (new == 2)%Q)) /\
  (~ correct ->
     ((1 # 2 <= old * (98 # 100))%Q -> (new == old * (98 # 100))%Q) /\
     ((old * (98 # 100) < 1 # 2)%Q -> (new == 1 # 2)%Q)) /\
  ((1 # 2 <= old)%Q -> (old <= 2)%Q -> (1 # 2 <= new)%Q /\ (new <= 2)%Q).
Proof.
  intros Hpc predicted old new correct.
  assert (Hnew : new = multiplier_of
                         (update_sensitivity
                            (get_default sector default_sensitivity sector_sensitivity)
                            (is_correct predicted actual))).
  { unfold new, learn_sector. rewrite Hpc. unfold get_default at 1.
    now rewrite get_set_same. }
  pose proof (is_correct_iff predicted actual) as Hc. fold correct in Hc.
  rewrite Hnew. split; [|split].
  - intro H. apply Hc in H. rewrite H.
    unfold update_sensitivity, multiplier_of at 1 3. cbn [sentiment_multiplier].
    fold old. apply min_cap.
  - intro H. destruct (is_correct predicted actual) eqn:E.
    + exfalso. apply H, Hc. reflexivity.
    + unfold update_sensitivity, multiplier_of at 1 3. cbn [sentiment_multiplier].
      fold old. apply max_floor.
  - apply update_multiplier_bounds.
Qed.

Lemma abs_lt (x c : Q) : (abs x < c)%Q <-> (- c < x)%Q /\ (x < c)%Q.
Proof.
  unfold abs. destruct (Qlt_bool_spec x 0); split; intros; try split; lra.
Qed.

Lemma weekly_is_correct_iff (predicted actual : Q) :
  WeeklyLearning.is_correct predicted actual = true <->
  ((0 < predicted)%Q /\ (0 < actual)%Q) \/
  ((predicted < 0)%Q /\ (actual < 0)%Q) \/
  ((abs predicted < 1 # 10)%Q /\ (abs actual < 1)%Q).
Proof.
  unfold WeeklyLearning.is_correct.
  rewrite !orb_true_iff, !andb_true_iff, !Qlt_bool_iff. tauto.
Qed.

Lemma weekly_update_multiplier_bounds (multiplier : Q) (correct : bool) :
  (1 # 2 <= multiplier)%Q -> (multiplier <= 2)%Q ->
  (1 # 2 <= WeeklyLearning.update_multiplier multiplier correct)%Q /\
  (WeeklyLearning.update_multiplier multiplier correct <= 2)%Q.
Proof.
  intros Hlo Hhi. unfold WeeklyLearning.update_multiplier. destruct correct.
  - destruct (min_spec 2 (multiplier * (105 # 100))) as [[H ->]|[H ->]]; split; lra.
  - destruct (max_spec (1 # 2) (multiplier * (95 # 100))) as [[H ->]|[H ->]]; split; lra.
Qed.

(** One sensitivity update of [learn_from_week] for a sector the model
    has a full entry for. *)
Lemma weekly_update_rule_and_bounds
  (previous_sentiment : dict sent_data) (price_changes : dict Q)
  (sector_sensitivity : dict sensitivity) (sector : string)
  (old : Q) (hits total : Z) :
  get sector sector_sensitivity
  = Some {| sentiment_multiplier := Some old;
            correct_predictions := Some hits;
            total_predictions := Some total |} ->
  let predicted :=
    match get sector previous_sentiment with
    | Some sd => match score sd with Some p => p | None => 0%Q end
    | None => 0%Q
    end in
  let actual := get_default sector 0%Q price_changes in
  let correct :=
    ((0 < predicted)%Q /\ (0 < actual)%Q) \/
    ((predicted < 0)%Q /\ (actual < 0)%Q) \/
    ((abs predicted < 1 # 10)%Q /\ (abs actual < 1)%Q) in
  exists model' new,
    WeeklyLearning.learn_sector previous_sentiment price_changes
      sector_sensitivity sector = Ok model' /\
    option_map sentiment_multiplier (get sector model') = Some (Some new) /\
    (correct ->
       ((old * (105 # 100) <= 2)%Q -> (new == old * (105 # 100))%Q) /\
       ((2 < old * (105 # 100))%Q -> (new == 2)%Q)) /\
    (~ correct ->
       ((1 # 2 <= old * (95 # 100))%Q -> (new == old * (95 # 100))%Q) /\
       ((old * (95 # 100) < 1 # 2)%Q -> (new == 1 # 2)%Q)) /\
    ((1 # 2 <= old)%Q -> (old <= 2)%Q -> (1 # 2 <= new)%Q /\ (new <= 2)%Q).
Proof.
  intros Hget predicted actual correct.
  pose proof (weekly_is_correct_iff predicted actual) as Hc. fold correct in Hc.
  unfold WeeklyLearning.learn_sector. rewrite Hget.
  fold predicted. fold actual.
  destruct (WeeklyLearning.is_correct predicted actual) eqn:E; simpl.
  - eexists. eexists. split; [reflexivity|].
    rewrite get_set_same. split; [reflexivity|].
    split; [intros _; apply min_cap|].
    split; [intro Hn; exfalso; apply Hn, Hc; reflexivity|].
    apply (weekly_update_multiplier_bounds old true).
  - eexists. eexists. split; [reflexivity|].
    rewrite get_set_same. split; [reflexivity|].
    split; [intro Hy; apply Hc in Hy; discriminate|].
    split; [intros _; apply max_floor|].
    apply (weekly_update_multiplier_bounds old false).
Qed.

(** C5 (as the code has it).  The daily update ([daily_learn]) counts a
    prediction as correct exactly when predicted > 0.1 and actual > 0, or
    predicted < -0.1 and actual < 0, or |predicted| <= 0.1 and |actual| <=
    1, and multiplies the multiplier by 1.02 capped at 2.0 when correct, by
    0.98 floored at 0.5 when not.  The weekly update ([learn_from_week])
    counts it as correct exactly when predicted > 0 and actual > 0, or
    predicted < 0 and actual < 0, or |predicted| < 0.1 and |actual| < 1,
    and multiplies by 1.05 capped at 2.0 when correct, by 0.95 floored at
    0.5 when not.  Under either update a multiplier within [0.5, 2.0] stays
    within [0.5, 2.0]. *)
Theorem C5_update_rules_and_bounds
  (sentiments : dict sent_data) (price_changes : dict Q)
  (sector_sensitivity : dict sensitivity) (sector : string)
  (sd : sent_data) (actual old : Q) (hits total : Z) :
  get sector sentiments = Some sd ->
  get sector price_changes = Some actual ->
  get sector sector_sensitivity
  = Some {| sentiment_multiplier := Some old;
            correct_predictions := Some hits;
            total_predictions := Some total |} ->
  let predicted := match score sd with Some p => p | None => 0%Q end in
  let daily :=
    multiplier_of
      (get_default sector default_sensitivity
         (learn_sector price_changes sector_sensitivity (sector, sd))) in
  let daily_correct :=
    ((1 # 10 < predicted)%Q /\ (0 < actual)%Q) \/
    ((predicted < - (1 # 10))%Q /\ (actual < 0)%Q) \/
    ((abs predicted <= 1 # 10)%Q /\ (abs actual <= 1)%Q) in
  let weekly_correct :=
    ((0 < predicted)%Q /\ (0 < actual)%Q) \/
    ((predicted < 0)%Q /\ (actual < 0)%Q) \/
    ((abs predicted < 1 # 10)%Q /\ (abs actual < 1)%Q) in
  ((daily_correct ->
      ((old * (102 # 100) <= 2)%Q -> (daily == old * (102 # 100))%Q) /\
      ((2 < old * (102 # 100))%Q -> (daily == 2)%Q)) /\
   (~ daily_correct ->
      ((1 # 2 <= old * (98 # 100))%Q -> (daily == old * (98 # 100))%Q) /\
      ((old * (98 # 100) < 1 # 2)%Q -> (daily == 1 # 2)%Q)) /\
   ((1 # 2 <= old)%Q -> (old <= 2)%Q -> (1 # 2 <= daily)%Q /\ (daily <= 2)%Q)) /\
  exists model' weekly,
    WeeklyLearning.learn_sector sentiments price_changes sector_sensitivity sector
    = Ok model' /\
    option_map sentiment_multiplier (get sector model') = Some (Some weekly) /\
    (weekly_correct ->
       ((old * (105 # 100) <= 2)%Q -> (weekly == old * (105 # 100))%Q) /\
       ((2 < old * (105 # 100))%Q -> (weekly == 2)%Q)) /\
    (~ weekly_correct ->
       ((1 # 2 <= old * (95 # 100))%Q -> (weekly == old * (95 # 100))%Q) /\
       ((old * (95 # 100) < 1 # 2)%Q -> (weekly == 1 # 2)%Q)) /\
    ((1 # 2 <= old)%Q -> (old <= 2)%Q -> (1 # 2 <= weekly)%Q /\ (weekly <= 2)%Q).
Proof.
  intros Hs Hp Hm predicted daily daily_correct weekly_correct. split.
  - pose proof (daily_update_rule_and_bounds price_changes sector_sensitivity
                  sector sd actual Hp) as H.
    assert (Hold : multiplier_of
                     (get_default sector default_sensitivity sector_sensitivity)
                   = old)
      by (unfold get_default; rewrite Hm; reflexivity).
    cbv zeta in H. rewrite Hold in H. exact H.
  - pose proof (weekly_update_rule_and_bounds sentiments price_changes
                  sector_sensitivity sector old hits total Hm) as H.
    cbv zeta in H. rewrite Hs in H. unfold get_default in H. rewrite Hp in H.
    exact H.
Qed.

Lemma C5_update_rules_witness :
  get "XLV" WeeklyLearning.weak_positive
  = Some {| score := Some (5 # 100) |} /\
  get "XLV" WeeklyLearning.rose_2 = Some 2%Q /\
  (multiplier_of
     (get_default "XLV" default_sensitivity
        (learn_sector WeeklyLearning.rose_2 WeeklyLearning.initial_model
           ("XLV", {| score := Some (5 # 100) |}))) == 98 # 100)%Q /\
  exists model' weekly,
    WeeklyLearning.learn_sector WeeklyLearning.weak_positive WeeklyLearning.rose_2
      WeeklyLearning.initial_model "XLV" = Ok model' /\
    option_map sentiment_multiplier (get "XLV" model') = Some (Some weekly) /\
    (weekly == 105 # 100)%Q.
Proof.
  split; [reflexivity|]. split; [reflexivity|].
  destruct (C5_update_rules_and_bounds WeeklyLearning.weak_positive
              WeeklyLearning.rose_2 WeeklyLearning.initial_model "XLV"
              {| score := Some (5 # 100) |} 2 1 0 0 eq_refl eq_refl eq_refl)
    as [[_ [Hwrong _]] [model' [weekly [Hrun [Hget [Hright _]]]]]].
  split.
  - cbv zeta in Hwrong. cbn [score] in Hwrong. destruct Hwrong as [Hfloor _].
    + intros [[H _]|[[H _]|[_ H]]]; [lra|lra|apply abs_le in H; lra].
    + rewrite Hfloor; [reflexivity|vm_compute; discriminate].
  - exists model', weekly. split; [exact Hrun|]. split; [exact Hget|].
    cbv zeta in Hright. cbn [score] in Hright. destruct Hright as [Hcap _].
    + left. split; reflexivity.
    + rewrite Hcap; [reflexivity|vm_compute; discriminate].
Defined.

(** C5 (diverging input).  A score of 0.05 followed by a rise of 2%: by
    the rule of the claim the prediction is neither bullish nor neutral,
    hence incorrect, and the multiplier 1.0 would become 0.98;
    [learn_from_week] counts it as correct and makes it 1.05. *)
Theorem C5_weekly_update_differs :
  DailyLearning.is_correct (5 # 100) 2 = false /\
  WeeklyLearning.is_correct (5 # 100) 2 = true /\
  exists model',
    WeeklyLearning.learn_sector WeeklyLearning.weak_positive WeeklyLearning.rose_2
      WeeklyLearning.initial_model "XLV" = Ok model' /\
    option_map sentiment_multiplier (get "XLV" model') = Some (Some (105 # 100)) /\
    ~ (105 # 100 == 98 # 100)%Q.
Proof.
  split; [reflexivity|]. split; [reflexivity|].
  eexists. split; [reflexivity|]. split; [reflexivity|].
  vm_compute. discriminate.
Qed.

End DailyLearningSpec.

(** ** Phase-1 selection ([parse_portfolio_response], [select_assets]) *)

Module OllamaPortfolioSpec.
Import Py PyFacts OllamaPortfolio.

Lemma dedup_In x xs : In x (dedup xs) <-> In x xs.
Proof.
  induction xs as [|y r IH]; simpl; [tauto|].
  rewrite filter_In, IH, negb_true_iff, String.eqb_neq.
  destruct (string_dec x y) as [->|Hne]; [tauto|].
  split; [tauto|]. intros [E|H]; [congruence|tauto].
Qed.

Lemma bind_Ok {A B} (r : result A) (f : A -> result B) b :
  bind r f = Ok b -> exists a, r = Ok a /\ f a = Ok b.
Proof.
  destruct r as [a|e]; simpl; [|discriminate]. intro H. now exists a.
Qed.

Lemma filterM_In {A} (p : A -> result bool) l ys x :
  filterM p l = Ok ys -> In x ys -> In x l /\ p x = Ok true.
Proof.
  revert ys. induction l as [|a r IH]; simpl; intros ys H Hin.
  - inversion H; subst. contradiction.
  - apply bind_Ok in H. destruct H as [b [Hb H]].
    apply bind_Ok in H. destruct H as [zs [Hzs H]].
    inversion H; subst. destruct b.
    + destruct Hin as [<-|Hin]; [tauto|].
      destruct (IH zs Hzs Hin). tauto.
    + destruct (IH zs Hzs Hin). tauto.
Qed.

Lemma ticker_is_valid_true stocks a :
  ticker_is_valid (valid_tickers stocks) a = Ok true ->
  exists t, ticker_of a = Some t /\ In t (map ticker stocks).
Proof.
  unfold ticker_is_valid, ticker_of.
  destruct (get "ticker" a) as [[| | |t| |]|]; try discriminate.
  intro H. inversion H as [Hm]. exists t. split; [reflexivity|].
  apply mem_In in Hm. exact (proj1 (dedup_In _ _) Hm).
Qed.

(** On the structured path every returned asset names a candidate ticker. *)
Lemma structured_selection_valid data stocks budget selected d :
  structured_selection data stocks budget = Ok (selected, d) ->
  forall a, In a selected ->
    exists t, ticker_of a = Some t /\ In t (map ticker stocks).
Proof.
  unfold structured_selection. intros H a Hin.
  do 5 (apply bind_Ok in H; destruct H as [? [_ H]]).
  apply bind_Ok in H. destruct H as [sel [Hsel H]].
  inversion H; subst.
  destruct (filterM_In _ _ _ _ Hsel Hin) as [_ Hv].
  now apply ticker_is_valid_true.
Qed.

(** On the fallback path every returned asset names a candidate ticker. *)
Lemma fallback_assets_valid extra response stocks budget a :
  In a (fallback_assets extra response stocks budget) ->
  exists t, ticker_of a = Some t /\ In t (map ticker stocks).
Proof.
  unfold fallback_assets. intro H. apply in_map_iff in H.
  destruct H as [t [<- Ht]]. exists t. split; [reflexivity|].
  assert (Hin : In t (mentioned response stocks)).
  { rewrite <- (firstn_skipn 5 (mentioned response stocks)).
    apply in_or_app. now left. }
  unfold mentioned in Hin. apply filter_In in Hin.
  destruct Hin as [Hin _]. exact (proj1 (dedup_In _ _) Hin).
Qed.

Lemma assets_of_selected (r : dict json) (sel : list (dict json)) :
  get "selected_assets" r = Some (JArr (map JObj sel)) -> assets_of r = sel.
Proof.
  unfold assets_of. intros ->. induction sel as [|a l IH]; simpl; [reflexivity|].
  now rewrite IH.
Qed.

(** Whatever [parse_portfolio_response] returns holds candidate tickers only. *)
Lemma parse_portfolio_response_valid json_loads response stocks budget r :
  parse_portfolio_response json_loads response stocks budget = Ok (Some r) ->
  forall a, In a (assets_of r) ->
    exists t, ticker_of a = Some t /\ In t (map ticker stocks).
Proof.
  unfold parse_portfolio_response. intros H a Hin.
  destruct (search_braces response) as [text|].
  - destruct (json_loads text) as [data|e].
    + destruct (structured_selection data stocks budget) as [[sel d]|e] eqn:Es;
        [|discriminate].
      inversion H; subst. erewrite assets_of_selected in Hin by reflexivity.
      eapply structured_selection_valid; eauto.
    + destruct (mentioned response stocks); inversion H; subst.
      erewrite assets_of_selected in Hin by reflexivity.
      eapply fallback_assets_valid; eauto.
  - destruct (mentioned response stocks); inversion H; subst.
    erewrite assets_of_selected in Hin by reflexivity.
    eapply fallback_assets_valid; eauto.
Qed.

(** The same for the selection of [ollama_portfolio_v2.py]. *)
Lemma select_assets_from_response_valid json_loads sector sentiment stocks budget
  response r :
  select_assets_from_response json_loads sector sentiment stocks budget response
  = Some r ->
  forall a, In a (assets_of r) ->
    exists t, ticker_of a = Some t /\ In t (map ticker stocks).
Proof.
  unfold select_assets_from_response. intros H a Hin.
  destruct (search_braces response) as [text|].
  - destruct (json_loads text) as [data|e].
    + destruct (structured_selection data stocks budget) as [[sel d]|e] eqn:Es.
      * inversion H; subst.
        erewrite assets_of_selected in Hin by reflexivity.
        eapply structured_selection_valid; eauto.
      * destruct (mentioned response stocks); inversion H; subst.
        erewrite assets_of_selected in Hin by reflexivity.
        eapply fallback_assets_valid; eauto.
    + destruct (mentioned response stocks); inversion H; subst.
      erewrite assets_of_selected in Hin by reflexivity.
      eapply fallback_assets_valid; eauto.
  - destruct (mentioned response stocks); inversion H; subst.
    erewrite assets_of_selected in Hin by reflexivity.
    eapply fallback_assets_valid; eauto.
Qed.

Lemma sum_const {A} (c : Q) (l : list A) :
  (sum (map (fun _ => c) l) == c * len l)%Q.
Proof.
  induction l as [|a r IH]; simpl.
  - rewrite sum_nil, len_nil. lra.
  - rewrite sum_cons, len_cons, IH. lra.
Qed.

(** The fallback weights sum to the share of the mentioned tickers that is
    kept: to 1 when at most five tickers are mentioned. *)
Lemma fallback_total_weight extra response stocks budget :
  mentioned response stocks <> [] ->
  (sum (map weight_or_zero (fallback_assets extra response stocks budget))
   == len (firstn 5 (mentioned response stocks)) / len (mentioned response stocks))%Q.
Proof.
  intro Hne. unfold fallback_assets. rewrite map_map. simpl.
  change (fun x : string => weight_or_zero
            (("ticker", JStr x)
             :: ("weight", JNum (1 / len (mentioned response stocks)))
             :: ("amount",
                 JNum (round (1 / len (mentioned response stocks) * budget) 2))
             :: extra))
    with (fun _ : string => (1 / len (mentioned response stocks))%Q).
  rewrite sum_const. field.
  unfold len. destruct (mentioned response stocks); [contradiction|].
  simpl List.length. rewrite Nat2Z.inj_succ.
  intro H. unfold Qeq in H. simpl in H. lia.
Qed.

(** C1 (diverging inputs).  Weights are normalised before the tickers
    outside the candidate set are dropped, and the fallback divides by the
    number of mentioned tickers before it keeps five: a structured response
    with one candidate and one unknown ticker at 0.5 each returns the
    candidate alone at weight 0.5, and six mentioned candidates return five
    assets at 1/6 each; the weights then sum to 1/2 and 5/6, not to 1. *)
Theorem C1_weights_not_renormalized_after_drop :
  (exists r,
      parse_portfolio_response two_assets_loads two_assets_text two_stocks 10000
      = Ok (Some r) /\
      map ticker_of (assets_of r) = [Some "AAPL"] /\
      (total_weight r == 1 # 2)%Q /\ ~ (total_weight r == 1)%Q) /\
  (exists r,
      select_assets_from_response two_assets_loads "XLK" (6 # 10) two_stocks 10000
        two_assets_text = Some r /\
      map ticker_of (assets_of r) = [Some "AAPL"] /\
      (total_weight r == 1 # 2)%Q /\ ~ (total_weight r == 1)%Q) /\
  (exists r,
      parse_portfolio_response no_json six_mentions six_stocks 10000
      = Ok (Some r) /\
      List.length (assets_of r) = 5%nat /\
      (total_weight r == 5 # 6)%Q /\ ~ (total_weight r == 1)%Q) /\
  (exists r,
      select_assets_from_response no_json "XLK" (6 # 10) six_stocks 10000
        six_mentions = Some r /\
      List.length (assets_of r) = 5%nat /\
      (total_weight r == 5 # 6)%Q /\ ~ (total_weight r == 1)%Q).
Proof.
  repeat split; eexists;
    (split; [vm_compute; reflexivity|]);
    (split; [reflexivity|]);
    (split; [vm_compute; reflexivity|vm_compute; discriminate]).
Qed.

End OllamaPortfolioSpec.

(** ** Phase-2 refinement ([refine_allocation]) *)

Module RefinedStrategySpec.
Import Py PyFacts RefinedStrategy.

Lemma keep_with_fields reasoning current result :
  is_noop current (keep_with reasoning current result) /\
  get "reasoning" (keep_with reasoning current result) = Some (JStr reasoning).
Proof.
  unfold is_noop, keep_with. repeat split.
  - rewrite !get_set_other by discriminate. apply get_set_same.
  - apply get_set_same.
  - rewrite get_set_other by discriminate. apply get_set_same.
  - rewrite !get_set_other by discriminate. apply get_set_same.
Qed.

Lemma raw_response_keeps v reasoning current result :
  is_noop current (set "raw_response" v (keep_with reasoning current result)) /\
  get "reasoning" (set "raw_response" v (keep_with reasoning current result))
  = Some (JStr reasoning).
Proof.
  destruct (keep_with_fields reasoning current result) as [[A [B C]] D].
  unfold is_noop. rewrite !get_set_other by discriminate. tauto.
Qed.

Section WithBackend.

Variable json_loads : string -> result json.
Variable post : string -> reply.
Variable build_refinement_prompt :
  string -> Q -> dict Q -> dict json -> list json -> string.
Variable now : string.
Variable format_number : Q -> string.
Variable exception_text : failure -> string.

Variable embeddings : dict json.
Variable news : list json.
Variable sector : string.
Variable sentiment_score : Q.
Variable current_allocation : dict Q.
Variable scenario : string.

Let o : outcome :=
  refine_allocation json_loads post build_refinement_prompt now format_number exception_text
    embeddings news sector sentiment_score current_allocation scenario.

Let prompt : string :=
  build_refinement_prompt sector sentiment_score current_allocation embeddings news.

Let result0 : dict json :=
  initial_result now embeddings sector sentiment_score current_allocation scenario.

Lemma no_profile_filter :
  (forall t, In t (keys current_allocation) -> has_key t embeddings = false) ->
  filter (fun t => has_key t embeddings) (keys current_allocation) = [].
Proof.
  intro H. apply filter_nil_iff. exact H.
Qed.

Lemma some_profile_returned :
  filter (fun t => has_key t embeddings) (keys current_allocation) <> [] ->
  returned o = handle_reply json_loads format_number exception_text current_allocation result0
                 (post prompt) /\
  posted o = [prompt].
Proof.
  intro H. unfold o, refine_allocation.
  destruct (filter _ (keys current_allocation)); [contradiction|].
  split; reflexivity.
Qed.

(** C6.  [refine_allocation] falls back to a no-op: when no ticker of the
    allocation has a company profile it returns keep with confidence 0.0
    and the allocation it was given, and posts nothing to the backend; when
    the backend call raises (a timeout), answers with a status other than
    200, or sends text that does not parse as JSON, it returns keep with
    confidence 0.0 and the allocation it was given, the error being the
    text of [reasoning]. *)
Theorem C6_refine_falls_back_to_noop :
  ((forall t, In t (keys current_allocation) -> has_key t embeddings = false) ->
   is_noop current_allocation (returned o) /\ posted o = []) /\
  (filter (fun t => has_key t embeddings) (keys current_allocation) <> [] ->
   (forall e, post prompt = Failed e ->
      is_noop current_allocation (returned o) /\
      get "reasoning" (returned o) = Some (JStr ("Exception: " ++ e))) /\
   (forall status_code body,
      post prompt = Reply status_code body -> status_code <> 200%Z ->
      is_noop current_allocation (returned o) /\
      get "reasoning" (returned o)
      = Some (JStr ("Ollama error: " ++ string_of_Z status_code))) /\
   (forall body e,
      post prompt = Reply 200 body -> json_loads body = Raise e ->
      is_noop current_allocation (returned o) /\
      get "reasoning" (returned o) = Some (JStr ("Exception: " ++ e))) /\
   (forall body b raw e,
      post prompt = Reply 200 body -> json_loads body = Ok (JObj b) ->
      get_default "response" (JStr EmptyString) b = JStr raw ->
      json_loads (extract_json_text (strip raw)) = Raise e ->
      is_noop current_allocation (returned o) /\
      get "reasoning" (returned o) = Some (JStr ("JSON parse error: " ++ e)))).
Proof.
  split.
  - intro H. unfold o, refine_allocation. rewrite (no_profile_filter H).
    cbn [returned posted]. split; [|reflexivity].
    fold (keep_with "No embeddings available for refinement" current_allocation
            (initial_result now embeddings sector sentiment_score
               current_allocation scenario)).
    apply keep_with_fields.
  - intro Hsome. destruct (some_profile_returned Hsome) as [-> _].
    repeat split; intros.
    all: unfold handle_reply;
      repeat match goal with
             | H : post prompt = _ |- _ => rewrite H; clear H
             | H : json_loads _ = _ |- _ => rewrite H; clear H
             | H : get_default _ _ _ = _ |- _ => rewrite H; clear H
             end.
    all: try (destruct (Z.eqb_spec status_code 200); [contradiction|]).
    all: try rewrite Z.eqb_refl.
    all: try apply keep_with_fields; try apply raw_response_keeps.
Qed.

End WithBackend.

Lemma C6_refine_noop_witness :
  posted
    (refine_allocation keep_other_loads reply_timeout any_prompt
       "2026-01-05T09:00:00" show_number show_failure [] [] "XLK" (1 # 2)
       [("AAPL", 100%Q)] "benchmark") = [] /\
  get "reasoning"
    (returned
       (refine_allocation keep_other_loads reply_timeout any_prompt
          "2026-01-05T09:00:00" show_number show_failure apple_profile [] "XLK" (1 # 2)
          [("AAPL", 100%Q)] "benchmark"))
  = Some (JStr "Exception: Read timed out").
Proof.
  split.
  - apply (C6_refine_falls_back_to_noop keep_other_loads reply_timeout any_prompt
             "2026-01-05T09:00:00" show_number show_failure [] [] "XLK" (1 # 2)
             [("AAPL", 100%Q)] "benchmark").
    intros t _. reflexivity.
  - apply (C6_refine_falls_back_to_noop keep_other_loads reply_timeout any_prompt
             "2026-01-05T09:00:00" show_number show_failure apple_profile [] "XLK" (1 # 2)
             [("AAPL", 100%Q)] "benchmark").
    + vm_compute. discriminate.
    + reflexivity.
Defined.


(** *** The call as a whole *)

Section WholeCall.

Variable json_loads : string -> result json.
Variable post : string -> reply.
Variable now : string.
Variable format_number : Q -> string.
Variable exception_text : failure -> string.
Variable py_str : json -> string.

Variable embeddings : dict json.
Variable news : list (dict json).
Variable sector : string.
Variable sentiment_score : Q.
Variable current_allocation : dict Q.
Variable scenario : string.

Local Abbreviation call :=
  (RefinementCall.refine_allocation json_loads post now format_number
     exception_text py_str embeddings news sector sentiment_score
     current_allocation scenario).

Local Abbreviation built :=
  (RefinementCall.build_refinement_prompt py_str sector sentiment_score
     current_allocation embeddings news).

Local Abbreviation result0 :=
  (initial_result now embeddings sector sentiment_score current_allocation
     scenario).

Local Abbreviation handled r :=
  (handle_reply json_loads format_number exception_text current_allocation
     result0 r).




End WholeCall.



End RefinedStrategySpec.

(** ** The feedback loop ([evaluate_decision], [run_evaluations],
       [learn_from_evaluations]) *)

Module Phase2FeedbackSpec.
Import Py PyFacts Phase2Feedback.

Lemma append_lines_step {A} (file : option (list A)) e l :
  append_lines (append_line file e) l = append_lines file (e :: l).
Proof.
  unfold append_lines, append_line, lines. simpl.
  destruct l; [reflexivity|]. now rewrite <- app_assoc.
Qed.

Section WithPrices.

Variable fetch_price_change : string -> Z -> Z -> option Q.

Local Abbreviation evaluate_decision := (evaluate_decision fetch_price_change).
Local Abbreviation run_evaluations := (run_evaluations fetch_price_change).
Local Abbreviation evaluate_all := (evaluate_all fetch_price_change).
Local Abbreviation yields := (yields fetch_price_change).

(** A call appends at most the evaluation it returns and leaves the
    decision log, flags included, as it is. *)
Lemma evaluate_decision_store now d days st :
  decisions_file (snd (evaluate_decision now d days st)) = decisions_file st /\
  feedback_config_file (snd (evaluate_decision now d days st))
  = feedback_config_file st /\
  evaluations_file (snd (evaluate_decision now d days st))
  = append_lines (evaluations_file st) (yields now days [d]).
Proof.
  unfold Phase2Feedback.evaluate_decision, Phase2Feedback.yields. simpl.
  destruct (evaluation_of fetch_price_change now d days); simpl; auto.
Qed.

(** The loop of a run that meets numeric confidences only. *)
Lemma evaluate_all_numeric now days pending results st :
  (forall d, In d pending -> numeric (confidence d)) ->
  fst (evaluate_all now days pending results st)
  = Ok (results ++ yields now days pending) /\
  decisions_file (snd (evaluate_all now days pending results st))
  = decisions_file st /\
  feedback_config_file (snd (evaluate_all now days pending results st))
  = feedback_config_file st /\
  evaluations_file (snd (evaluate_all now days pending results st))
  = append_lines (evaluations_file st) (yields now days pending).
Proof.
  revert results st. induction pending as [|d rest IH]; intros results st Hnum.
  - simpl. rewrite app_nil_r. auto.
  - simpl evaluate_all.
    destruct (Hnum d (or_introl eq_refl)) as [q Hq]. rewrite Hq.
    assert (Hrest : forall d', In d' rest -> numeric (confidence d'))
      by (intros; apply Hnum; now right).
    unfold Phase2Feedback.evaluate_decision.
    unfold Phase2Feedback.yields. simpl flat_map.
    fold (yields now days rest).
    destruct (evaluation_of fetch_price_change now d days) as [e|].
    + destruct (IH (results ++ [e])
                  {| decisions_file := decisions_file st;
                     evaluations_file := append_line (evaluations_file st) e;
                     feedback_config_file := feedback_config_file st |} Hrest)
        as [H1 [H2 [H3 H4]]].
      rewrite H1, H2, H3, H4. simpl.
      rewrite <- app_assoc. rewrite append_lines_step. auto.
    + destruct (IH results st Hrest) as [H1 [H2 [H3 H4]]].
      rewrite H1, H2, H3, H4. auto.
Qed.

Lemma mark_one_timestamp ts d : timestamp (mark_one ts d) = timestamp d.
Proof.
  unfold mark_one. destruct (existsb _ ts); reflexivity.
Qed.

Lemma mark_one_nil d : mark_one [] d = d.
Proof. reflexivity. Qed.

Lemma existsb_Zeqb_In (t : Z) ts : existsb (Z.eqb t) ts = true <-> In t ts.
Proof.
  rewrite existsb_exists. split.
  - intros [x [Hx E]]. apply Z.eqb_eq in E. now subst.
  - intro H. exists t. split; [assumption|apply Z.eqb_refl].
Qed.

(** A decision that is still unevaluated after the marking is one whose
    timestamp was not in the set. *)
Lemma mark_one_unevaluated ts d :
  is_evaluated (mark_one ts d) = false ->
  mark_one ts d = d /\ ~ In (timestamp d) ts.
Proof.
  unfold mark_one. destruct (existsb (Z.eqb (timestamp d)) ts) eqn:E.
  - discriminate.
  - intros _. split; [reflexivity|]. intro Hin.
    apply existsb_Zeqb_In in Hin. congruence.
Qed.

(** What a run leaves when every pending confidence is a number: it
    returns the evaluations its pending decisions yield, has appended
    exactly those, and has flagged every decision that carries the
    timestamp of a pending one. *)
Lemma run_evaluations_numeric now st :
  let days := evaluation_days (load_config st) in
  let pending := get_pending_evaluations now days st in
  (forall d, In d pending -> numeric (confidence d)) ->
  fst (run_evaluations now st) = Ok (yields now days pending) /\
  decisions_file (snd (run_evaluations now st))
  = option_map (map (mark_one (map timestamp pending))) (decisions_file st) /\
  evaluations_file (snd (run_evaluations now st))
  = append_lines (evaluations_file st) (yields now days pending) /\
  feedback_config_file (snd (run_evaluations now st)) = feedback_config_file st.
Proof.
  intros days pending Hnum. unfold Phase2Feedback.run_evaluations.
  fold days. fold pending.
  destruct pending as [|d rest] eqn:Ep.
  - simpl. repeat split; try reflexivity.
    destruct (decisions_file st) as [ds|]; [|reflexivity]. simpl. f_equal.
    induction ds as [|a r IH]; simpl; [reflexivity|]. now rewrite <- IH.
  - rewrite <- Ep in *.
    destruct (evaluate_all_numeric now days pending [] st Hnum)
      as [H1 [H2 [H3 H4]]].
    destruct (evaluate_all now days pending [] st) as [r st'] eqn:Ea.
    simpl in H1, H2, H3, H4. subst r. simpl.
    unfold mark_decisions_evaluated. rewrite H2.
    destruct (decisions_file st) as [ds|]; simpl; auto.
Qed.

(** No later run finds a decision pending that carries the timestamp of a
    decision the run has processed. *)
Lemma processed_never_pending now st now' days' d' :
  let days := evaluation_days (load_config st) in
  let pending := get_pending_evaluations now days st in
  (forall d, In d pending -> numeric (confidence d)) ->
  In d' (get_pending_evaluations now' days' (snd (run_evaluations now st))) ->
  ~ In (timestamp d') (map timestamp pending).
Proof.
  intros days pending Hnum Hin.
  destruct (run_evaluations_numeric now st Hnum) as [_ [Hd _]].
  fold days in Hd. fold pending in Hd.
  unfold get_pending_evaluations in Hin. rewrite Hd in Hin.
  destruct (decisions_file st) as [ds|]; simpl in Hin; [|contradiction].
  apply filter_In in Hin. destruct Hin as [Hin Hc].
  apply in_map_iff in Hin. destruct Hin as [d [<- Hd0]].
  apply andb_true_iff in Hc. destruct Hc as [Hc _].
  apply negb_true_iff in Hc.
  rewrite mark_one_timestamp.
  now destruct (mark_one_unevaluated _ _ Hc).
Qed.

(** Running again at the same instant finds nothing pending. *)
Lemma nothing_pending_after_run now st :
  let days := evaluation_days (load_config st) in
  let pending := get_pending_evaluations now days st in
  (forall d, In d pending -> numeric (confidence d)) ->
  get_pending_evaluations now days (snd (run_evaluations now st)) = [].
Proof.
  intros days pending Hnum.
  destruct (get_pending_evaluations now days (snd (run_evaluations now st)))
    as [|d' l] eqn:E; [reflexivity|exfalso].
  assert (Hin : In d' (get_pending_evaluations now days
                         (snd (run_evaluations now st))))
    by (rewrite E; now left).
  pose proof (processed_never_pending now st now days d' Hnum Hin) as Hout.
  destruct (run_evaluations_numeric now st Hnum) as [_ [Hd _]].
  fold days in Hd. fold pending in Hd, Hout.
  unfold get_pending_evaluations in Hin. rewrite Hd in Hin.
  destruct (decisions_file st) as [ds|] eqn:Eds; simpl in Hin; [|contradiction].
  apply filter_In in Hin. destruct Hin as [Hin Hc].
  apply in_map_iff in Hin. destruct Hin as [d [Hmd Hd0]]. subst d'.
  apply andb_true_iff in Hc. destruct Hc as [Hc1 Hc2].
  apply negb_true_iff in Hc1.
  destruct (mark_one_unevaluated _ _ Hc1) as [Heq _].
  rewrite Heq in *. apply Hout. apply in_map.
  unfold pending, get_pending_evaluations. rewrite Eds.
  apply filter_In. split; [assumption|].
  apply andb_true_iff. split; [now apply negb_true_iff|assumption].
Qed.

(** C10.  A run of [run_evaluations] that meets numeric confidences sets
    [evaluated] on every decision that carries the timestamp of a pending
    decision, whether [evaluate_decision] returned an evaluation for it or
    [None]; the evaluations it returns and appends are those of the pending
    decisions with both returns available, so a pending decision without
    them adds none; and no pending decision is pending again, at any later
    time and for any maturation window. *)
Theorem C10_unavailable_returns_still_marked now st :
  let days := evaluation_days (load_config st) in
  let pending := get_pending_evaluations now days st in
  let st' := snd (run_evaluations now st) in
  (forall d, In d pending -> numeric (confidence d)) ->
  (forall d', In d' (decisions st') ->
     In (timestamp d') (map timestamp pending) -> evaluated d' = Some true) /\
  map timestamp (decisions st') = map timestamp (decisions st) /\
  fst (run_evaluations now st) = Ok (yields now days pending) /\
  evaluations st' = evaluations st ++ yields now days pending /\
  (forall d, evaluation_of fetch_price_change now d days = None ->
     yields now days [d] = []) /\
  (forall now' days' d',
     In d' (get_pending_evaluations now' days' st') ->
     ~ In (timestamp d') (map timestamp pending)).
Proof.
  intros days pending st' Hnum.
  destruct (run_evaluations_numeric now st Hnum) as [Hr [Hd [He Hc]]].
  fold days in Hr, Hd, He. fold pending in Hr, Hd, He. fold st' in Hd, He, Hc.
  repeat split.
  - intros d' Hin Hts. unfold decisions, lines in Hin. rewrite Hd in Hin.
    destruct (decisions_file st) as [ds|]; simpl in Hin; [|contradiction].
    apply in_map_iff in Hin. destruct Hin as [d [<- Hd0]].
    rewrite mark_one_timestamp in Hts. unfold mark_one.
    apply existsb_Zeqb_In in Hts. now rewrite Hts.
  - unfold decisions, lines. rewrite Hd.
    destruct (decisions_file st) as [ds|]; simpl; [|reflexivity].
    rewrite map_map. apply map_ext. intro d. apply mark_one_timestamp.
  - exact Hr.
  - unfold evaluations. rewrite He. unfold append_lines.
    destruct (yields now days pending); [now rewrite app_nil_r|reflexivity].
  - intros d Hnone. unfold Phase2Feedback.yields. simpl. now rewrite Hnone.
  - intros now' days' d'. now apply processed_never_pending.
Qed.

(** C2 (as the code has it).  [evaluate_decision] leaves the decision log
    and its [evaluated] flags untouched and appends an evaluation whenever
    both returns are available.  One evaluation per decision comes from
    [run_evaluations]: a run that meets numeric confidences appends at most
    one evaluation per pending decision and then flags them, so that none
    of them is pending afterwards and a second run at the same instant
    returns nothing and leaves the store as it is. *)
Theorem C2_at_most_once_per_run now st :
  let days := evaluation_days (load_config st) in
  let pending := get_pending_evaluations now days st in
  let st' := snd (run_evaluations now st) in
  (forall d, In d pending -> numeric (confidence d)) ->
  (forall t d n s,
     decisions_file (snd (evaluate_decision t d n s)) = decisions_file s /\
     evaluations_file (snd (evaluate_decision t d n s))
     = append_lines (evaluations_file s) (yields t n [d])) /\
  evaluations st' = evaluations st ++ yields now days pending /\
  (List.length (yields now days pending) <= List.length pending)%nat /\
  (forall now' days' d',
     In d' (get_pending_evaluations now' days' st') ->
     ~ In (timestamp d') (map timestamp pending)) /\
  run_evaluations now st' = (Ok [], st').
Proof.
  intros days pending st' Hnum.
  destruct (run_evaluations_numeric now st Hnum) as [Hr [Hd [He Hc]]].
  fold days in Hr, Hd, He. fold pending in Hr, Hd, He. fold st' in Hd, He, Hc.
  repeat split.
  - apply evaluate_decision_store.
  - apply evaluate_decision_store.
  - unfold evaluations. rewrite He. unfold append_lines.
    destruct (yields now days pending); [now rewrite app_nil_r|reflexivity].
  - clear. unfold Phase2Feedback.yields.
    induction pending as [|d r IH]; simpl; [lia|].
    rewrite length_app.
    destruct (evaluation_of fetch_price_change now d days); simpl; lia.
  - intros now' days' d'. now apply processed_never_pending.
  - unfold Phase2Feedback.run_evaluations.
    assert (Hcfg : load_config st' = load_config st)
      by (unfold load_config; now rewrite Hc).
    rewrite Hcfg. fold days.
    pose proof (nothing_pending_after_run now st Hnum) as Hnil.
    fold days in Hnil. fold st' in Hnil. now rewrite Hnil.
Qed.

End WithPrices.

Lemma matured_is_numeric (now : Z) (st : store) :
  (forall d, In d (decisions st) -> numeric (confidence d)) ->
  forall d,
    In d (get_pending_evaluations now (evaluation_days (load_config st)) st) ->
    numeric (confidence d).
Proof.
  intros H d Hin. apply H. unfold get_pending_evaluations in Hin.
  unfold decisions, lines. destruct (decisions_file st); [|contradiction].
  apply filter_In in Hin. simpl. tauto.
Qed.

Lemma one_decision_numeric :
  forall d, In d (decisions one_decision_store) -> numeric (confidence d).
Proof.
  intros d [<-|[]]. exists (8 # 10). reflexivity.
Qed.

Lemma C10_unavailable_returns_witness :
  let pending :=
    get_pending_evaluations ten_days_later
      (evaluation_days (load_config one_decision_store)) one_decision_store in
  let st' := snd (run_evaluations no_prices ten_days_later one_decision_store) in
  (forall d, In d pending -> numeric (confidence d)) /\
  pending = [matured_decision] /\
  (forall d', In d' (decisions st') ->
     In (timestamp d') (map timestamp pending) -> evaluated d' = Some true) /\
  evaluations st' = [].
Proof.
  cbv zeta.
  pose proof (matured_is_numeric ten_days_later one_decision_store
                one_decision_numeric) as Hnum.
  split; [exact Hnum|]. split; [reflexivity|].
  destruct (C10_unavailable_returns_still_marked no_prices ten_days_later
              one_decision_store Hnum) as [Hmark [_ [_ [Hev _]]]].
  split; [exact Hmark|]. rewrite Hev. reflexivity.
Defined.

Lemma C2_at_most_once_witness :
  let pending :=
    get_pending_evaluations ten_days_later
      (evaluation_days (load_config one_decision_store)) one_decision_store in
  let st' := snd (run_evaluations constant_prices ten_days_later one_decision_store) in
  (forall d, In d pending -> numeric (confidence d)) /\
  List.length (evaluations st') = 1%nat /\
  run_evaluations constant_prices ten_days_later st' = (Ok [], st').
Proof.
  cbv zeta.
  pose proof (matured_is_numeric ten_days_later one_decision_store
                one_decision_numeric) as Hnum.
  split; [exact Hnum|].
  destruct (C2_at_most_once_per_run constant_prices ten_days_later
              one_decision_store Hnum) as [_ [Hev [_ [_ Hagain]]]].
  split; [rewrite Hev; reflexivity|exact Hagain].
Defined.

(** C2 (diverging input).  A matured decision with both returns available
    is evaluated twice in a row: the second call appends a second
    evaluation, and the decision's flag is still unset. *)
Theorem C2_second_call_appends_again :
  let st1 :=
    snd (evaluate_decision constant_prices ten_days_later matured_decision 3
           one_decision_store) in
  let st2 :=
    snd (evaluate_decision constant_prices ten_days_later matured_decision 3 st1) in
  List.length (evaluations st1) = 1%nat /\
  List.length (evaluations st2) = 2%nat /\
  st2 <> st1 /\
  map evaluated (decisions st2) = [Some false].
Proof.
  cbv zeta. split; [reflexivity|]. split; [reflexivity|].
  split; [|reflexivity].
  intro H. apply (f_equal (fun s => List.length (evaluations s))) in H.
  vm_compute in H. discriminate H.
Qed.

(** *** Threshold learning *)

(** [stats[action]] has the entries adjust and keep: the loop raises at
    the first evaluation it cannot file, whatever came before. *)
Lemma collect_stats_unknown_action es adjust keep e :
  In e es -> e_action e <> "adjust" -> e_action e <> "keep" ->
  exists err, collect_stats es adjust keep = Raise err.
Proof.
  intros Hin Ha Hk. revert adjust keep.
  induction es as [|x r IH]; intros adjust keep; [contradiction|].
  cbn [collect_stats].
  destruct Hin as [->|Hin].
  - apply String.eqb_neq in Ha, Hk. rewrite Ha, Hk. eexists. reflexivity.
  - destruct (String.eqb (e_action x) "adjust").
    + destruct (confidence_bucket (e_confidence x)) as [l|err]; cbn [bind];
        [now apply IH|now exists err].
    + destruct (String.eqb (e_action x) "keep").
      * destruct (confidence_bucket (e_confidence x)) as [l|err]; cbn [bind];
          [now apply IH|now exists err].
      * eexists. reflexivity.
Qed.

(** C4 (diverging input).  [get_performance_stats] files every evaluation
    under [stats[action]], which has the entries adjust and keep only: one
    evaluation with another action ends it with an exception, and
    [learn_from_evaluations] with it, so the threshold is neither lowered
    nor raised whatever the adjust evaluations say.  The pipeline writes
    such evaluations itself: [run_phase2_refinement] logs an adjust
    decision that the gate rejects as [keep_low_conf], [run_evaluations]
    copies the action into the evaluation, and the next learning step
    raises [KeyError].  With five winning adjust evaluations in the log the
    threshold is lowered from 0.6 and saved; with the evaluation of one
    [keep_low_conf] decision added to the same log it is not updated. *)
Theorem C4_learning_ends_on_keep_low_conf :
  (forall now st es e,
      evaluations_file st = Some es -> In e es ->
      e_action e <> "adjust" -> e_action e <> "keep" ->
      exists err,
        get_performance_stats st = Raise err /\
        learn_from_evaluations now st = Raise err) /\
  (let st1 :=
     snd (TwoPhase.run_phase2_refinement TwoPhase.low_confidence_adjust
            TwoPhase.fetch_nothing true true 0 TwoPhase.phase1_example
            "XLK" (6 # 10) "benchmark" TwoPhase.empty_store) in
   let st2 := snd (run_evaluations constant_prices ten_days_later st1) in
   map action (decisions st1) = ["keep_low_conf"] /\
   map e_action (evaluations st2) = ["keep_low_conf"] /\
   learn_from_evaluations ten_days_later st2 = Raise "KeyError: keep_low_conf") /\
  (match learn_from_evaluations ten_days_later five_wins_store with
   | Ok (c, st') =>
       (min_confidence_threshold c < 6 # 10)%Q /\
       (min_confidence_threshold (load_config st') < 6 # 10)%Q
   | Raise _ => False
   end) /\
  (learn_from_evaluations ten_days_later five_wins_and_low_conf_store
   = Raise "KeyError: keep_low_conf").
Proof.
  split; [|split; [|split]].
  - intros now st es e Hes Hin Ha Hk.
    destruct (collect_stats_unknown_action es empty_stats empty_stats e Hin Ha Hk)
      as [err Herr].
    exists err. unfold learn_from_evaluations, get_performance_stats.
    rewrite Hes, Herr. split; reflexivity.
  - cbv zeta. repeat split; vm_compute; reflexivity.
  - vm_compute. split; reflexivity.
  - vm_compute. reflexivity.
Qed.

End Phase2FeedbackSpec.

(** ** Applying a refinement ([run_phase2_refinement], [run_both_phases]) *)

Module TwoPhaseSpec.
Import Py PyFacts TwoPhase.

Lemma is_adjust_text (action : json) :
  is_adjust action = true -> text_of action = "adjust".
Proof.
  destruct action as [| | |s| |]; try discriminate. simpl.
  intro H. now apply String.eqb_eq in H.
Qed.

Lemma not_adjust_text (action : json) :
  is_adjust action = false -> text_of action <> "adjust".
Proof.
  destruct action as [| | |s| |]; try discriminate. simpl.
  intro H. now apply String.eqb_neq in H.
Qed.

Lemma get_phase_other (k : string) (v : json) (d : dict json) :
  k <> "phase" -> get k (set "phase" v d) = get k d.
Proof. intro H. now apply get_set_other. Qed.

(** What the gate accepts: a number that reaches the threshold. *)
Lemma should_apply_adjustment_true confidence st :
  Phase2Feedback.should_apply_adjustment confidence st = Ok true ->
  exists c,
    as_number confidence = Ok c /\
    (Phase2Feedback.min_confidence_threshold (Phase2Feedback.load_config st) <= c)%Q.
Proof.
  unfold Phase2Feedback.should_apply_adjustment, Phase2Feedback.confidence_reaches.
  destruct (as_number confidence) as [c|]; [|discriminate].
  cbn [bind]. intro H. injection H as H. exists c. split; [reflexivity|].
  now apply Qle_bool_iff.
Qed.

Lemma should_apply_adjustment_below confidence st c :
  as_number confidence = Ok c ->
  (c < Phase2Feedback.min_confidence_threshold (Phase2Feedback.load_config st))%Q ->
  Phase2Feedback.should_apply_adjustment confidence st = Ok false.
Proof.
  unfold Phase2Feedback.should_apply_adjustment, Phase2Feedback.confidence_reaches.
  intros -> Hlt. cbn [bind]. f_equal.
  destruct (Qle_bool _ c) eqn:E; [|reflexivity].
  apply Qle_bool_iff in E. lra.
Qed.

Section Gate.

Variable refine : string -> Q -> dict Q -> string -> dict json.
Variable fetch_embeddings : list (dict json) -> result unit.

Local Abbreviation run_phase2_refinement :=
  (run_phase2_refinement refine fetch_embeddings).
Local Abbreviation refinement_body := (refinement_body refine fetch_embeddings).
Local Abbreviation allocation_to_refine := (allocation_to_refine fetch_embeddings).

(** The body stops before a decision is made (Phase 1 selected no asset),
    or it ends in one of three ways: the refinement does not say adjust,
    the gate rejects its confidence, or the adjustment is applied. *)
Lemma refinement_body_cases (feedback_enabled : bool) (now : Z)
  (phase1_result : dict json) (sector : string) (sentiment : Q)
  (scenario : string) (st : Phase2Feedback.store) r st' :
  refinement_body feedback_enabled now phase1_result sector sentiment scenario st
  = Ok (r, st') ->
  (allocation_to_refine phase1_result = Ok None /\ r = phase1_result /\ st' = st) \/
  exists current,
    allocation_to_refine phase1_result = Ok (Some current) /\
    let refinement := refine sector sentiment current scenario in
    let action := get_default "action" (JStr "keep") refinement in
    let confidence := get_default "confidence" (JNum 0) refinement in
    let reasoning := get_default "reasoning" (JStr EmptyString) refinement in
    let new_allocation :=
      get_default "new_allocation" (json_of_allocation current) refinement in
    (* the refinement does not say adjust *)
    (is_adjust action = false /\
     (forall k, k <> "phase" -> get k r = get k phase1_result) /\
     get "phase" r = Some (JStr "1+2") /\
     (if feedback_enabled
      then st' = snd (Phase2Feedback.log_decision now sector sentiment
                        (text_of action) confidence current current
                        (text_of reasoning) st)
      else st' = st)) \/
    (* the gate rejects the confidence *)
    (is_adjust action = true /\ feedback_enabled = true /\
     Phase2Feedback.should_apply_adjustment confidence st = Ok false /\
     (forall k, k <> "phase" -> get k r = get k phase1_result) /\
     get "phase" r = Some (JStr "1+2") /\
     st' = snd (Phase2Feedback.log_decision now sector sentiment "keep_low_conf"
                  confidence current current (text_of reasoning) st)) \/
    (* the adjustment is applied *)
    (is_adjust action = true /\
     (feedback_enabled = true ->
      Phase2Feedback.should_apply_adjustment confidence st = Ok true) /\
     exists final,
       allocation_of_json new_allocation = Ok final /\
       (if feedback_enabled
        then st' = snd (Phase2Feedback.log_decision now sector sentiment "adjust"
                          confidence current final (text_of reasoning) st)
        else st' = st)).
Proof.
  unfold TwoPhase.refinement_body, TwoPhase.allocation_to_refine. intro H.
  destruct (OllamaPortfolio.iterate _) as [items|]; [|discriminate].
  cbn [bind] in H |- *.
  destruct (mapM as_dict items) as [assets|]; [|discriminate].
  cbn [bind] in H |- *.
  destruct assets as [|a assets]; [injection H as <- <-; now left|].
  destruct (fetch_embeddings (a :: assets)); [|discriminate].
  cbn [bind] in H |- *.
  destruct (current_allocation_of (a :: assets) []) as [current|]; [|discriminate].
  cbn [bind] in H |- *. right. exists current. split; [reflexivity|]. cbv zeta.
  set (refinement := refine sector sentiment current scenario) in *.
  set (action := get_default "action" (JStr "keep") refinement) in *.
  set (confidence := get_default "confidence" (JNum 0) refinement) in *.
  set (reasoning := get_default "reasoning" (JStr EmptyString) refinement) in *.
  destruct (is_adjust action) eqn:Ea.
  - destruct feedback_enabled; cbn [andb] in H.
    + destruct (Phase2Feedback.should_apply_adjustment confidence st)
        as [[|]|] eqn:Es; [| |discriminate]; cbn [bind] in H.
      * (* applied, logged *)
        destruct (mapM _ (a :: assets)) as [amounts|]; [|discriminate].
        cbn [bind] in H.
        destruct (refined_assets _ _) as [refined|]; [|discriminate].
        cbn [bind] in H.
        destruct (allocation_of_json _) as [final|]; [|discriminate].
        cbn [bind] in H. injection H as <- <-.
        right. right. split; [reflexivity|]. split; [auto|].
        exists final. split; [reflexivity|].
        rewrite (is_adjust_text action Ea). reflexivity.
      * injection H as <- <-. right. left.
        split; [reflexivity|]. split; [reflexivity|]. split; [reflexivity|].
        split; [|split; [apply get_set_same|reflexivity]].
        intros k Hk. now rewrite !get_phase_other.
    + cbn [bind] in H.
      destruct (mapM _ (a :: assets)) as [amounts|]; [|discriminate].
      cbn [bind] in H.
      destruct (refined_assets _ _) as [refined|]; [|discriminate].
      cbn [bind] in H.
      destruct (allocation_of_json _) as [final|]; [|discriminate].
      cbn [bind] in H. injection H as <- <-.
      right. right. split; [reflexivity|]. split; [discriminate|].
      exists final. split; reflexivity.
  - cbn [andb bind] in H. left. split; [reflexivity|].
    destruct feedback_enabled; injection H as <- <-.
    + split; [|split; [apply get_set_same|reflexivity]].
      intros k Hk. now rewrite !get_phase_other.
    + split; [|split; [apply get_set_same|reflexivity]].
      intros k Hk. now rewrite get_phase_other.
Qed.

(** With the feedback module loaded, an adjust decision whose confidence
    is below the threshold is not what the body raises on: it returns. *)
Lemma refinement_body_below_threshold now phase1_result sector sentiment
  scenario st current c :
  let refinement := refine sector sentiment current scenario in
  let confidence := get_default "confidence" (JNum 0) refinement in
  let reasoning := get_default "reasoning" (JStr EmptyString) refinement in
  allocation_to_refine phase1_result = Ok (Some current) ->
  is_adjust (get_default "action" (JStr "keep") refinement) = true ->
  as_number confidence = Ok c ->
  (c < Phase2Feedback.min_confidence_threshold (Phase2Feedback.load_config st))%Q ->
  refinement_body true now phase1_result sector sentiment scenario st
  = Ok (set "phase" (JStr "1+2") (set "phase" (JStr "1+2") phase1_result),
        snd (Phase2Feedback.log_decision now sector sentiment "keep_low_conf"
               confidence current current (text_of reasoning) st)).
Proof.
  intros refinement confidence reasoning Hread Hadj Hc Hlt.
  unfold TwoPhase.allocation_to_refine in Hread.
  unfold TwoPhase.refinement_body.
  destruct (OllamaPortfolio.iterate _) as [items|]; [|discriminate].
  cbn [bind] in Hread |- *.
  destruct (mapM as_dict items) as [assets|]; [|discriminate].
  cbn [bind] in Hread |- *.
  destruct assets as [|a assets]; [discriminate|].
  destruct (fetch_embeddings (a :: assets)); [|discriminate].
  cbn [bind] in Hread |- *.
  destruct (current_allocation_of (a :: assets) []) as [cur|]; [|discriminate].
  cbn [bind] in Hread |- *. injection Hread as ->.
  fold refinement. rewrite Hadj. cbn [andb].
  fold confidence. fold reasoning.
  rewrite (should_apply_adjustment_below confidence st c Hc Hlt).
  reflexivity.
Qed.

(** C3.  In [run_phase2_refinement], with the feedback module loaded, an
    adjustment is applied only if the confidence of the refinement is a
    number that reaches the current [min_confidence_threshold]: either
    every field of the result other than the phase label is what Phase 1
    returned and no decision is logged as adjust, or the refinement said
    adjust with such a confidence.  Whenever the refinement says adjust
    with a confidence below the threshold, the Phase-1 assets stay in
    place and one decision is logged, as [keep_low_conf], with the
    Phase-1 allocation as its final allocation.  [run_both_phases] applies
    nothing: it returns [None] or ends with the exception of [run_phase1],
    before any final allocation is built. *)
Theorem C3_adjust_applied_only_above_threshold
  (ENABLE_PHASE2 : bool) (now : Z) (phase1_result : dict json)
  (sector : string) (sentiment : Q) (scenario : string)
  (st : Phase2Feedback.store) :
  let out := run_phase2_refinement ENABLE_PHASE2 true now phase1_result sector
               sentiment scenario st in
  let threshold :=
    Phase2Feedback.min_confidence_threshold (Phase2Feedback.load_config st) in
  (((forall k, k <> "phase" -> get k (fst out) = get k phase1_result) /\
    (forall d, In d (Phase2Feedback.decisions (snd out)) ->
               ~ In d (Phase2Feedback.decisions st) ->
               Phase2Feedback.action d <> "adjust")) \/
   exists current c,
     allocation_to_refine phase1_result = Ok (Some current) /\
     let refinement := refine sector sentiment current scenario in
     is_adjust (get_default "action" (JStr "keep") refinement) = true /\
     as_number (get_default "confidence" (JNum 0) refinement) = Ok c /\
     (threshold <= c)%Q) /\
  (forall current c,
     ENABLE_PHASE2 = true ->
     allocation_to_refine phase1_result = Ok (Some current) ->
     let refinement := refine sector sentiment current scenario in
     let confidence := get_default "confidence" (JNum 0) refinement in
     is_adjust (get_default "action" (JStr "keep") refinement) = true ->
     as_number confidence = Ok c ->
     (c < threshold)%Q ->
     (forall k, k <> "phase" -> get k (fst out) = get k phase1_result) /\
     exists d,
       Phase2Feedback.decisions (snd out) = Phase2Feedback.decisions st ++ [d] /\
       Phase2Feedback.action d = "keep_low_conf" /\
       Phase2Feedback.confidence d = confidence /\
       Phase2Feedback.original_allocation d = current /\
       Phase2Feedback.final_allocation d = current) /\
  (forall get_embedding_stats run_phase2 cache,
     run_both_phases get_embedding_stats run_phase2 cache = Ok None \/
     exists e, run_both_phases get_embedding_stats run_phase2 cache = Raise e).
Proof.
  cbv zeta. split; [|split].
  - unfold TwoPhase.run_phase2_refinement.
    destruct ENABLE_PHASE2; cbn [negb];
      [|left; split; [reflexivity|intros d Hin Hnew; contradiction]].
    destruct (refinement_body true now phase1_result sector sentiment scenario st)
      as [[r st']|e] eqn:E;
      [|left; split; [reflexivity|intros d Hin Hnew; contradiction]].
    apply refinement_body_cases in E. cbn [fst snd].
    assert (Hlogged : forall label confidence current reasoning d,
              In d (Phase2Feedback.decisions
                      (snd (Phase2Feedback.log_decision now sector sentiment label
                              confidence current current reasoning st))) ->
              ~ In d (Phase2Feedback.decisions st) ->
              Phase2Feedback.action d = label).
    { intros label confidence current reasoning d Hin Hnew.
      unfold Phase2Feedback.log_decision, Phase2Feedback.decisions,
        Phase2Feedback.lines, Phase2Feedback.append_line in Hin |- *.
      cbn [snd Phase2Feedback.decisions_file Phase2Feedback.or_default] in Hin.
      apply in_app_or in Hin. destruct Hin as [Hin|[<-|[]]]; [|reflexivity].
      exfalso. apply Hnew. exact Hin. }
    destruct E as [[_ [-> ->]]|[current [Hread E]]].
    { left. split; [reflexivity|intros d Hin Hnew; contradiction]. }
    cbv zeta in E.
    destruct E as [[Ha [Hsame [_ Hst]]]|[[Ha [_ [Hs [Hsame [_ Hst]]]]]|[Ha [Hs _]]]].
    + left. split; [exact Hsame|]. intros d Hin Hnew. subst st'.
      rewrite (Hlogged _ _ _ _ d Hin Hnew). now apply not_adjust_text.
    + left. split; [exact Hsame|]. intros d Hin Hnew. subst st'.
      rewrite (Hlogged _ _ _ _ d Hin Hnew). discriminate.
    + right. destruct (should_apply_adjustment_true _ _ (Hs eq_refl))
        as [c [Hc Hle]].
      exists current, c. repeat split; assumption.
  - intros current c -> Hread Hadj Hc Hlt.
    unfold TwoPhase.run_phase2_refinement. cbn [negb].
    rewrite (refinement_body_below_threshold now phase1_result sector sentiment
               scenario st current c Hread Hadj Hc Hlt).
    cbn [fst snd]. split.
    + intros k Hk. now rewrite !get_phase_other.
    + eexists. split.
      * unfold Phase2Feedback.log_decision, Phase2Feedback.decisions,
          Phase2Feedback.lines, Phase2Feedback.append_line.
        cbn [snd Phase2Feedback.decisions_file Phase2Feedback.or_default].
        reflexivity.
      * repeat split.
  - intros get_embedding_stats run_phase2 cache.
    unfold run_both_phases, run_phase1.
    destruct get_embedding_stats as [[]|e]; cbn [bind]; [|right; now exists e].
    destruct (get_current_sentiment cache) as [[|s l]|e]; cbn [bind].
    + now left.
    + right. eexists. reflexivity.
    + right. now exists e.
Qed.

End Gate.

(** A refinement with action adjust and confidence 0.55 under the default
    threshold 0.6, on a Phase-1 result of two assets. *)
Lemma C3_gate_witness :
  let out := run_phase2_refinement low_confidence_adjust fetch_nothing true true 0
               phase1_example "XLK" (6 # 10) "benchmark" empty_store in
  exists current,
    allocation_to_refine fetch_nothing phase1_example = Ok (Some current) /\
    get "selected_assets" (fst out) = get "selected_assets" phase1_example /\
    exists d,
      Phase2Feedback.decisions (snd out) = [d] /\
      Phase2Feedback.action d = "keep_low_conf" /\
      Phase2Feedback.final_allocation d = current.
Proof.
  cbv zeta.
  destruct (allocation_to_refine fetch_nothing phase1_example)
    as [[current|]|e] eqn:Hread; [|vm_compute in Hread; discriminate Hread..].
  exists current. split; [reflexivity|].
  destruct (C3_adjust_applied_only_above_threshold low_confidence_adjust
              fetch_nothing true 0 phase1_example "XLK" (6 # 10) "benchmark"
              empty_store) as [_ [Hbelow _]].
  destruct (Hbelow current (55 # 100) eq_refl Hread)
    as [Hsame [d [Hd [Ha [_ [_ Hf]]]]]].
  - reflexivity.
  - reflexivity.
  - vm_compute. reflexivity.
  - split; [apply Hsame; discriminate|].
    exists d. repeat split; assumption.
Defined.

End TwoPhaseSpec.

(** ** More facts about the prelude *)

Module PyLaws.
Import Py PyFacts.

(** [round] depends on the value of its argument only. *)
Lemma round_compat (x y : Q) (n : nat) : (x == y)%Q -> round x n = round y n.
Proof.
  intro H. unfold round. cbv zeta.
  assert (Hy : (x * inject_Z (pow10 n) == y * inject_Z (pow10 n))%Q)
    by (rewrite H; reflexivity).
  rewrite (Qfloor_comp _ _ Hy).
  set (f := Qfloor (y * inject_Z (pow10 n))).
  assert (E1 : Qlt_bool (x * inject_Z (pow10 n) - inject_Z f) (1 # 2)
               = Qlt_bool (y * inject_Z (pow10 n) - inject_Z f) (1 # 2)).
  { destruct (Qlt_bool_spec (x * inject_Z (pow10 n) - inject_Z f) (1 # 2));
    destruct (Qlt_bool_spec (y * inject_Z (pow10 n) - inject_Z f) (1 # 2));
    try reflexivity; lra. }
  assert (E2 : Qlt_bool (1 # 2) (x * inject_Z (pow10 n) - inject_Z f)
               = Qlt_bool (1 # 2) (y * inject_Z (pow10 n) - inject_Z f)).
  { destruct (Qlt_bool_spec (1 # 2) (x * inject_Z (pow10 n) - inject_Z f));
    destruct (Qlt_bool_spec (1 # 2) (y * inject_Z (pow10 n) - inject_Z f));
    try reflexivity; lra. }
  rewrite E1, E2. reflexivity.
Qed.

Lemma Qlt_bool_compat (a b c d : Q) :
  (a == c)%Q -> (b == d)%Q -> Qlt_bool a b = Qlt_bool c d.
Proof.
  intros H1 H2.
  destruct (Qlt_bool_spec a b); destruct (Qlt_bool_spec c d);
    try reflexivity; lra.
Qed.

Lemma Qlt_bool_irrefl (a : Q) : Qlt_bool a a = false.
Proof. apply Qlt_bool_false_iff. lra. Qed.

Lemma pow10_Q_pos (n : nat) : (0 < inject_Z (pow10 n))%Q.
Proof.
  change 0%Q with (inject_Z 0). rewrite <- Zlt_Qlt. apply pow10_pos.
Qed.

(** Rounding keeps a value between two bounds that are themselves
    multiples of the rounding unit. *)
Lemma round_between (x : Q) (n : nat) (lo hi : Z) :
  (inject_Z lo / inject_Z (pow10 n) <= x)%Q ->
  (x <= inject_Z hi / inject_Z (pow10 n))%Q ->
  (inject_Z lo / inject_Z (pow10 n) <= round x n)%Q /\
  (round x n <= inject_Z hi / inject_Z (pow10 n))%Q.
Proof.
  intros Hlo Hhi.
  pose proof (pow10_Q_pos n) as Hs.
  destruct (round_spec x n) as [k [Hk [H1 H2]]].
  assert (Hlo' : (inject_Z lo <= x * inject_Z (pow10 n))%Q).
  { setoid_replace (inject_Z lo)
      with (inject_Z lo / inject_Z (pow10 n) * inject_Z (pow10 n))%Q
      by (field; lra).
    apply Qmult_le_compat_r; lra. }
  assert (Hhi' : (x * inject_Z (pow10 n) <= inject_Z hi)%Q).
  { setoid_replace (inject_Z hi)
      with (inject_Z hi / inject_Z (pow10 n) * inject_Z (pow10 n))%Q
      by (field; lra).
    apply Qmult_le_compat_r; lra. }
  rewrite Hk.
  assert (Hk1 : (lo <= k)%Z).
  { assert (H : (inject_Z lo - (1 # 2) <= inject_Z k)%Q) by lra.
    assert (H' : (inject_Z lo < inject_Z k + 1)%Q) by lra.
    change 1%Q with (inject_Z 1) in H'. rewrite <- inject_Z_plus in H'.
    rewrite <- Zlt_Qlt in H'. lia. }
  assert (Hk2 : (k <= hi)%Z).
  { assert (H' : (inject_Z k < inject_Z hi + 1)%Q) by lra.
    change 1%Q with (inject_Z 1) in H'. rewrite <- inject_Z_plus in H'.
    rewrite <- Zlt_Qlt in H'. lia. }
  rewrite Zle_Qle in Hk1, Hk2.
  split; apply Qle_shift_div_l; try exact Hs;
    unfold Qdiv; rewrite <- Qmult_assoc, (Qmult_comm (/ _)), Qmult_inv_r;
    lra.
Qed.

Lemma round3_unit (x : Q) :
  (- (1) <= x)%Q -> (x <= 1)%Q ->
  (- (1) <= round x 3)%Q /\ (round x 3 <= 1)%Q.
Proof.
  intros H1 H2.
  destruct (round_between x 3 (-1000) 1000) as [R1 R2].
  - setoid_replace (inject_Z (-1000) / inject_Z (pow10 3))%Q with (- (1))%Q
      by (vm_compute; reflexivity).
    exact H1.
  - setoid_replace (inject_Z 1000 / inject_Z (pow10 3))%Q with 1%Q
      by (vm_compute; reflexivity).
    exact H2.
  - split.
    + setoid_replace (- (1))%Q with (inject_Z (-1000) / inject_Z (pow10 3))%Q
        by (vm_compute; reflexivity).
      exact R1.
    + setoid_replace 1%Q with (inject_Z 1000 / inject_Z (pow10 3))%Q
        by (vm_compute; reflexivity).
      exact R2.
Qed.

(** The distance between a value and its rounding. *)
Lemma round_error (x : Q) (n : nat) :
  (x - (1 # 2) / inject_Z (pow10 n) <= round x n)%Q /\
  (round x n <= x + (1 # 2) / inject_Z (pow10 n))%Q.
Proof.
  pose proof (pow10_Q_pos n) as Hs.
  destruct (round_spec x n) as [k [Hk [H1 H2]]].
  rewrite Hk.
  split.
  - apply Qle_shift_div_l; [exact Hs|].
    setoid_replace ((x - (1 # 2) / inject_Z (pow10 n)) * inject_Z (pow10 n))%Q
      with (x * inject_Z (pow10 n) - (1 # 2))%Q by (field; lra).
    lra.
  - apply Qle_shift_div_r; [exact Hs|].
    setoid_replace ((x + (1 # 2) / inject_Z (pow10 n)) * inject_Z (pow10 n))%Q
      with (x * inject_Z (pow10 n) + (1 # 2))%Q by (field; lra).
    lra.
Qed.

Lemma In_values_set {V} (k : string) (v x : V) (d : dict V) :
  In x (values (set k v d)) -> x = v \/ In x (values d).
Proof.
  induction d as [|[k' v'] r IH]; simpl.
  - intros [<-|[]]. now left.
  - destruct (String.eqb k k'); simpl.
    + intros [<-|H]; auto.
    + intros [<-|H]; auto. destruct (IH H); auto.
Qed.

Lemma get_In_values {V} (k : string) (v : V) (d : dict V) :
  get k d = Some v -> In v (values d).
Proof.
  intro H. apply get_Some_In in H. unfold values.
  apply in_map_iff. exists (k, v). auto.
Qed.

Lemma sum_upper_bound (c : Q) (xs : list Q) :
  (forall x, In x xs -> (x <= c)%Q) -> (sum xs <= c * len xs)%Q.
Proof.
  induction xs as [|x r IH]; intro H.
  - rewrite sum_nil, len_nil. lra.
  - rewrite sum_cons, len_cons.
    assert (Hx : (x <= c)%Q) by (apply H; now left).
    assert (Hr : (sum r <= c * len r)%Q) by (apply IH; intros; apply H; now right).
    lra.
Qed.

(** The total of a list against one of its elements: the others lie
    within their bounds. *)
Lemma sum_around_member (a b x : Q) (xs : list Q) :
  In x xs ->
  (forall y, In y xs -> (a <= y)%Q /\ (y <= b)%Q) ->
  (x + a * (len xs - 1) <= sum xs)%Q /\ (sum xs <= x + b * (len xs - 1))%Q.
Proof.
  induction xs as [|y r IH]; intros Hin H; [contradiction|].
  rewrite sum_cons, len_cons.
  destruct Hin as [->|Hin].
  - pose proof (sum_lower_bound a r (fun z Hz => proj1 (H z (or_intror Hz)))).
    pose proof (sum_upper_bound b r (fun z Hz => proj2 (H z (or_intror Hz)))).
    split; lra.
  - destruct (IH Hin (fun z Hz => H z (or_intror Hz))) as [I1 I2].
    destruct (H y (or_introl eq_refl)). split; lra.
Qed.

(** The stable descending sort sorts. *)
Lemma insert_desc_sorted {A} (key : A -> Q) (x : A) (l : list A) :
  StronglySorted (fun a b => (key b <= key a)%Q) l ->
  StronglySorted (fun a b => (key b <= key a)%Q) (insert_desc key x l).
Proof.
  induction l as [|y r IH]; intro H; simpl.
  - constructor; constructor.
  - inversion H as [|? ? Hr Hy]; subst.
    destruct (Qlt_bool_spec (key x) (key y)) as [Hlt|Hge].
    + constructor; [now apply IH|].
      rewrite Forall_forall. intros z Hz.
      apply (Permutation_in z (Permutation_sym (insert_desc_perm key x r))) in Hz.
      destruct Hz as [<-|Hz]; [lra|].
      rewrite Forall_forall in Hy. now apply Hy.
    + constructor; [exact H|].
      constructor; [lra|].
      rewrite Forall_forall in Hy |- *. intros z Hz.
      specialize (Hy z Hz). simpl in Hy. lra.
Qed.

Lemma sorted_desc_sorted {A} (key : A -> Q) (l : list A) :
  StronglySorted (fun a b => (key b <= key a)%Q) (sorted_desc key l).
Proof.
  unfold sorted_desc. induction l as [|x r IH]; simpl.
  - constructor.
  - now apply insert_desc_sorted.
Qed.

Lemma sorted_app_le {A} (key : A -> Q) (l1 l2 : list A) :
  StronglySorted (fun a b => (key b <= key a)%Q) (l1 ++ l2) ->
  forall x y, In x l1 -> In y l2 -> (key y <= key x)%Q.
Proof.
  induction l1 as [|z r IH]; intros H x y Hx Hy; [contradiction|].
  simpl in H. inversion H as [|? ? Hr Hz]; subst.
  destruct Hx as [<-|Hx].
  - rewrite Forall_forall in Hz. apply Hz. apply in_or_app. now right.
  - now apply (IH Hr).
Qed.

End PyLaws.

(** ** The feedback loop: returns, logs and configuration *)

Module Phase2FeedbackLaws.
Import Py PyFacts PyLaws Phase2Feedback.

Section WithPrices.

Variable fetch_price_change : string -> Z -> Z -> option Q.

Local Abbreviation calculate_portfolio_return :=
  (calculate_portfolio_return fetch_price_change).
Local Abbreviation evaluation_of := (evaluation_of fetch_price_change).
Local Abbreviation evaluate_all := (evaluate_all fetch_price_change).
Local Abbreviation run_evaluations := (run_evaluations fetch_price_change).

(** The accumulation of [calculate_portfolio_return]. *)
Let step (s e : Z) (acc : Q * Q) (kv : string * Q) : Q * Q :=
  match fetch_price_change (fst kv) s e with
  | Some change => ((fst acc + change * snd kv)%Q, (snd acc + snd kv)%Q)
  | None => acc
  end.

Lemma return_fold_bounds (s e : Z) (lo hi : Q) (alloc : dict Q) (acc : Q * Q) :
  (forall t w, In (t, w) alloc -> (0 <= w)%Q) ->
  (forall t w c, In (t, w) alloc -> fetch_price_change t s e = Some c ->
                 (lo <= c)%Q /\ (c <= hi)%Q) ->
  (0 <= snd acc)%Q -> (lo * snd acc <= fst acc)%Q -> (fst acc <= hi * snd acc)%Q ->
  let r := fold_left (step s e) alloc acc in
  (0 <= snd r)%Q /\ (lo * snd r <= fst r)%Q /\ (fst r <= hi * snd r)%Q.
Proof.
  revert acc. induction alloc as [|[t w] rest IH]; intros acc Hw Hc H0 H1 H2.
  - simpl. auto.
  - simpl fold_left. apply IH.
    + intros t' w' Hin. apply (Hw t' w'). now right.
    + intros t' w' c Hin. apply (Hc t' w' c). now right.
    + unfold step. simpl.
      destruct (fetch_price_change t s e) as [c|] eqn:E; simpl; [|exact H0].
      pose proof (Hw t w (or_introl eq_refl)). lra.
    + unfold step. simpl.
      destruct (fetch_price_change t s e) as [c|] eqn:E; simpl; [|exact H1].
      pose proof (Hw t w (or_introl eq_refl)).
      destruct (Hc t w c (or_introl eq_refl) E). nra.
    + unfold step. simpl.
      destruct (fetch_price_change t s e) as [c|] eqn:E; simpl; [|exact H2].
      pose proof (Hw t w (or_introl eq_refl)).
      destruct (Hc t w c (or_introl eq_refl) E). nra.
Qed.

Lemma calculate_portfolio_return_fold (alloc : dict Q) (s e : Z) :
  calculate_portfolio_return alloc s e
  = let r := fold_left (step s e) alloc (0%Q, 0%Q) in
    if Qlt_bool 0 (snd r) then Some (fst r / snd r * 100)%Q else None.
Proof.
  unfold Phase2Feedback.calculate_portfolio_return. fold (step s e).
  destruct (fold_left (step s e) alloc (0%Q, 0%Q)); reflexivity.
Qed.

(** X1. The return of a portfolio with non-negative weights is a weighted
    average: it lies between the smallest and the largest price change of
    its tickers that have a price history (as a percentage). *)
Theorem portfolio_return_is_weighted_average
  (alloc : dict Q) (s e : Z) (lo hi r : Q) :
  (forall t w, In (t, w) alloc -> (0 <= w)%Q) ->
  (forall t w c, In (t, w) alloc -> fetch_price_change t s e = Some c ->
                 (lo <= c)%Q /\ (c <= hi)%Q) ->
  calculate_portfolio_return alloc s e = Some r ->
  (lo * 100 <= r)%Q /\ (r <= hi * 100)%Q.
Proof.
  intros Hw Hc. rewrite calculate_portfolio_return_fold. cbv zeta.
  destruct (return_fold_bounds s e lo hi alloc (0%Q, 0%Q) Hw Hc)
    as [H0 [H1 H2]]; simpl; try lra.
  cbv zeta in H0, H1, H2.
  set (p := fold_left (step s e) alloc (0%Q, 0%Q)) in *.
  destruct (Qlt_bool_spec 0 (snd p)) as [Hpos|]; [|discriminate].
  intro E. injection E as <-.
  assert (Ha : (lo <= fst p / snd p)%Q) by (apply Qle_shift_div_l; lra).
  assert (Hb : (fst p / snd p <= hi)%Q) by (apply Qle_shift_div_r; lra).
  split; lra.
Qed.

Lemma return_fold_scaled (s e : Z) (t : Q) (alloc : dict Q) (acc acc' : Q * Q) :
  ~ (t == 0)%Q ->
  (fst acc' == fst acc / t)%Q -> (snd acc' == snd acc / t)%Q ->
  let r := fold_left (step s e) alloc acc in
  let r' := fold_left (step s e) (map_values (fun v => (v / t)%Q) alloc) acc' in
  (fst r' == fst r / t)%Q /\ (snd r' == snd r / t)%Q.
Proof.
  intro Ht. revert acc acc'.
  induction alloc as [|[k w] rest IH]; intros acc acc' H1 H2.
  - simpl. auto.
  - simpl. apply IH; unfold step; simpl;
      destruct (fetch_price_change k s e) as [c|]; simpl; try assumption.
    + rewrite H1. field. exact Ht.
    + rewrite H2. field. exact Ht.
Qed.

(** X2. The normalisation that [evaluate_decision] applies to an
    allocation does not change its return: a return is available for the
    normalised allocation exactly when it is for the allocation itself,
    and the two are equal. *)
Theorem normalize_keeps_portfolio_return (alloc : dict Q) (s e : Z) :
  match calculate_portfolio_return (normalize alloc) s e,
        calculate_portfolio_return alloc s e with
  | Some x, Some y => (x == y)%Q
  | None, None => True
  | _, _ => False
  end.
Proof.
  unfold normalize. cbv zeta.
  destruct (Qlt_bool_spec 0 (sum (values alloc))) as [Hpos|Hneg].
  - set (t := sum (values alloc)) in *.
    assert (Ht : ~ (t == 0)%Q) by lra.
    rewrite !calculate_portfolio_return_fold. cbv zeta.
    destruct (return_fold_scaled s e t alloc (0%Q, 0%Q) (0%Q, 0%Q) Ht)
      as [H1 H2]; simpl; try (field; exact Ht).
    cbv zeta in H1, H2.
    set (p := fold_left (step s e) alloc (0%Q, 0%Q)) in *.
    set (p' := fold_left (step s e) (map_values (fun v => (v / t)%Q) alloc)
                 (0%Q, 0%Q)) in *.
    assert (Hq : (0 < snd p' <-> 0 < snd p)%Q).
    { rewrite H2. split; intro H.
      - apply Qnot_le_lt. intro Hle.
        assert ((snd p / t <= 0)%Q).
        { apply Qle_shift_div_r; lra. }
        lra.
      - apply Qlt_shift_div_l; lra. }
    destruct (Qlt_bool_spec 0 (snd p')) as [Ha|Ha];
      destruct (Qlt_bool_spec 0 (snd p)) as [Hb|Hb].
    + rewrite H1, H2. field. split; lra.
    + apply Hq in Ha. lra.
    + apply Hq in Hb. lra.
    + exact I.
  - destruct (calculate_portfolio_return alloc s e); [reflexivity|exact I].
Qed.

(** X3. A decision that leaves the allocation as it was never counts as
    a win: its evaluation, when there is one, has delta 0, equal returns
    and [outperformed] false. *)
Theorem unchanged_allocation_never_outperforms
  (now : Z) (d : decision) (days : Z) (ev : evaluation) :
  final_allocation d = original_allocation d ->
  evaluation_of now d days = Some ev ->
  (delta ev == 0)%Q /\ outperformed ev = false /\
  final_return ev = original_return ev.
Proof.
  intros Hsame. unfold Phase2Feedback.evaluation_of. cbv zeta. rewrite Hsame.
  destruct (calculate_portfolio_return (normalize (original_allocation d))
              (date d) (date d + days)) as [o|]; [|discriminate].
  intro E. injection E as <-. simpl.
  split; [|split; [apply Qlt_bool_irrefl|reflexivity]].
  rewrite (round_compat (o - o) 0 3) by lra. reflexivity.
Qed.

Lemma evaluate_all_store (now days : Z) (pending : list decision)
  (results : list evaluation) (st : store) :
  let st' := snd (evaluate_all now days pending results st) in
  decisions_file st' = decisions_file st /\
  feedback_config_file st' = feedback_config_file st /\
  exists l, evaluations st' = evaluations st ++ l.
Proof.
  revert results st. induction pending as [|d rest IH]; intros results st.
  - simpl. repeat split. exists []. now rewrite app_nil_r.
  - simpl. destruct (as_number (confidence d)).
    + unfold Phase2Feedback.evaluate_decision.
      destruct (evaluation_of now d days) as [ev|].
      * destruct (IH (results ++ [ev])
                    {| decisions_file := decisions_file st;
                       evaluations_file := append_line (evaluations_file st) ev;
                       feedback_config_file := feedback_config_file st |})
          as [H1 [H2 [l H3]]].
        cbv zeta in H1, H2, H3. simpl in H1, H2.
        split; [exact H1|]. split; [exact H2|].
        exists (ev :: l). rewrite H3.
        unfold evaluations, lines, append_line. simpl.
        now rewrite <- app_assoc.
      * apply IH.
    + simpl. repeat split. exists []. now rewrite app_nil_r.
Qed.

(** X4. Whatever happens in a run of [run_evaluations], also when it ends
    with an exception: the configuration file is left as it was, the
    decision log keeps its lines in order (only [evaluated] flags change),
    and the evaluation log only grows at its end. *)
Theorem run_evaluations_preserves_logs (now : Z) (st : store) :
  let st' := snd (run_evaluations now st) in
  feedback_config_file st' = feedback_config_file st /\
  map timestamp (decisions st') = map timestamp (decisions st) /\
  (forall d', In d' (decisions st') ->
     exists d, In d (decisions st) /\ (d' = d \/ d' = set_evaluated d)) /\
  exists l, evaluations st' = evaluations st ++ l.
Proof.
  unfold Phase2Feedback.run_evaluations. cbv zeta.
  set (days := evaluation_days (load_config st)).
  set (pending := get_pending_evaluations now days st).
  assert (Hid : forall s : store,
            feedback_config_file s = feedback_config_file s /\
            map timestamp (decisions s) = map timestamp (decisions s) /\
            (forall d', In d' (decisions s) ->
               exists d, In d (decisions s) /\ (d' = d \/ d' = set_evaluated d)) /\
            exists l, evaluations s = evaluations s ++ l).
  { intro s. repeat split. - intros d' H. exists d'. auto.
    - exists []. now rewrite app_nil_r. }
  destruct pending as [|p ps] eqn:Ep; [apply Hid|]. rewrite <- Ep. clear Ep.
  destruct (evaluate_all_store now days pending [] st) as [H1 [H2 [l H3]]].
  cbv zeta in H1, H2, H3.
  destruct (evaluate_all now days pending [] st) as [[results|err] st1];
    simpl in H1, H2, H3 |- *.
  - unfold mark_decisions_evaluated, decisions, lines.
    rewrite H1. destruct (decisions_file st) as [ds|] eqn:Ed; simpl.
    + split; [exact H2|]. split.
      { rewrite map_map. apply map_ext. intro d.
        unfold mark_one. destruct (existsb _ _); reflexivity. }
      split.
      { intros d' Hin. apply in_map_iff in Hin. destruct Hin as [d [<- Hd]].
        exists d. split; [exact Hd|]. unfold mark_one.
        destruct (existsb _ _); auto. }
      exists l. exact H3.
    + rewrite H1. simpl. split; [exact H2|]. split; [reflexivity|].
      split; [intros d' []|]. exists l. exact H3.
  - unfold decisions. rewrite H1. split; [exact H2|]. split; [reflexivity|].
    split; [|exists l; exact H3].
    intros d' H. exists d'. auto.
Qed.

End WithPrices.

Lemma portfolio_return_witness :
  exists r,
    calculate_portfolio_return constant_prices
      [("AAPL", 60%Q); ("MSFT", 40%Q)] 0 3 = Some r /\
    ((1 # 100) * 100 <= r)%Q /\ (r <= (1 # 100) * 100)%Q.
Proof.
  eexists. split; [reflexivity|].
  apply (portfolio_return_is_weighted_average constant_prices
           [("AAPL", 60%Q); ("MSFT", 40%Q)] 0 3 (1 # 100) (1 # 100)).
  - intros t w [H|[H|[]]]; inversion H; subst; vm_compute; discriminate.
  - intros t w c _ H. unfold constant_prices in H. injection H as <-.
    split; vm_compute; discriminate.
  - reflexivity.
Defined.

Lemma unchanged_allocation_witness :
  let d := {| timestamp := 0; date := 0; sector := "XLK"; sentiment := 6 # 10;
              action := "keep"; confidence := JNum (3 # 10);
              original_allocation := [("AAPL", 60%Q); ("MSFT", 40%Q)];
              final_allocation := [("AAPL", 60%Q); ("MSFT", 40%Q)];
              reasoning := "fine as it is"; evaluated := Some false |} in
  final_allocation d = original_allocation d /\
  exists ev,
    evaluation_of constant_prices ten_days_later d 3 = Some ev /\
    (delta ev == 0)%Q /\ outperformed ev = false.
Proof.
  cbv zeta. split; [reflexivity|].
  eexists. split; [reflexivity|].
  destruct (unchanged_allocation_never_outperforms constant_prices ten_days_later
              {| timestamp := 0; date := 0; sector := "XLK"; sentiment := 6 # 10;
                 action := "keep"; confidence := JNum (3 # 10);
                 original_allocation := [("AAPL", 60%Q); ("MSFT", 40%Q)];
                 final_allocation := [("AAPL", 60%Q); ("MSFT", 40%Q)];
                 reasoning := "fine as it is"; evaluated := Some false |}
              3 _ eq_refl eq_refl) as [H1 [H2 _]].
  split; [exact H1|exact H2].
Defined.

Lemma mark_one_twice (ts1 ts2 : list Z) (d : decision) :
  mark_one ts2 (mark_one ts1 d) = mark_one (ts1 ++ ts2) d.
Proof.
  unfold mark_one. rewrite existsb_app.
  destruct (existsb (Z.eqb (timestamp d)) ts1) eqn:E1; simpl.
  - destruct (existsb (Z.eqb (timestamp d)) ts2); reflexivity.
  - reflexivity.
Qed.

Lemma mark_one_idem (ts : list Z) (d : decision) :
  mark_one ts (mark_one ts d) = mark_one ts d.
Proof.
  unfold mark_one.
  destruct (existsb (Z.eqb (timestamp d)) ts) eqn:E; simpl; rewrite E; reflexivity.
Qed.

(** X5. Marking decisions as evaluated composes and is idempotent:
    marking two sets of timestamps one after the other is marking their
    union, marking the same set again changes nothing, and a decision that
    is evaluated stays evaluated. *)
Theorem mark_decisions_evaluated_composes (ts1 ts2 : list Z) (st : store) :
  mark_decisions_evaluated ts2 (mark_decisions_evaluated ts1 st)
  = mark_decisions_evaluated (ts1 ++ ts2) st /\
  mark_decisions_evaluated ts1 (mark_decisions_evaluated ts1 st)
  = mark_decisions_evaluated ts1 st /\
  (forall d, is_evaluated d = true -> is_evaluated (mark_one ts1 d) = true).
Proof.
  unfold mark_decisions_evaluated.
  destruct (decisions_file st) as [ds|] eqn:E; simpl.
  - repeat split.
    + rewrite map_map. f_equal. f_equal. apply map_ext. apply mark_one_twice.
    + rewrite map_map. f_equal. f_equal. apply map_ext. apply mark_one_idem.
    + intros d H. unfold mark_one. destruct (existsb _ _); [reflexivity|exact H].
  - rewrite E. repeat split.
    intros d H. unfold mark_one. destruct (existsb _ _); [reflexivity|exact H].
Qed.

(** X6. A decision that is logged at instant [now] is appended to the
    decision log, the other files being left alone, and it is pending for
    evaluation at [now'] exactly when more than [min_days] days have passed
    since it was logged. *)
Theorem logged_decision_pending_after_window
  (now now' min_days : Z) (sector : string) (sentiment : Q) (action : string)
  (confidence : json) (original final : dict Q) (reasoning : string)
  (st : store) :
  let d := fst (log_decision now sector sentiment action confidence
                  original final reasoning st) in
  let st' := snd (log_decision now sector sentiment action confidence
                    original final reasoning st) in
  decisions st' = decisions st ++ [d] /\
  evaluations_file st' = evaluations_file st /\
  feedback_config_file st' = feedback_config_file st /\
  get_pending_evaluations now' min_days st'
  = get_pending_evaluations now' min_days st
    ++ (if (now + min_days * day_us <? now')%Z then [d] else []).
Proof.
  cbv zeta. unfold log_decision. simpl.
  repeat split.
  unfold get_pending_evaluations, append_line. simpl.
  rewrite filter_app. simpl.
  assert (E : (now <? now' - min_days * day_us)%Z
              = (now + min_days * day_us <? now')%Z).
  { destruct (Z.ltb_spec now (now' - min_days * day_us));
    destruct (Z.ltb_spec (now + min_days * day_us) now'); try reflexivity; lia. }
  rewrite E.
  destruct (decisions_file st); simpl; reflexivity.
Qed.

Lemma tally_outperformed_le (es : list evaluation) :
  (Z.of_nat (List.length (filter outperformed es)) <= Z.of_nat (List.length es))%Z.
Proof.
  apply inj_le. induction es as [|e r IH]; simpl; [lia|].
  destruct (outperformed e); simpl; lia.
Qed.

Lemma collect_stats_counts (es : list evaluation) (a k a' k' : action_stats) :
  collect_stats es a k = Ok (a', k') ->
  (count a' + count k' = count a + count k + Z.of_nat (List.length es))%Z /\
  (count a <= count a')%Z /\ (count k <= count k')%Z /\
  (n_outperformed a' - n_outperformed a <= count a' - count a)%Z /\
  (n_outperformed k' - n_outperformed k <= count k' - count k)%Z /\
  (n_outperformed a <= n_outperformed a')%Z /\
  (n_outperformed k <= n_outperformed k')%Z /\
  List.length (deltas a') = (List.length (deltas a)
    + Z.to_nat (count a' - count a))%nat /\
  List.length (deltas k') = (List.length (deltas k)
    + Z.to_nat (count k' - count k))%nat.
Proof.
  revert a k. induction es as [|e r IH]; intros a k H.
  - simpl in H. injection H as <- <-. simpl.
    rewrite !Z.sub_diag. simpl. repeat split; lia.
  - simpl in H.
    destruct (String.eqb (e_action e) "adjust").
    + destruct (confidence_bucket (e_confidence e)); [|discriminate].
      simpl in H. apply IH in H. clear IH. simpl in H.
      rewrite length_app in H. simpl List.length in *.
      destruct (outperformed e);
        destruct H as (H1 & H2 & H3 & H4 & H5 & H6 & H7 & H8 & H9);
        repeat split; try lia.
    + destruct (String.eqb (e_action e) "keep"); [|discriminate].
      destruct (confidence_bucket (e_confidence e)); [|discriminate].
      simpl in H. apply IH in H. clear IH. simpl in H.
      rewrite length_app in H. simpl List.length in *.
      destruct (outperformed e);
        destruct H as (H1 & H2 & H3 & H4 & H5 & H6 & H7 & H8 & H9);
        repeat split; try lia.
Qed.

Lemma win_rate_unit (s : action_stats) :
  (0 <= n_outperformed s)%Z -> (n_outperformed s <= count s)%Z ->
  (0 <= win_rate s)%Q /\ (win_rate s <= 1)%Q.
Proof.
  intros H0 H1. unfold win_rate. destruct (deltas s); [split; lra|].
  destruct (Z.eq_dec (count s) 0) as [E|E].
  - rewrite E. assert (n_outperformed s = 0%Z) by lia. rewrite H.
    split; vm_compute; discriminate.
  - assert (Hc : (0 < inject_Z (count s))%Q).
    { change 0%Q with (inject_Z 0). rewrite <- Zlt_Qlt. lia. }
    rewrite Zle_Qle in H0, H1. change (inject_Z 0) with 0%Q in H0.
    split.
    + apply Qle_shift_div_l; lra.
    + apply Qle_shift_div_r; lra.
Qed.

(** X7. When [get_performance_stats] returns statistics, every line of
    the evaluation log is counted once, under adjust or under keep; each
    kind has as many deltas as evaluations, at most as many wins as
    evaluations, and a win rate between 0 and 1. *)
Theorem performance_stats_partition (st : store) (adjust keep : action_stats) :
  get_performance_stats st = Ok (Some (adjust, keep)) ->
  (count adjust + count keep = Z.of_nat (List.length (evaluations st)))%Z /\
  (0 <= n_outperformed adjust <= count adjust)%Z /\
  (0 <= n_outperformed keep <= count keep)%Z /\
  Z.of_nat (List.length (deltas adjust)) = count adjust /\
  Z.of_nat (List.length (deltas keep)) = count keep /\
  (0 <= win_rate adjust)%Q /\ (win_rate adjust <= 1)%Q /\
  (0 <= win_rate keep)%Q /\ (win_rate keep <= 1)%Q.
Proof.
  unfold get_performance_stats, evaluations, lines.
  destruct (evaluations_file st) as [es|]; [|discriminate].
  destruct (collect_stats es empty_stats empty_stats) as [[a k]|] eqn:E;
    [|discriminate].
  simpl. intro H. injection H as <- <-.
  apply collect_stats_counts in E. simpl in E.
  destruct E as (H1 & H2 & H3 & H4 & H5 & H6 & H7 & H8 & H9).
  assert (Ha : (0 <= n_outperformed a <= count a)%Z) by lia.
  assert (Hk : (0 <= n_outperformed k <= count k)%Z) by lia.
  destruct (win_rate_unit a) as [Wa1 Wa2]; try lia.
  destruct (win_rate_unit k) as [Wk1 Wk2]; try lia.
  repeat split; try lia; try assumption.
Qed.

Lemma performance_stats_witness :
  exists adjust keep,
    get_performance_stats five_wins_store = Ok (Some (adjust, keep)) /\
    (count adjust + count keep
     = Z.of_nat (List.length (evaluations five_wins_store)))%Z /\
    (win_rate adjust <= 1)%Q.
Proof.
  assert (H : get_performance_stats five_wins_store
              = Ok (Some (tally (map winning_evaluation [1; 2; 3; 4; 5]%Z)
                            empty_stats, empty_stats)))
    by reflexivity.
  eexists. eexists. split; [exact H|].
  destruct (performance_stats_partition five_wins_store _ _ H)
    as (H1 & _ & _ & _ & _ & _ & H7 & _).
  split; [exact H1|exact H7].
Defined.

(** X8. [learn_from_evaluations] returns the configuration that
    [load_config] reads afterwards, and it never touches the decision log
    or the evaluation log. *)
Theorem learn_returns_saved_config (now : Z) (st st' : store) (c' : config) :
  learn_from_evaluations now st = Ok (c', st') ->
  load_config st' = c' /\
  decisions_file st' = decisions_file st /\
  evaluations_file st' = evaluations_file st.
Proof.
  unfold learn_from_evaluations. cbv zeta.
  destruct (get_performance_stats st) as [[[a k]|]|]; simpl; try discriminate.
  - destruct (count a <? min_evaluations_for_learning (load_config st))%Z.
    + intro H. injection H as <- <-. auto.
    + intro H. injection H as <- <-. auto.
  - intro H. injection H as <- <-. auto.
Qed.

Lemma learn_returns_saved_config_witness :
  exists c' st',
    learn_from_evaluations ten_days_later five_wins_store = Ok (c', st') /\
    load_config st' = c' /\
    evaluations_file st' = evaluations_file five_wins_store.
Proof.
  destruct (learn_from_evaluations ten_days_later five_wins_store)
    as [[c' st']|e] eqn:E; [|vm_compute in E; discriminate E].
  exists c', st'. split; [reflexivity|].
  destruct (learn_returns_saved_config ten_days_later five_wins_store st' c' E)
    as [H1 [_ H3]].
  split; [exact H1|exact H3].
Defined.

End Phase2FeedbackLaws.

(** ** The harvest: bounds and coverage *)

Module HarvesterLaws.
Import Py PyFacts PyLaws Harvester HarvesterSpec.

Lemma len_pos {A} (x : A) (xs : list A) : (0 < len (x :: xs))%Q.
Proof.
  unfold len. change 0%Q with (inject_Z 0). rewrite <- Zlt_Qlt.
  simpl List.length. lia.
Qed.

(** The mean of a non-empty list lies between any bounds of its elements. *)
Lemma mean_bounds (lo hi : Q) (xs : list Q) :
  xs <> [] ->
  (forall x, In x xs -> (lo <= x)%Q /\ (x <= hi)%Q) ->
  (lo <= mean xs)%Q /\ (mean xs <= hi)%Q.
Proof.
  intros Hne H. destruct xs as [|x r]; [congruence|].
  pose proof (len_pos x r) as Hl.
  pose proof (sum_lower_bound lo (x :: r) (fun y Hy => proj1 (H y Hy))).
  pose proof (sum_upper_bound hi (x :: r) (fun y Hy => proj2 (H y Hy))).
  unfold mean. split.
  - apply Qle_shift_div_l; lra.
  - apply Qle_shift_div_r; lra.
Qed.

Lemma simple_sentiment_bounds (text : string) :
  (- (1) <= simple_sentiment text)%Q /\ (simple_sentiment text <= 1)%Q.
Proof.
  unfold simple_sentiment. cbv zeta.
  set (s := count_words _ negative _ _).
  destruct (max_spec (min s 1) (- (1))) as [[H ->]|[H ->]];
    destruct (min_spec s 1) as [[H' E]|[H' E]]; rewrite ?E in *; split; lra.
Qed.

(** The entry of a sector in the harvest, field by field. *)
Lemma harvest_entry (headlines : list headline) (sectors : dict sector_info)
  (c : string) :
  NoDup (keys sectors) ->
  let ms := members headlines sectors c in
  let scores := map (fun hl => simple_sentiment (title hl)) ms in
  match get c (harvest_sentiment headlines sectors) with
  | None => ms = []
  | Some r =>
      ms <> [] /\ score r = round (mean scores) 3 /\
      count r = List.length ms /\ signal r = signal_of (mean scores)
  end.
Proof.
  intro Hnd. cbv zeta. rewrite get_harvest_sentiment by assumption.
  destruct (members headlines sectors c) as [|m r] eqn:Em; [reflexivity|].
  rewrite <- Em.
  set (ms := members headlines sectors c) in *.
  assert (Hsc : b_scores
                  (extend simple_sentiment
                     (map (fun hl => with_sectors hl (classify_sectors hl sectors)) ms)
                     empty_bucket)
                = map (fun hl => simple_sentiment (title hl)) ms).
  { unfold extend. simpl. rewrite map_map. reflexivity. }
  unfold summarize. cbn [score count signal]. rewrite Hsc.
  fold (mean (map (fun hl => simple_sentiment (title hl)) ms)).
  split; [rewrite Em; discriminate|].
  split; [reflexivity|]. split; [now rewrite length_map|reflexivity].
Qed.

Lemma members_length (headlines : list headline) (sectors : dict sector_info)
  (c : string) :
  (List.length (members headlines sectors c) <= List.length headlines)%nat.
Proof. unfold members. apply filter_length_le. Qed.

(** X9. Every entry of the harvest belongs to a configured sector or to
    [general], its score lies between -1 and 1, and it counts at least one
    headline and at most all of them. *)
Theorem harvest_entries_are_bounded
  (headlines : list headline) (sectors : dict sector_info)
  (c : string) (r : sector_result) :
  NoDup (keys sectors) ->
  get c (harvest_sentiment headlines sectors) = Some r ->
  (In c (keys sectors) \/ c = "general") /\
  (- (1) <= score r)%Q /\ (score r <= 1)%Q /\
  (1 <= count r)%nat /\ (count r <= List.length headlines)%nat.
Proof.
  intros Hnd Hget.
  pose proof (harvest_entry headlines sectors c Hnd) as H. cbv zeta in H.
  rewrite Hget in H. destruct H as [Hne [Hs [Hc _]]].
  split.
  - destruct (members headlines sectors c) as [|m ms] eqn:Em; [congruence|].
    assert (Hin : In m (members headlines sectors c)) by (rewrite Em; now left).
    unfold members in Hin. apply filter_In in Hin. destruct Hin as [_ Hm].
    apply mem_In in Hm. apply classify_sectors_In in Hm.
    destruct Hm as [[info [Hi _]]|[-> _]]; [left|now right].
    unfold keys. apply in_map_iff. exists (c, info). auto.
  - assert (Hm : (- (1) <= mean (map (fun hl => simple_sentiment (title hl))
                               (members headlines sectors c)))%Q /\
                 (mean (map (fun hl => simple_sentiment (title hl))
                         (members headlines sectors c)) <= 1)%Q).
    { apply mean_bounds.
      - intro E. apply map_eq_nil in E. contradiction.
      - intros x Hx. apply in_map_iff in Hx. destruct Hx as [hl [<- _]].
        apply simple_sentiment_bounds. }
    destruct (round3_unit _ (proj1 Hm) (proj2 Hm)) as [R1 R2].
    rewrite Hs. split; [exact R1|]. split; [exact R2|]. split.
    + rewrite Hc. destruct (members headlines sectors c); [congruence|simpl; lia].
    + rewrite Hc. apply members_length.
Qed.

Lemma harvest_entries_witness :
  NoDup (keys two_sectors) /\
  exists r,
    get "XLK" (harvest_sentiment three_headlines two_sectors) = Some r /\
    (- (1) <= score r)%Q /\ (score r <= 1)%Q /\ (count r <= 3)%nat.
Proof.
  assert (Hnd : NoDup (keys two_sectors)).
  { repeat constructor; simpl; intuition discriminate. }
  split; [exact Hnd|].
  destruct (get "XLK" (harvest_sentiment three_headlines two_sectors))
    as [r|] eqn:E; [|vm_compute in E; discriminate E].
  exists r. split; [reflexivity|].
  destruct (harvest_entries_are_bounded three_headlines two_sectors "XLK" r Hnd E)
    as (_ & H1 & H2 & _ & H4).
  split; [exact H1|]. split; [exact H2|exact H4].
Defined.

Lemma classify_sectors_nonempty (hl : headline) (sectors : dict sector_info) :
  classify_sectors hl sectors <> [].
Proof.
  unfold classify_sectors. destruct (keys (filter _ sectors)); discriminate.
Qed.

(** X10. No headline is lost: a headline is tagged with at least one
    sector, without repeats, and every sector it is tagged with has an
    entry in the harvest that counts it. *)
Theorem harvest_counts_every_headline
  (headlines : list headline) (sectors : dict sector_info) (hl : headline) :
  NoDup (keys sectors) ->
  In hl headlines ->
  classify_sectors hl sectors <> [] /\
  NoDup (classify_sectors hl sectors) /\
  forall c, In c (classify_sectors hl sectors) ->
    exists r, get c (harvest_sentiment headlines sectors) = Some r /\
              In hl (members headlines sectors c) /\
              count r = List.length (members headlines sectors c).
Proof.
  intros Hnd Hin.
  split; [apply classify_sectors_nonempty|].
  split; [now apply classify_sectors_NoDup|].
  intros c Hc.
  assert (Hm : In hl (members headlines sectors c)).
  { unfold members. apply filter_In. split; [exact Hin|]. now apply mem_In. }
  pose proof (harvest_entry headlines sectors c Hnd) as H. cbv zeta in H.
  destruct (get c (harvest_sentiment headlines sectors)) as [r|].
  - exists r. destruct H as [_ [_ [Hcount _]]]. auto.
  - rewrite H in Hm. contradiction.
Qed.

Lemma harvest_counts_witness :
  let hl := fresh "Chip stocks surge on record high demand" in
  NoDup (keys two_sectors) /\ In hl three_headlines /\
  classify_sectors hl two_sectors <> [] /\
  NoDup (classify_sectors hl two_sectors).
Proof.
  cbv zeta.
  assert (Hnd : NoDup (keys two_sectors)).
  { repeat constructor; simpl; intuition discriminate. }
  assert (Hin : In (fresh "Chip stocks surge on record high demand")
                  three_headlines) by (left; reflexivity).
  split; [exact Hnd|]. split; [exact Hin|].
  destruct (harvest_counts_every_headline three_headlines two_sectors
              (fresh "Chip stocks surge on record high demand") Hnd Hin)
    as [H1 [H2 _]].
  split; [exact H1|exact H2].
Defined.

(** The lookup table of the analysis results. *)
Lemma title_to_result_fold (results : list LlmSentiment.llm_result)
  (acc : dict LlmSentiment.llm_result) (k : string) :
  get k
    (fold_left
       (fun acc r =>
          set (LlmSentiment.title_key
                 (match LlmSentiment.r_title r with
                  | Some t => t
                  | None => EmptyString
                  end)) r acc)
       results acc)
  = match find (fun r => String.eqb
                    (LlmSentiment.title_key
                       (match LlmSentiment.r_title r with
                        | Some t => t
                        | None => EmptyString
                        end)) k) (List.rev results) with
    | Some r => Some r
    | None => get k acc
    end.
Proof.
  induction results as [|r rs IH] using rev_ind.
  - reflexivity.
  - rewrite fold_left_app, List.rev_app_distr. simpl.
    destruct (String.eqb _ k) eqn:E.
    + apply String.eqb_eq in E. subst k. apply get_set_same.
    + apply String.eqb_neq in E. rewrite get_set_other by congruence.
      exact IH.
Qed.

(** X11. Analysis results are matched to headlines by the first 50
    characters of the title: a headline takes the last result whose title
    agrees with its own on those characters (missing fields keep the
    headline's own values), and a headline without such a result is left
    as it is. *)
Theorem llm_result_matched_by_title_prefix
  (results : list LlmSentiment.llm_result) (h : headline) :
  let key r := LlmSentiment.title_key
                 (match LlmSentiment.r_title r with
                  | Some t => t
                  | None => EmptyString
                  end) in
  let h' := LlmSentiment.update_headline (LlmSentiment.title_to_result results) h in
  match find (fun r => String.eqb (key r) (LlmSentiment.title_key (title h)))
          (List.rev results) with
  | Some r =>
      title h' = title h /\ source h' = source h /\
      sentiment h' = Some (match LlmSentiment.r_sentiment r with
                           | Some q => q
                           | None => sentiment_or_zero h
                           end) /\
      hl_sectors h' = Some (match LlmSentiment.r_sectors r with
                            | Some l => l
                            | None => tags h
                            end)
  | None => h' = h
  end.
Proof.
  cbv zeta. unfold LlmSentiment.update_headline, LlmSentiment.title_to_result.
  rewrite title_to_result_fold. simpl get.
  destruct (find _ (List.rev results)) as [r|]; [|reflexivity].
  simpl. auto.
Qed.

(** X12. The sector sentiment recomputed after an analysis has an entry
    for exactly the tags that some headline carries; its count is the
    number of times the tag occurs, and its score is within -1 and 1 when
    the headlines' scores are. *)
Theorem recalculated_entries_follow_tags (hs : list headline) (c : string) :
  (forall h, In h hs ->
     (- (1) <= sentiment_or_zero h)%Q /\ (sentiment_or_zero h <= 1)%Q) ->
  match get c (LlmSentiment.recalculate hs) with
  | Some r =>
      (exists h, In h hs /\ In c (tags h)) /\
      LlmSentiment.count r
      = List.length (flat_map (fun h => filter (String.eqb c) (tags h)) hs) /\
      (- (1) <= LlmSentiment.score r)%Q /\ (LlmSentiment.score r <= 1)%Q
  | None => forall h, In h hs -> ~ In c (tags h)
  end.
Proof.
  intro Hb. rewrite recalculate_entry.
  assert (Hlen : forall l : list headline,
            List.length (LlmSentiment.scores_for c l)
            = List.length (flat_map (fun h => filter (String.eqb c) (tags h)) l)).
  { induction l as [|h r IH]; [reflexivity|].
    unfold LlmSentiment.scores_for in *. simpl.
    rewrite !length_app, length_map, IH. reflexivity. }
  assert (Hin : forall x, In x (LlmSentiment.scores_for c hs) ->
            exists h, In h hs /\ In c (tags h) /\ x = sentiment_or_zero h).
  { intros x Hx. unfold LlmSentiment.scores_for in Hx.
    apply in_flat_map in Hx. destruct Hx as [h [Hh Hx]].
    apply in_map_iff in Hx. destruct Hx as [t [<- Ht]].
    apply filter_In in Ht. destruct Ht as [Ht E].
    apply String.eqb_eq in E. subst t. exists h. auto. }
  destruct (LlmSentiment.scores_for c hs) as [|x l] eqn:Es.
  - intros h Hh Hc.
    assert (In (sentiment_or_zero h) (LlmSentiment.scores_for c hs)).
    { unfold LlmSentiment.scores_for. apply in_flat_map. exists h.
      split; [exact Hh|]. apply in_map_iff. exists c. split; [reflexivity|].
      apply filter_In. split; [exact Hc|apply String.eqb_refl]. }
    rewrite Es in H. contradiction.
  - cbn [LlmSentiment.count LlmSentiment.score].
    split.
    { destruct (Hin x (or_introl eq_refl)) as [h [Hh [Hc _]]]. exists h. auto. }
    split; [rewrite <- Es; apply Hlen|].
    assert (Hm : (- (1) <= mean (x :: l))%Q /\ (mean (x :: l) <= 1)%Q).
    { apply mean_bounds; [discriminate|].
      intros y Hy. destruct (Hin y Hy) as [h [Hh [_ ->]]]. now apply Hb. }
    exact (round3_unit _ (proj1 Hm) (proj2 Hm)).
Qed.

Lemma recalculated_entries_witness :
  let hs := [{| title := "Chip stocks surge"; source := "wire";
                hl_sectors := Some ["XLK"]; sentiment := Some (1 # 2) |}] in
  (forall h, In h hs ->
     (- (1) <= sentiment_or_zero h)%Q /\ (sentiment_or_zero h <= 1)%Q) /\
  exists r,
    get "XLK" (LlmSentiment.recalculate hs) = Some r /\
    LlmSentiment.count r = 1%nat /\ (LlmSentiment.score r <= 1)%Q.
Proof.
  cbv zeta.
  assert (Hb : forall h,
            In h [{| title := "Chip stocks surge"; source := "wire";
                     hl_sectors := Some ["XLK"]; sentiment := Some (1 # 2) |}] ->
            (- (1) <= sentiment_or_zero h)%Q /\ (sentiment_or_zero h <= 1)%Q).
  { intros h [<-|[]]. split; vm_compute; discriminate. }
  split; [exact Hb|].
  pose proof (recalculated_entries_follow_tags _ "XLK" Hb) as H.
  destruct (get "XLK" (LlmSentiment.recalculate _)) as [r|] eqn:E;
    [|vm_compute in E; discriminate E].
  exists r. split; [reflexivity|].
  destruct H as (_ & H2 & _ & H4). split; [exact H2|exact H4].
Defined.

End HarvesterLaws.

(** ** Daily learning: the model, the sources and the history *)

Module DailyLearningLaws.
Import Py PyFacts PyLaws DailyLearning DailyLearningSpec SourceLearning.

Lemma default_in_range : in_range default_sensitivity.
Proof.
  unfold in_range, default_sensitivity, multiplier_of. simpl.
  repeat split; try lra; lia.
Qed.

Lemma update_in_range (s : sensitivity) (correct : bool) :
  in_range s -> in_range (update_sensitivity s correct).
Proof.
  intros (H1 & H2 & H3 & H4).
  destruct (update_multiplier_bounds s correct H1 H2) as [B1 B2].
  unfold in_range. split; [exact B1|]. split; [exact B2|].
  unfold update_sensitivity. destruct correct; simpl; lia.
Qed.

Lemma learn_sector_in_range (price_changes : dict Q) (model : dict sensitivity)
  (item : string * sent_data) :
  (forall s, In s (values model) -> in_range s) ->
  forall s, In s (values (learn_sector price_changes model item)) -> in_range s.
Proof.
  intros H s. unfold learn_sector. destruct item as [sector sd].
  destruct (get sector price_changes) as [actual|]; [|apply H].
  intro Hin. apply In_values_set in Hin. destruct Hin as [->|Hin]; [|now apply H].
  apply update_in_range. unfold get_default.
  destruct (get sector model) as [e|] eqn:G.
  - apply H. eapply get_In_values. exact G.
  - apply default_in_range.
Qed.

Lemma sum_Z_acc (xs : list Z) (a : Z) :
  fold_left Z.add xs a = (a + sum_Z xs)%Z.
Proof.
  unfold sum_Z. revert a. induction xs as [|x r IH]; intro a; simpl.
  - lia.
  - rewrite IH, (IH x). lia.
Qed.

Lemma sum_Z_cons (x : Z) (xs : list Z) : sum_Z (x :: xs) = (x + sum_Z xs)%Z.
Proof. unfold sum_Z at 1. simpl. apply sum_Z_acc. Qed.

Lemma totals_in_range (l : list sensitivity) :
  (forall s, In s l -> in_range s) ->
  (0 <= sum_Z (map (fun s => get_Z (correct_predictions s)) l))%Z /\
  (sum_Z (map (fun s => get_Z (correct_predictions s)) l)
   <= sum_Z (map (fun s => get_Z (total_predictions s)) l))%Z.
Proof.
  induction l as [|s r IH]; intro H.
  - unfold sum_Z. simpl. lia.
  - simpl map. rewrite !sum_Z_cons.
    destruct (H s (or_introl eq_refl)) as (_ & _ & H3 & H4).
    destruct IH as [I1 I2]; [intros; apply H; now right|]. lia.
Qed.

Lemma overall_accuracy_range (model : dict sensitivity) :
  (forall s, In s (values model) -> in_range s) ->
  (0 <= overall_accuracy model)%Q /\ (overall_accuracy model <= 100)%Q.
Proof.
  intro H. unfold overall_accuracy. cbv zeta.
  destruct (totals_in_range (values model) H) as [H0 H1].
  set (c := sum_Z (map (fun s => get_Z (correct_predictions s)) (values model))) in *.
  set (t := sum_Z (map (fun s => get_Z (total_predictions s)) (values model))) in *.
  destruct (Z.ltb_spec 0 t) as [Ht|Ht]; [|split; lra].
  assert (Qt : (0 < inject_Z t)%Q)
    by (change 0%Q with (inject_Z 0); now rewrite <- Zlt_Qlt).
  rewrite Zle_Qle in H0, H1. change (inject_Z 0) with 0%Q in H0.
  assert (A : (0 <= inject_Z c / inject_Z t)%Q) by (apply Qle_shift_div_l; lra).
  assert (B : (inject_Z c / inject_Z t <= 1)%Q) by (apply Qle_shift_div_r; lra).
  split; lra.
Qed.

(** X13. A day of learning keeps the sensitivity model in range: when
    every entry has its multiplier within 0.5 and 2.0 and no more correct
    predictions than predictions, so has every entry afterwards, whatever
    the sentiment and the price changes, and the overall accuracy computed
    from the model lies between 0 and 100. *)
Theorem daily_learn_keeps_model_in_range
  (sector_sentiment : dict sent_data) (price_changes : dict Q)
  (model : dict sensitivity) :
  (forall s, In s (values model) -> in_range s) ->
  let model' := daily_learn_sectors sector_sentiment price_changes model in
  (forall s, In s (values model') -> in_range s) /\
  (0 <= overall_accuracy model')%Q /\ (overall_accuracy model' <= 100)%Q.
Proof.
  intro H. cbv zeta.
  assert (H' : forall s,
             In s (values (daily_learn_sectors sector_sentiment price_changes model)) ->
             in_range s).
  { unfold daily_learn_sectors. revert model H.
    induction sector_sentiment as [|item rest IH]; intros model H; simpl.
    - exact H.
    - apply IH. now apply learn_sector_in_range. }
  split; [exact H'|]. now apply overall_accuracy_range.
Qed.

Lemma daily_learn_in_range_witness :
  (forall s, In s (values WeeklyLearning.initial_model) -> in_range s) /\
  (overall_accuracy
     (daily_learn_sectors [("XLV", bullish)] rose WeeklyLearning.initial_model)
   <= 100)%Q.
Proof.
  assert (H : forall s, In s (values WeeklyLearning.initial_model) -> in_range s).
  { intros s [<-|[]]. apply default_in_range. }
  split; [exact H|].
  destruct (daily_learn_keeps_model_in_range [("XLV", bullish)] rose
              WeeklyLearning.initial_model H) as [_ [_ H3]].
  exact H3.
Defined.

Lemma has_key_false_get {V} (k : string) (d : dict V) :
  has_key k d = false -> get k d = None.
Proof. unfold has_key. destruct (get k d); [discriminate|reflexivity]. Qed.

Lemma daily_learn_untouched (rest : dict sent_data) (price_changes : dict Q)
  (model : dict sensitivity) (c : string) :
  has_key c rest && has_key c price_changes = false ->
  get c (daily_learn_sectors rest price_changes model) = get c model.
Proof.
  unfold daily_learn_sectors. revert model.
  induction rest as [|[k sd] r IH]; intros model Hc; simpl; [reflexivity|].
  unfold has_key in Hc. simpl in Hc.
  destruct (String.eqb c k) eqn:E.
  - apply String.eqb_eq in E. subst k. simpl in Hc.
    fold (has_key c price_changes) in Hc.
    rewrite (has_key_false_get _ _ Hc).
    (* the sector has no price: this turn changes nothing, nor does a later
       turn for the same key *)
    apply IH. unfold has_key. destruct (get c r); [|reflexivity].
    simpl. exact Hc.
  - rewrite IH by exact Hc.
    destruct (get k price_changes); [|reflexivity].
    apply String.eqb_neq in E. now rewrite get_set_other.
Qed.

(** X14. A day of learning counts one prediction for every sector that
    has both a sentiment entry and a price change, and leaves the entry of
    every other sector exactly as it was. *)
Theorem daily_learn_counts_priced_sectors
  (sector_sentiment : dict sent_data) (price_changes : dict Q)
  (model : dict sensitivity) (c : string) :
  NoDup (keys sector_sentiment) ->
  let model' := daily_learn_sectors sector_sentiment price_changes model in
  if has_key c sector_sentiment && has_key c price_changes
  then exists s',
         get c model' = Some s' /\
         total_predictions s'
         = Some (get_Z (total_predictions
                          (get_default c default_sensitivity model)) + 1)%Z
  else get c model' = get c model.
Proof.
  intro Hnd. cbv zeta.
  destruct (has_key c sector_sentiment && has_key c price_changes) eqn:Hc;
    [|now apply daily_learn_untouched].
  apply andb_true_iff in Hc. destruct Hc as [Hs Hp].
  unfold daily_learn_sectors. revert model Hnd Hs.
  induction sector_sentiment as [|[k sd] r IH]; intros model Hnd Hs;
    [discriminate|].
  inversion Hnd as [|? ? Hk Hr]; subst. cbn [fold_left].
  destruct (String.eqb c k) eqn:E.
  - apply String.eqb_eq in E. subst k.
    assert (Hr' : has_key c r && has_key c price_changes = false).
    { apply andb_false_iff. left. unfold has_key.
      destruct (get c r) eqn:G; [|reflexivity].
      exfalso. apply Hk. apply get_Some_In in G. unfold keys.
      apply in_map_iff. exists (c, s). auto. }
    pose proof (daily_learn_untouched r price_changes
                  (learn_sector price_changes model (c, sd)) c Hr') as Hu.
    unfold daily_learn_sectors in Hu. rewrite Hu.
    unfold learn_sector. unfold has_key in Hp.
    destruct (get c price_changes) as [actual|]; [|discriminate].
    rewrite get_set_same. eexists. split; [reflexivity|].
    unfold update_sensitivity. destruct (is_correct _ actual); reflexivity.
  - assert (Hs' : has_key c r = true).
    { unfold has_key in Hs |- *. simpl in Hs. now rewrite E in Hs. }
    destruct (IH (learn_sector price_changes model (k, sd)) Hr Hs')
      as [s' [G T]].
    exists s'. split; [exact G|]. rewrite T.
    unfold learn_sector, get_default.
    destruct (get k price_changes); [|reflexivity].
    apply String.eqb_neq in E. now rewrite get_set_other.
Qed.

Lemma daily_learn_counts_witness :
  NoDup (keys [("XLV", bullish)]) /\
  exists s',
    get "XLV" (daily_learn_sectors [("XLV", bullish)] rose
                 WeeklyLearning.initial_model) = Some s' /\
    total_predictions s' = Some (0 + 1)%Z.
Proof.
  assert (Hnd : NoDup (keys [("XLV", bullish)])).
  { repeat constructor; simpl; intuition discriminate. }
  split; [exact Hnd|].
  exact (daily_learn_counts_priced_sectors [("XLV", bullish)] rose
           WeeklyLearning.initial_model "XLV" Hnd).
Defined.

(** *** Source reliability *)

Local Abbreviation total_of d name := (total (get_default name zero_score d)).
Local Abbreviation correct_of d name := (correct (get_default name zero_score d)).

Lemma get_count_sector (s : string) (q : Q) (o : dict Q)
  (d : dict source_score) (sec name : string) :
  get name (count_sector s q o d sec)
  = match get sec o with
    | Some actual =>
        if String.eqb s name
        then Some {| correct := if matches q actual
                                then (correct_of d s + 1)%Z else correct_of d s;
                     total := (total_of d s + 1)%Z |}
        else get name d
    | None => get name d
    end.
Proof.
  unfold count_sector. destruct (get sec o) as [actual|]; [|reflexivity].
  cbv zeta.
  assert (E : get_default s zero_score
                (if has_key s d then d else set s zero_score d)
              = get_default s zero_score d).
  { unfold has_key, get_default. destruct (get s d) eqn:G.
    - now rewrite G.
    - now rewrite get_set_same. }
  rewrite E.
  destruct (String.eqb s name) eqn:En.
  - apply String.eqb_eq in En. subst name. apply get_set_same.
  - apply String.eqb_neq in En.
    rewrite get_set_other by congruence.
    destruct (has_key s d); [reflexivity|].
    rewrite get_set_other by congruence. reflexivity.
Qed.

(** The pairs one headline contributes. *)
Local Abbreviation pairs_of q o l :=
  (flat_map (fun sector : string =>
               match get sector o with
               | Some actual => [(q, actual)]
               | None => @nil (Q * Q)
               end) l).

Local Abbreviation hits ps :=
  (List.length (filter (fun p : Q * Q => matches (fst p) (snd p)) ps)).

Lemma fold_count_sector (s : string) (q : Q) (o : dict Q) (l : list string)
  (d : dict source_score) (name : string) :
  let d' := fold_left (count_sector s q o) l d in
  let ps := if String.eqb s name then pairs_of q o l else [] in
  total_of d' name = (total_of d name + Z.of_nat (List.length ps))%Z /\
  correct_of d' name = (correct_of d name + Z.of_nat (hits ps))%Z /\
  has_key name d' = has_key name d || negb (Nat.eqb (List.length ps) 0).
Proof.
  cbv zeta. revert d. induction l as [|sec r IH]; intro d.
  - simpl. destruct (String.eqb s name); simpl;
      rewrite !Z.add_0_r, orb_false_r; auto.
  - cbn [fold_left]. destruct (IH (count_sector s q o d sec)) as (I1 & I2 & I3).
    rewrite I1, I2, I3. clear IH I1 I2 I3.
    unfold get_default, has_key. rewrite !get_count_sector.
    destruct (String.eqb s name) eqn:En.
    + apply String.eqb_eq in En. subst name. simpl flat_map.
      destruct (get sec o) as [actual|]; simpl.
      * unfold get_default.
        cbn [flat_map app List.length filter fst snd total correct].
        destruct (matches q actual) eqn:M;
          cbn [flat_map app List.length filter fst snd total correct negb Nat.eqb];
          destruct (get s d);
          cbn [flat_map app List.length filter fst snd total correct negb Nat.eqb];
          rewrite ?Nat2Z.inj_succ, ?orb_true_r; repeat split; lia.
      * repeat split.
    + destruct (get sec o); repeat split.
Qed.

Lemma fold_count_headline (o : dict Q) (hs : list headline)
  (d : dict source_score) (name : string) :
  let d' := fold_left (count_headline o) hs d in
  let ps := scored_pairs name hs o in
  total_of d' name = (total_of d name + Z.of_nat (List.length ps))%Z /\
  correct_of d' name = (correct_of d name + Z.of_nat (hits ps))%Z /\
  has_key name d' = has_key name d || negb (Nat.eqb (List.length ps) 0).
Proof.
  cbv zeta. revert d. induction hs as [|h r IH]; intro d.
  - simpl. rewrite !Z.add_0_r, orb_false_r. auto.
  - cbn [fold_left]. destruct (IH (count_headline o d h)) as (I1 & I2 & I3).
    rewrite I1, I2, I3. clear IH I1 I2 I3.
    unfold count_headline.
    destruct (fold_count_sector
                (match source h with Some s => s | None => "unknown" end)
                (match sentiment h with Some q => q | None => 0%Q end)
                o (match sectors h with Some l => l | None => [] end) d name)
      as (J1 & J2 & J3).
    cbv zeta in J1, J2, J3. rewrite J1, J2, J3.
    unfold scored_pairs. simpl flat_map. fold (scored_pairs name r o).
    rewrite filter_app, !length_app.
    destruct (String.eqb _ name); simpl List.length.
    + repeat split; try lia.
      rewrite <- orb_assoc. f_equal.
      destruct (List.length (pairs_of _ o _)); simpl; [reflexivity|].
      reflexivity.
    + rewrite orb_false_r. repeat split; lia.
Qed.

Lemma hits_le (ps : list (Q * Q)) : (hits ps <= List.length ps)%nat.
Proof. apply filter_length_le. Qed.

Lemma source_fields
  (headlines : list headline) (actual_outcomes : dict Q) (name : string) :
  match get name (calculate_source_reliability headlines actual_outcomes) with
  | Some sc =>
      total sc
      = Z.of_nat (List.length (scored_pairs name headlines actual_outcomes)) /\
      (0 <= correct sc <= total sc)%Z
  | None => True
  end.
Proof.
  unfold calculate_source_reliability.
  destruct (fold_count_headline actual_outcomes headlines [] name)
    as (H1 & H2 & H3).
  cbv zeta in H1, H2, H3. unfold get_default, has_key in H1, H2, H3.
  simpl in H1, H2, H3.
  pose proof (hits_le (scored_pairs name headlines actual_outcomes)) as Hle.
  destruct (get name (fold_left (count_headline actual_outcomes) headlines []));
    [|exact I].
  split; [exact H1|]. rewrite H1, H2. lia.
Qed.

(** X15. For every news source, [calculate_source_reliability] reports
    the number of its scored predictions (one for each sector of each of
    its headlines that has an outcome) and the number of those that matched
    the outcome; a source without a scored prediction has no entry, so a
    reported total is at least 1 and never less than the correct count. *)
Theorem source_reliability_counts
  (headlines : list headline) (actual_outcomes : dict Q) (name : string) :
  let ps := scored_pairs name headlines actual_outcomes in
  match get name (calculate_source_reliability headlines actual_outcomes) with
  | Some sc =>
      ps <> [] /\
      total sc = Z.of_nat (List.length ps) /\
      correct sc
      = Z.of_nat (List.length
                    (filter (fun p => matches (fst p) (snd p)) ps)) /\
      (0 <= correct sc <= total sc)%Z /\ (1 <= total sc)%Z
  | None => ps = []
  end.
Proof.
  cbv zeta. unfold calculate_source_reliability.
  destruct (fold_count_headline actual_outcomes headlines [] name)
    as (H1 & H2 & H3).
  cbv zeta in H1, H2, H3. unfold get_default, has_key in H1, H2, H3.
  simpl in H1, H2, H3.
  pose proof (hits_le (scored_pairs name headlines actual_outcomes)) as Hle.
  destruct (get name (fold_left (count_headline actual_outcomes) headlines []))
    as [sc|].
  - destruct (scored_pairs name headlines actual_outcomes) as [|p ps] eqn:E;
      [discriminate|].
    split; [discriminate|]. split; [exact H1|]. split; [exact H2|].
    rewrite H1, H2. simpl List.length in *. lia.
  - destruct (scored_pairs name headlines actual_outcomes); [reflexivity|].
    discriminate.
Qed.

Lemma keys_count_sector_NoDup (s : string) (q : Q) (o : dict Q)
  (d : dict source_score) (sec : string) :
  NoDup (keys d) -> NoDup (keys (count_sector s q o d sec)).
Proof.
  intro H. unfold count_sector. destruct (get sec o); [|exact H].
  cbv zeta. apply keys_set_NoDup.
  destruct (has_key s d); [exact H|now apply keys_set_NoDup].
Qed.

Lemma keys_source_reliability_NoDup (hs : list headline) (o : dict Q) :
  NoDup (keys (calculate_source_reliability hs o)).
Proof.
  unfold calculate_source_reliability.
  assert (H : forall d, NoDup (keys d) ->
                NoDup (keys (fold_left (count_headline o) hs d))).
  { induction hs as [|h r IH]; intros d Hd; simpl; [exact Hd|].
    apply IH. unfold count_headline.
    generalize (match sectors h with Some l => l | None => [] end).
    intro l. revert d Hd. induction l as [|sec l IHl]; intros d Hd; simpl.
    - exact Hd.
    - apply IHl. now apply keys_count_sector_NoDup. }
  apply H. constructor.
Qed.

Local Abbreviation weights_of sw :=
  (match sw with Some w => w | None => @nil (string * Q) end).

Lemma update_source_weight_range (sw : option (dict Q))
  (item : string * source_score) :
  (0 <= correct (snd item) <= total (snd item))%Z ->
  (forall name w, get name (weights_of sw) = Some w -> (0 <= w)%Q /\ (w <= 1)%Q) ->
  forall name w,
    get name (weights_of (update_source_weight sw item)) = Some w ->
    (0 <= w)%Q /\ (w <= 1)%Q.
Proof.
  intros Hc H name w. destruct item as [s sc]. simpl in Hc.
  unfold update_source_weight.
  destruct (Z.leb_spec 3 (total sc)) as [Ht|Ht]; [|apply H].
  cbv zeta.
  destruct (String.eqb_spec name s) as [->|Hne].
  - rewrite get_set_same. intro E. injection E as <-.
    assert (Qt : (0 < inject_Z (total sc))%Q)
      by (change 0%Q with (inject_Z 0); rewrite <- Zlt_Qlt; lia).
    destruct Hc as [C1 C2]. rewrite Zle_Qle in C1, C2.
    change (inject_Z 0) with 0%Q in C1.
    assert (A : (0 <= inject_Z (correct sc) / inject_Z (total sc))%Q)
      by (apply Qle_shift_div_l; lra).
    assert (B : (inject_Z (correct sc) / inject_Z (total sc) <= 1)%Q)
      by (apply Qle_shift_div_r; lra).
    unfold get_default.
    destruct (get s (weights_of sw)) as [w0|] eqn:G.
    + destruct (H s w0 G). split; lra.
    + split; lra.
  - simpl. rewrite get_set_other by assumption. apply H.
Qed.

Lemma update_source_weight_other (sw : option (dict Q))
  (item : string * source_score) (name : string) :
  (fst item = name -> (total (snd item) < 3)%Z) ->
  get name (weights_of (update_source_weight sw item))
  = get name (weights_of sw).
Proof.
  intro H. destruct item as [s sc]. simpl in H. unfold update_source_weight.
  destruct (Z.leb_spec 3 (total sc)) as [Ht|Ht]; [|reflexivity].
  cbv zeta. simpl. apply get_set_other. intro E. subst s.
  specialize (H eq_refl). lia.
Qed.

(** X16. The source weights stay within 0 and 1: when every weight of
    the model is, so is every weight after the sources of a day have been
    learned from.  A source with fewer than three scored predictions that
    day keeps the weight it had. *)
Theorem learn_sources_keeps_weights_in_unit
  (headlines : list headline) (price_changes : dict Q)
  (source_weights : option (dict Q)) :
  (forall name w, get name (weights_of source_weights) = Some w ->
                  (0 <= w)%Q /\ (w <= 1)%Q) ->
  let weights' := learn_sources headlines price_changes source_weights in
  (forall name w, get name (weights_of weights') = Some w ->
                  (0 <= w)%Q /\ (w <= 1)%Q) /\
  (forall name,
     (List.length (scored_pairs name headlines price_changes) < 3)%nat ->
     get name (weights_of weights') = get name (weights_of source_weights)).
Proof.
  intro H. cbv zeta. unfold learn_sources. cbv zeta.
  set (scores := calculate_source_reliability headlines price_changes).
  set (items := firstn 10 (sorted_desc (fun kv => inject_Z (total (snd kv))) scores)).
  assert (Hitems : forall item, In item items -> get (fst item) scores = Some (snd item)).
  { intros [s sc] Hin. simpl. apply In_get_Some.
    - apply keys_source_reliability_NoDup.
    - assert (Hin' : In (s, sc)
                       (sorted_desc (fun kv => inject_Z (total (snd kv))) scores)).
      { rewrite <- (firstn_skipn 10). apply in_or_app. left. exact Hin. }
      clear Hin. rename Hin' into Hin.
      eapply Permutation_in; [apply Permutation_sym, sorted_desc_perm|exact Hin]. }
  clearbody items. split.
  - revert source_weights H.
    induction items as [|item rest IH]; intros sw H; simpl; [exact H|].
    apply IH; [intros; apply Hitems; now right|].
    apply update_source_weight_range; [|exact H].
    pose proof (Hitems item (or_introl eq_refl)) as G.
    pose proof (source_fields headlines price_changes (fst item)) as F.
    fold scores in F. rewrite G in F. lia.
  - intros name Hlt. revert source_weights H.
    induction items as [|item rest IH]; intros sw H; simpl; [reflexivity|].
    rewrite IH.
    + apply update_source_weight_other. intro E.
      pose proof (Hitems item (or_introl eq_refl)) as G.
      pose proof (source_fields headlines price_changes (fst item)) as F.
      fold scores in F. rewrite G in F. rewrite E in F. lia.
    + intros; apply Hitems; now right.
    + apply update_source_weight_range; [|exact H].
      pose proof (Hitems item (or_introl eq_refl)) as G.
      pose proof (source_fields headlines price_changes (fst item)) as F.
      fold scores in F. rewrite G in F. lia.
Qed.

Lemma learn_sources_witness :
  (forall name w, get name (weights_of (@None (dict Q))) = Some w ->
                  (0 <= w)%Q /\ (w <= 1)%Q) /\
  exists w,
    get "wire" (weights_of (learn_sources one_day one_day_outcomes None)) = Some w /\
    (0 <= w)%Q /\ (w <= 1)%Q.
Proof.
  assert (H : forall name w, get name (weights_of (@None (dict Q))) = Some w ->
                             (0 <= w)%Q /\ (w <= 1)%Q)
    by (intros name w E; discriminate E).
  split; [exact H|].
  destruct (get "wire" (weights_of (learn_sources one_day one_day_outcomes None)))
    as [w|] eqn:E; [|vm_compute in E; discriminate E].
  exists w. split; [reflexivity|].
  destruct (learn_sources_keeps_weights_in_unit one_day one_day_outcomes None H)
    as [H1 _].
  exact (H1 "wire" w E).
Defined.

(** *** The learning history *)

Lemma last_n_short {A} (n : nat) (l : list A) :
  (List.length l <= n)%nat -> last_n n l = l.
Proof.
  intro H. unfold last_n. replace (List.length l - n)%nat with 0%nat by lia.
  reflexivity.
Qed.

Lemma last_n_length {A} (n : nat) (l : list A) :
  List.length (last_n n l) = Nat.min n (List.length l).
Proof. unfold last_n. rewrite length_skipn. lia. Qed.

Lemma last_n_app {A} (n : nat) (a b : list A) :
  last_n n (last_n n a ++ b) = last_n n (a ++ b).
Proof.
  unfold last_n. rewrite !length_app, length_skipn.
  destruct (Nat.le_gt_cases (List.length a) n) as [H|H].
  - replace (List.length a - n)%nat with 0%nat by lia. simpl.
    f_equal. lia.
  - rewrite !skipn_app.
    rewrite length_skipn.
    rewrite skipn_skipn.
    replace (List.length a - (List.length a - n) + List.length b - n
             + (List.length a - n))%nat
      with (List.length a + List.length b - n)%nat by lia.
    f_equal. f_equal. lia.
Qed.

(** X17. The learning history is a window on the last 90 days: after any
    number of days the history holds the most recent 90 entries of
    everything that was appended, in order, and never more than 90. *)
Theorem learning_history_keeps_last_90 {A : Type}
  (history : list A) (entries : list A) :
  (List.length history <= 90)%nat ->
  let history' := fold_left (fun h e => add_history (Some h) e) entries history in
  history' = last_n 90 (history ++ entries) /\
  (List.length history' <= 90)%nat.
Proof.
  intro H. cbv zeta.
  assert (E : fold_left (fun h e => add_history (Some h) e) entries history
              = last_n 90 (history ++ entries)).
  { revert history H. induction entries as [|e r IH]; intros h H; simpl.
    - rewrite app_nil_r. symmetry. now apply last_n_short.
    - rewrite IH.
      + unfold add_history. rewrite last_n_app, <- app_assoc. reflexivity.
      + unfold add_history. rewrite last_n_length. lia. }
  split; [exact E|]. rewrite E, last_n_length. lia.
Qed.

Lemma learning_history_witness :
  (List.length [1; 2]%nat <= 90)%nat /\
  fold_left (fun h e => add_history (Some h) e) [3]%nat [1; 2]%nat
  = last_n 90 ([1; 2] ++ [3])%nat.
Proof.
  assert (H : (List.length [1; 2]%nat <= 90)%nat) by (simpl; lia).
  split; [exact H|].
  exact (proj1 (learning_history_keeps_last_90 [1; 2]%nat [3]%nat H)).
Defined.

End DailyLearningLaws.

(** ** Scenario weights: ranking, spread and rounding *)

Module PortfolioEngineLaws.
Import Py PyFacts PyLaws PortfolioEngine PortfolioEngineSpec.

Lemma momentum_weight_le_20 sc s : (momentum_weight sc s <= 20)%Q.
Proof.
  unfold momentum_weight. cbv zeta.
  set (y := (100 / len sectors + score_of sc s * 50)%Q).
  destruct (max_spec 2 (min 20 y)) as [[H ->]|[H ->]]; [|lra].
  destruct (min_spec 20 y) as [[H' ->]|[H' ->]]; lra.
Qed.

Lemma contrarian_weight_le_20 sc s : (contrarian_weight sc s <= 20)%Q.
Proof.
  unfold contrarian_weight. cbv zeta.
  set (y := (100 / len sectors + - score_of sc s * 50)%Q).
  destruct (max_spec 2 (min 20 y)) as [[H ->]|[H ->]]; [|lra].
  destruct (min_spec 20 y) as [[H' ->]|[H' ->]]; lra.
Qed.

(** A weight of a renormalised dict over the 13 sectors whose raw weights
    lie within 2 and 20. *)
Lemma normalized_spread (f : string -> Q) (w : Q) :
  (forall s, (2 <= f s)%Q /\ (f s <= 20)%Q) ->
  In w (values (normalize (build f sectors))) ->
  (100 # 121 <= w)%Q /\ (w <= 500 # 11)%Q.
Proof.
  intros Hf Hin. rewrite values_normalize, values_build in Hin.
  apply in_map_iff in Hin. destruct Hin as [x [<- Hx]].
  assert (Hb : forall y, In y (map f sectors) -> (2 <= y)%Q /\ (y <= 20)%Q).
  { intros y Hy. apply in_map_iff in Hy. destruct Hy as [s [<- _]]. apply Hf. }
  destruct (sum_around_member 2 20 x (map f sectors) Hx Hb) as [S1 S2].
  assert (Hl : (len (map f sectors) == 13)%Q) by reflexivity.
  rewrite Hl in S1, S2.
  destruct (Hb x Hx) as [X1 X2].
  set (T := sum (map f sectors)) in *.
  assert (A : (1 # 121 <= x / T)%Q) by (apply Qle_shift_div_l; lra).
  assert (B : (x / T <= 5 # 11)%Q) by (apply Qle_shift_div_r; lra).
  split; lra.
Qed.

(** X18. In the momentum and the contrarian scenario no sector is
    dropped and none dominates: every sector weight lies between 100/121
    (about 0.83%) and 500/11 (about 45.5%), whatever the sentiment. *)
Theorem momentum_and_contrarian_weights_are_spread
  (scenario : string) (sd : sentiment_data) (s : string) (w : Q) :
  scenario = "momentum" \/ scenario = "contrarian" ->
  get s (calculate_rebalance scenario sd) = Some w ->
  (100 # 121 <= w)%Q /\ (w <= 500 # 11)%Q.
Proof.
  intros [->| ->] Hget; apply get_In_values in Hget;
    unfold calculate_rebalance in Hget; simpl String.eqb in Hget;
    cbv iota in Hget.
  - apply (normalized_spread _ w) in Hget; [exact Hget|].
    intro s0. split; [apply momentum_weight_ge_2|apply momentum_weight_le_20].
  - apply (normalized_spread _ w) in Hget; [exact Hget|].
    intro s0. split; [apply contrarian_weight_ge_2|apply contrarian_weight_le_20].
Qed.

Lemma momentum_spread_witness :
  ("momentum" = "momentum" \/ "momentum" = "contrarian") /\
  exists w,
    get "XLK" (calculate_rebalance "momentum" tied_sentiment) = Some w /\
    (100 # 121 <= w)%Q /\ (w <= 500 # 11)%Q.
Proof.
  split; [left; reflexivity|].
  destruct (get "XLK" (calculate_rebalance "momentum" tied_sentiment))
    as [w|] eqn:E; [|vm_compute in E; discriminate E].
  exists w. split; [reflexivity|].
  exact (momentum_and_contrarian_weights_are_spread "momentum" tied_sentiment
           "XLK" w (or_introl eq_refl) E).
Defined.

Lemma aggressive_rebalance (sd : sentiment_data) :
  calculate_rebalance "aggressive" sd
  = map (fun s => (s, aggressive_weight
                        (match sector_sentiment sd with Some d => d | None => [] end)
                        s)) sectors.
Proof.
  unfold calculate_rebalance. simpl String.eqb. cbv iota. cbv zeta.
  apply build_map. apply sectors_NoDup.
Qed.

Lemma get_map_keys {V} (f : string -> V) (ks : list string) (k : string) :
  get k (map (fun s => (s, f s)) ks) = if mem k ks then Some (f k) else None.
Proof.
  unfold mem. induction ks as [|x r IH]; simpl; [reflexivity|].
  destruct (String.eqb_spec k x) as [->|Hne]; [reflexivity|exact IH].
Qed.

(** X19. The aggressive scenario puts 30% on exactly three sectors and
    1% on the other ten, and the three are the best ones: no sector with 1%
    has a higher sentiment score than a sector with 30%. *)
Theorem aggressive_picks_three_highest (sd : sentiment_data) :
  let sector_scores :=
    match sector_sentiment sd with Some d => d | None => [] end in
  let alloc := calculate_rebalance "aggressive" sd in
  keys alloc = sectors /\
  (forall s w, get s alloc = Some w -> w = 30%Q \/ w = 1%Q) /\
  List.length (filter (fun kv => Qeq_bool (snd kv) 30) alloc) = 3%nat /\
  (forall s t, get s alloc = Some 30%Q -> get t alloc = Some 1%Q ->
               (score_of sector_scores t <= score_of sector_scores s)%Q).
Proof.
  cbv zeta. rewrite aggressive_rebalance.
  set (sc := match sector_sentiment sd with Some d => d | None => [] end).
  split.
  { unfold keys. rewrite map_map. reflexivity. }
  split.
  { intros s w. rewrite get_map_keys. destruct (mem s sectors); [|discriminate].
    intro E. injection E as <-. unfold aggressive_weight.
    destruct (mem s _); auto. }
  split.
  { rewrite filter_map_comm, length_map. cbn [snd].
    rewrite <- (top_3_count sc). f_equal. apply filter_ext. intro s.
    unfold aggressive_weight. destruct (mem s _); reflexivity. }
  intros s t. rewrite !get_map_keys.
  destruct (mem s sectors) eqn:Ms; [|discriminate].
  destruct (mem t sectors) eqn:Mt; [|discriminate].
  unfold aggressive_weight. cbv zeta.
  set (srt := sorted_desc (score_of sc) sectors).
  destruct (mem s (firstn 3 srt)) eqn:Es; [|discriminate].
  destruct (mem t (firstn 3 srt)) eqn:Et; [discriminate|].
  intros _ _.
  apply mem_In in Es.
  assert (Ht : In t (skipn 3 srt)).
  { apply mem_In in Mt.
    apply (Permutation_in t (sorted_desc_perm (score_of sc) sectors)) in Mt.
    fold srt in Mt. rewrite <- (firstn_skipn 3 srt) in Mt.
    apply in_app_or in Mt. destruct Mt as [Mt|Mt]; [|exact Mt].
    apply mem_In in Mt. congruence. }
  apply (sorted_app_le (score_of sc) (firstn 3 srt) (skipn 3 srt)); try assumption.
  rewrite firstn_skipn. apply sorted_desc_sorted.
Qed.

(** The rounding of every term moves a sum by at most half a unit for
    each term. *)
Lemma sum_round_error (n : nat) (xs : list Q) :
  (sum xs - len xs * ((1 # 2) / inject_Z (pow10 n))
   <= sum (map (fun x => round x n) xs))%Q /\
  (sum (map (fun x => round x n) xs)
   <= sum xs + len xs * ((1 # 2) / inject_Z (pow10 n)))%Q.
Proof.
  induction xs as [|x r IH].
  - simpl map. rewrite sum_nil, len_nil. split; lra.
  - simpl map. rewrite !sum_cons, len_cons.
    destruct (round_error x n) as [E1 E2]. destruct IH as [I1 I2].
    split; lra.
Qed.

Lemma values_normalize_rounded (d : dict Q) :
  values (WeeklyRebalance.normalize_rounded d)
  = map (fun x => round x 2) (values (normalize d)).
Proof.
  unfold WeeklyRebalance.normalize_rounded, normalize, map_values, values.
  rewrite !map_map. reflexivity.
Qed.

Lemma round_nonneg (x : Q) (n : nat) : (0 <= x)%Q -> (0 <= round x n)%Q.
Proof.
  intro H. pose proof (pow10_Q_pos n) as Hs.
  destruct (round_spec x n) as [k [Hk [H1 H2]]]. rewrite Hk.
  assert (Hk0 : (0 <= k)%Z).
  { assert (H0 : (0 <= x * inject_Z (pow10 n))%Q) by (apply Qmult_le_0_compat; lra).
    assert (H' : (inject_Z 0 < inject_Z k + 1)%Q)
      by (change (inject_Z 0) with 0%Q; lra).
    change 1%Q with (inject_Z 1) in H'. rewrite <- inject_Z_plus in H'.
    rewrite <- Zlt_Qlt in H'. lia. }
  rewrite Zle_Qle in Hk0. change (inject_Z 0) with 0%Q in Hk0.
  apply Qle_shift_div_l; lra.
Qed.

Lemma normalize_rounded_near_100 (f : string -> Q) (c : Q) :
  (0 < c)%Q -> (forall s, (c <= f s)%Q) ->
  let w := values (WeeklyRebalance.normalize_rounded (build f sectors)) in
  (100 - (65 # 1000) <= sum w)%Q /\ (sum w <= 100 + (65 # 1000))%Q /\
  (forall v, In v w -> (0 <= v)%Q).
Proof.
  intros Hc Hf. cbv zeta. rewrite values_normalize_rounded.
  pose proof (build_total_pos f c Hc Hf) as Hpos.
  pose proof (normalize_sum _ Hpos) as Hsum.
  destruct (sum_round_error 2 (values (normalize (build f sectors)))) as [E1 E2].
  assert (Hl : (len (values (normalize (build f sectors))) == 13)%Q).
  { rewrite values_normalize, values_build. reflexivity. }
  rewrite Hl, Hsum in E1, E2.
  assert (Hu : (13 * ((1 # 2) / inject_Z (pow10 2)) == 65 # 1000)%Q)
    by (vm_compute; reflexivity).
  rewrite Hu in E1, E2.
  split; [exact E1|]. split; [exact E2|].
  intros v Hv. apply in_map_iff in Hv. destruct Hv as [x [<- Hx]].
  apply round_nonneg. revert x Hx. apply normalize_nonneg; [exact Hpos|].
  intros v Hv. rewrite values_build in Hv. apply in_map_iff in Hv.
  destruct Hv as [s [<- _]]. specialize (Hf s). lra.
Qed.

Lemma aggressive_weight_ge_1 sc s : (1 <= aggressive_weight sc s)%Q.
Proof. unfold aggressive_weight. destruct (mem s _); lra. Qed.

(** X20. The allocator of the weekly run rounds every weight to 2
    decimals after renormalising: for each of the six scenarios its weights
    are non-negative and sum to 100 within 0.065 (half a cent for each of
    the 13 sectors), not within 0.01. *)
Theorem weekly_allocations_near_100 (scenario : string) (sd : sentiment_data) :
  In scenario scenarios ->
  let w := values (WeeklyRebalance.calculate_new_allocations scenario sd) in
  (100 - (65 # 1000) <= sum w)%Q /\ (sum w <= 100 + (65 # 1000))%Q /\
  (forall v, In v w -> (0 <= v)%Q).
Proof.
  intro Hin. unfold scenarios in Hin. simpl in Hin.
  destruct Hin as [<-|[<-|[<-|[<-|[<-|[<-|[]]]]]]];
    unfold WeeklyRebalance.calculate_new_allocations; simpl String.eqb;
    cbv iota; cbv zeta.
  - split; [vm_compute; discriminate|]. split; [vm_compute; discriminate|].
    intros v Hv. unfold values in Hv. rewrite map_map in Hv.
    apply in_map_iff in Hv. destruct Hv as [s [<- _]]. simpl snd.
    vm_compute. discriminate.
  - apply (normalize_rounded_near_100 _ 2); [lra|apply momentum_weight_ge_2].
  - apply (normalize_rounded_near_100 _ 1); [lra|apply aggressive_weight_ge_1].
  - apply (normalize_rounded_near_100 _ 1); [lra|apply defensive_weight_ge_1].
  - apply (normalize_rounded_near_100 _ 2); [lra|apply contrarian_weight_ge_2].
  - split; [vm_compute; discriminate|]. split; [vm_compute; discriminate|].
    intros v [<-|[]]. vm_compute. discriminate.
Qed.

Lemma weekly_allocations_witness :
  In "momentum" scenarios /\
  let w := values (WeeklyRebalance.calculate_new_allocations "momentum"
                     tied_sentiment) in
  (100 - (65 # 1000) <= sum w)%Q /\ (sum w <= 100 + (65 # 1000))%Q.
Proof.
  assert (Hin : In "momentum" scenarios) by (right; left; reflexivity).
  split; [exact Hin|].
  destruct (weekly_allocations_near_100 "momentum" tied_sentiment Hin)
    as [H1 [H2 _]].
  split; [exact H1|exact H2].
Defined.

End PortfolioEngineLaws.

(** ** Phase-1 selection: the structured path *)

Module OllamaPortfolioLaws.
Import Py PyFacts PyLaws OllamaPortfolio OllamaPortfolioSpec.

(** The asset [normalize_asset] makes of an asset with weight [w]. *)
Local Abbreviation normalized total budget a w :=
  (set "amount" (JNum (round (w / total * budget) 2))
     (set "weight" (JNum (w / total)%Q) a)).

Lemma mapM_normalize_asset (total budget : Q) (assets : list (dict json))
  (ws : list Q) :
  mapM weight_of assets = Ok ws ->
  mapM (normalize_asset total budget) assets
  = Ok (map (fun aw => normalized total budget (fst aw) (snd aw))
          (combine assets ws)) /\
  List.length ws = List.length assets.
Proof.
  revert ws. induction assets as [|a r IH]; intros ws H; simpl in H.
  - injection H as <-. split; reflexivity.
  - destruct (weight_of a) as [w|] eqn:Ew; [|discriminate]. simpl in H.
    destruct (mapM weight_of r) as [ws'|] eqn:Er; [|discriminate].
    injection H as <-. destruct (IH ws' eq_refl) as [I1 I2].
    simpl. unfold normalize_asset at 1. rewrite Ew. cbn [bind].
    rewrite I1. cbn [bind]. split; [reflexivity|]. now rewrite I2.
Qed.

Lemma ticker_is_valid_normalized (valid : list string) (total budget w : Q)
  (a : dict json) :
  ticker_is_valid valid (normalized total budget a w) = ticker_is_valid valid a.
Proof.
  unfold ticker_is_valid.
  rewrite !get_set_other by discriminate. reflexivity.
Qed.

Lemma filterM_all {A} (p : A -> result bool) (l : list A) :
  (forall x, In x l -> p x = Ok true) -> filterM p l = Ok l.
Proof.
  induction l as [|x r IH]; intro H; simpl; [reflexivity|].
  rewrite (H x (or_introl eq_refl)). cbn [bind].
  rewrite IH by (intros; apply H; now right). reflexivity.
Qed.

Lemma weight_or_zero_normalized (total budget w : Q) (a : dict json) :
  weight_or_zero (normalized total budget a w) = (w / total)%Q.
Proof.
  unfold weight_or_zero.
  rewrite get_set_other by discriminate. now rewrite get_set_same.
Qed.

Lemma map_snd_combine {A B} (l : list A) (l' : list B) :
  List.length l' = List.length l -> map snd (combine l l') = l'.
Proof.
  revert l'. induction l as [|a r IH]; intros [|b r'] H; simpl in *;
    try reflexivity; try discriminate.
  f_equal. apply IH. lia.
Qed.

(** X21. When the structured response names candidate tickers only and
    its weights have a positive total, nothing is dropped and the returned
    weights sum to 1: every asset comes back with its weight divided by the
    total and an amount of that share of the budget, rounded to cents. *)
Theorem structured_selection_sums_to_1_when_all_valid
  (d : dict json) (stocks : list stock) (budget : Q)
  (items : list json) (assets : list (dict json)) (ws : list Q) :
  iterate (get_default "selected_assets" (JArr []) d) = Ok items ->
  mapM as_dict items = Ok assets ->
  mapM weight_of assets = Ok ws ->
  (0 < sum ws)%Q ->
  (forall a, In a assets -> ticker_is_valid (valid_tickers stocks) a = Ok true) ->
  exists selected,
    structured_selection (JObj d) stocks budget = Ok (selected, d) /\
    List.length selected = List.length assets /\
    (sum (map weight_or_zero selected) == 1)%Q /\
    map ticker_of selected = map ticker_of assets /\
    forall a, In a selected ->
      get "amount" a = Some (JNum (round (weight_or_zero a * budget) 2)).
Proof.
  intros Hit Has Hw Hpos Hv.
  destruct (mapM_normalize_asset (sum ws) budget assets ws Hw) as [Hn Hlen].
  set (sel := map (fun aw => normalized (sum ws) budget (fst aw) (snd aw))
                (combine assets ws)) in *.
  exists sel. split; [|split; [|split; [|split]]].
  - unfold structured_selection. cbn [as_dict bind].
    rewrite Hit. cbn [bind]. rewrite Has. cbn [bind]. rewrite Hw. cbn [bind].
    destruct (Qlt_bool_spec 0 (sum ws)) as [_|Hn']; [|contradiction].
    rewrite Hn. cbn [bind].
    rewrite filterM_all; [reflexivity|].
    intros x Hx. unfold sel in Hx. apply in_map_iff in Hx.
    destruct Hx as [[a w] [<- Hin]]. simpl.
    rewrite ticker_is_valid_normalized. apply Hv.
    eapply in_combine_l. exact Hin.
  - unfold sel. rewrite length_map, length_combine, Hlen. apply Nat.min_id.
  - unfold sel. rewrite map_map.
    rewrite (map_ext _ (fun aw => (snd aw / sum ws)%Q))
      by (intros [a w]; apply weight_or_zero_normalized).
    rewrite <- (map_map snd (fun w => (w / sum ws)%Q)).
    rewrite map_snd_combine by exact Hlen.
    rewrite (sum_map_scale _ (/ sum ws)) by (intro x; reflexivity).
    field. lra.
  - unfold sel. rewrite map_map.
    rewrite (map_ext _ (fun aw => ticker_of (fst aw))).
    + rewrite <- (map_map fst ticker_of). f_equal.
      clear - Hlen. revert ws Hlen.
      induction assets as [|a r IH]; intros [|w ws] H; simpl in *;
        try reflexivity; try discriminate.
      f_equal. apply IH. lia.
    + intros [a w]. unfold ticker_of. simpl.
      rewrite !get_set_other by discriminate. reflexivity.
  - intros a Hin. unfold sel in Hin. apply in_map_iff in Hin.
    destruct Hin as [[a0 w] [<- _]]. simpl fst. simpl snd.
    rewrite weight_or_zero_normalized. apply get_set_same.
Qed.

Lemma structured_selection_witness :
  let d := [("selected_assets",
             JArr [JObj [("ticker", JStr "AAPL"); ("weight", JNum (1 # 2))];
                   JObj [("ticker", JStr "MSFT"); ("weight", JNum (3 # 2))]])] in
  (0 < sum [1 # 2; 3 # 2])%Q /\
  exists selected,
    structured_selection (JObj d) two_stocks 10000 = Ok (selected, d) /\
    List.length selected = 2%nat /\
    (sum (map weight_or_zero selected) == 1)%Q.
Proof.
  cbv zeta.
  assert (Hpos : (0 < sum [1 # 2; 3 # 2])%Q) by reflexivity.
  split; [exact Hpos|].
  destruct (structured_selection_sums_to_1_when_all_valid
              [("selected_assets",
                JArr [JObj [("ticker", JStr "AAPL"); ("weight", JNum (1 # 2))];
                      JObj [("ticker", JStr "MSFT"); ("weight", JNum (3 # 2))]])]
              two_stocks 10000
              [JObj [("ticker", JStr "AAPL"); ("weight", JNum (1 # 2))];
               JObj [("ticker", JStr "MSFT"); ("weight", JNum (3 # 2))]]
              [[("ticker", JStr "AAPL"); ("weight", JNum (1 # 2))];
               [("ticker", JStr "MSFT"); ("weight", JNum (3 # 2))]]
              [1 # 2; 3 # 2] eq_refl eq_refl eq_refl Hpos)
    as [selected (H1 & H2 & H3 & _)].
  - intros a [<-|[<-|[]]]; reflexivity.
  - exists selected. split; [exact H1|]. split; [exact H2|exact H3].
Defined.

End OllamaPortfolioLaws.

(** ** The selection for all sectors *)

Module SectorPortfolioLaws.
Import Py PyFacts PyLaws SectorPortfolio.

Section WithSelector.

Variable select_assets : string -> Q -> string -> Q -> option (dict json).

Local Abbreviation select_portfolio_for_all_sectors :=
  (select_portfolio_for_all_sectors select_assets).
Local Abbreviation sector_entry := (sector_entry select_assets).

Lemma sector_entry_nonempty scenario budget sector sentiment :
  sector_entry scenario budget sector sentiment <> [].
Proof.
  unfold SectorPortfolio.sector_entry.
  destruct (select_assets sector sentiment scenario budget) as [[|kv r]|];
    discriminate.
Qed.

(** X22. The run over all sectors leaves no sector without an entry and
    hands out the whole budget: the result has one entry for each sector of
    the input, in order; a sector for which the selection gives nothing is
    entered as its own ETF alone with weight 1 and the full sector budget;
    and the sector budgets add up to the total budget. *)
Theorem all_sectors_get_an_entry
  (sector_sentiments : dict Q) (scenario : string) (total_budget : Q) :
  NoDup (keys sector_sentiments) ->
  let budget := budget_per_sector sector_sentiments total_budget in
  let sectors :=
    select_portfolio_for_all_sectors sector_sentiments scenario total_budget in
  keys sectors = keys sector_sentiments /\
  (forall sector sentiment,
     In (sector, sentiment) sector_sentiments ->
     get sector sectors = Some (sector_entry scenario budget sector sentiment) /\
     sector_entry scenario budget sector sentiment <> [] /\
     (match select_assets sector sentiment scenario budget with
      | Some (_ :: _) => True
      | _ =>
          OllamaPortfolio.assets_of
            (sector_entry scenario budget sector sentiment)
          = [[("ticker", JStr sector); ("weight", JNum 1);
              ("amount", JNum budget); ("reason", JStr "fallback to ETF")]]
      end)) /\
  (sector_sentiments <> [] ->
   (budget * len sector_sentiments == total_budget)%Q).
Proof.
  intro Hnd. cbv zeta.
  set (budget := budget_per_sector sector_sentiments total_budget).
  assert (E : select_portfolio_for_all_sectors sector_sentiments scenario
                total_budget
              = map (fun kv => (fst kv, sector_entry scenario budget (fst kv) (snd kv)))
                  sector_sentiments).
  { unfold SectorPortfolio.select_portfolio_for_all_sectors. cbv zeta.
    fold budget.
    assert (G : forall l acc,
              NoDup (keys l) ->
              (forall k, In k (keys l) -> ~ In k (keys acc)) ->
              fold_left
                (fun sectors kv =>
                   set (fst kv) (sector_entry scenario budget (fst kv) (snd kv))
                     sectors) l acc
              = acc ++ map (fun kv => (fst kv,
                                       sector_entry scenario budget (fst kv) (snd kv)))
                         l).
    { induction l as [|[k v] r IH]; intros acc Hl Hacc; simpl.
      - now rewrite app_nil_r.
      - inversion Hl as [|? ? Hk Hr]; subst.
        rewrite set_fresh by (apply Hacc; now left).
        rewrite IH; [now rewrite <- app_assoc|exact Hr|].
        intros k' Hk' Hin. unfold keys in Hin. rewrite map_app in Hin.
        apply in_app_or in Hin. destruct Hin as [Hin|[<-|[]]].
        + apply (Hacc k'); [now right|exact Hin].
        + contradiction. }
    rewrite G; [reflexivity|exact Hnd|intros k _ []]. }
  rewrite E. split; [|split].
  - unfold keys. rewrite map_map. reflexivity.
  - intros sector sentiment Hin. split; [|split].
    + apply In_get_Some.
      * unfold keys. rewrite map_map. exact Hnd.
      * apply in_map_iff. exists (sector, sentiment). auto.
    + apply sector_entry_nonempty.
    + unfold SectorPortfolio.sector_entry.
      destruct (select_assets sector sentiment scenario budget) as [[|kv r]|];
        try exact I; reflexivity.
  - intro Hne. unfold budget, budget_per_sector.
    destruct sector_sentiments as [|kv r]; [congruence|].
    pose proof (HarvesterLaws.len_pos kv r) as Hl.
    destruct (Qlt_bool_spec 0 (len (kv :: r))); [|contradiction].
    field. lra.
Qed.

End WithSelector.

Lemma all_sectors_witness :
  NoDup (keys two_sentiments) /\
  keys (select_portfolio_for_all_sectors select_nothing two_sentiments
          "benchmark" 50000) = ["XLK"; "XLE"] /\
  (budget_per_sector two_sentiments 50000 * len two_sentiments == 50000)%Q.
Proof.
  assert (Hnd : NoDup (keys two_sentiments)).
  { repeat constructor; simpl; intuition discriminate. }
  split; [exact Hnd|].
  destruct (all_sectors_get_an_entry select_nothing two_sentiments "benchmark"
              50000 Hnd) as [H1 [_ H3]].
  split; [exact H1|]. apply H3. discriminate.
Defined.

End SectorPortfolioLaws.

(** ** Company profiles: what is fetched and what is kept *)

Module EmbeddingManagerLaws.
Import Py PyFacts PyLaws EmbeddingManager.

Section WithBackend.

Variable fromisoformat : string -> option Z.
Variable fetch_company_profile : string -> option (dict json).

Local Abbreviation is_outdated := (is_outdated fromisoformat).
Local Abbreviation get_missing_embeddings := (get_missing_embeddings fromisoformat).
Local Abbreviation fetch_one := (fetch_one fetch_company_profile).
Local Abbreviation fetch_missing_embeddings :=
  (fetch_missing_embeddings fromisoformat fetch_company_profile).

Lemma get_missing_fold (now : Z) (tickers : list string)
  (companies : dict (dict json)) (acc : list string * list string) :
  fold_left
    (fun acc ticker =>
       match get ticker companies with
       | None => (fst acc ++ [ticker], snd acc)
       | Some profile =>
           if is_outdated now profile then (fst acc, snd acc ++ [ticker])
           else acc
       end)
    tickers acc
  = (fst acc ++ filter (fun t => negb (has_key t companies)) tickers,
     snd acc ++ filter (fun t => match get t companies with
                                 | Some profile => is_outdated now profile
                                 | None => false
                                 end) tickers).
Proof.
  revert acc. induction tickers as [|t r IH]; intros [m o]; simpl.
  - now rewrite !app_nil_r.
  - rewrite IH. unfold has_key.
    destruct (get t companies) as [profile|]; simpl.
    + destruct (is_outdated now profile); simpl;
        rewrite <- ?app_assoc; reflexivity.
    + rewrite <- app_assoc. reflexivity.
Qed.

(** X23. [get_missing_embeddings] sorts the tickers it is given into
    three kinds without losing their order: missing are those without a
    profile, outdated those whose profile has no usable date or one older
    than 30 days; no ticker is both, and a ticker in neither list has a
    profile dated within the last 30 days. *)
Theorem missing_and_outdated_partition
  (now : Z) (tickers : list string) (companies : dict (dict json)) :
  let missing := fst (get_missing_embeddings now tickers companies) in
  let outdated := snd (get_missing_embeddings now tickers companies) in
  missing = filter (fun t => negb (has_key t companies)) tickers /\
  (forall t, In t outdated ->
     In t tickers /\ has_key t companies = true /\ ~ In t missing) /\
  (forall t, In t tickers -> ~ In t missing -> ~ In t outdated ->
     exists profile s updated_dt,
       get t companies = Some profile /\
       get "updated" profile = Some (JStr s) /\
       fromisoformat s = Some updated_dt /\
       (now - 30 * Phase2Feedback.day_us <= updated_dt)%Z) /\
  (List.length missing + List.length outdated <= List.length tickers)%nat.
Proof.
  cbv zeta. unfold EmbeddingManager.get_missing_embeddings.
  rewrite get_missing_fold. simpl fst. simpl snd.
  split; [reflexivity|]. split; [|split].
  - intros t Hin. apply filter_In in Hin. destruct Hin as [Ht Ho].
    split; [exact Ht|]. unfold has_key.
    destruct (get t companies) as [profile|] eqn:G; [|discriminate].
    split; [reflexivity|].
    intro Hm. apply filter_In in Hm. destruct Hm as [_ Hm].
    unfold has_key in Hm. rewrite G in Hm. discriminate.
  - intros t Ht Hm Ho.
    destruct (get t companies) as [profile|] eqn:G.
    + assert (Hf : is_outdated now profile = false).
      { destruct (is_outdated now profile) eqn:E; [|reflexivity].
        exfalso. apply Ho. apply filter_In. split; [exact Ht|].
        now rewrite G. }
      unfold EmbeddingManager.is_outdated in Hf. cbv zeta in Hf.
      destruct (get "updated" profile) as [u|] eqn:Gu; [|discriminate].
      destruct (truthy u); [|discriminate].
      destruct u as [| | |s| |]; try discriminate.
      destruct (fromisoformat s) as [dt|] eqn:Ef; [|discriminate].
      exists profile, s, dt. split; [reflexivity|]. split; [exact Gu|].
      split; [exact Ef|]. apply Z.ltb_ge in Hf. exact Hf.
    + exfalso. apply Hm. apply filter_In. split; [exact Ht|].
      unfold has_key. now rewrite G.
  - unfold has_key. induction tickers as [|t r IH]; simpl; [lia|].
    destruct (get t companies) as [profile|]; simpl.
    + destruct (is_outdated now profile); simpl; lia.
    + lia.
Qed.

Lemma fetch_fold (to_fetch : list string) (acc : dict (dict json) * list string) :
  let r := fold_left fetch_one to_fetch acc in
  (exists l, snd r = snd acc ++ l /\
             (List.length l <= List.length to_fetch)%nat /\
             (forall t, In t l ->
                In t to_fetch /\
                exists kv rest, fetch_company_profile t = Some (kv :: rest) /\
                                get t (fst r) = Some (kv :: rest)) /\
             (forall t, ~ In t l -> get t (fst r) = get t (fst acc))).
Proof.
  cbv zeta. revert acc. induction to_fetch as [|t r IH]; intros [c f].
  - simpl. exists []. split; [now rewrite app_nil_r|]. split; [simpl; lia|].
    split; [intros t' []|reflexivity].
  - cbn [fold_left].
    destruct (IH (fetch_one (c, f) t)) as [l (H1 & H2 & H3 & H4)].
    unfold EmbeddingManager.fetch_one in *. cbn [fst snd] in *.
    destruct (fetch_company_profile t) as [[|kv rest]|] eqn:Ef.
    + exists l. split; [exact H1|]. split; [simpl; lia|]. split; [|exact H4].
      intros t' Ht'. destruct (H3 t' Ht') as [A B]. split; [now right|exact B].
    + cbn [fst snd] in *. exists (t :: l). split.
      { rewrite H1, <- app_assoc. reflexivity. }
      split; [simpl; lia|]. split.
      * intros t' [<-|Ht'].
        -- split; [now left|]. exists kv, rest. split; [exact Ef|].
           destruct (in_dec string_dec t l) as [Hin|Hnin].
           ++ destruct (H3 t Hin) as [_ [kv' [rest' [E G]]]].
              rewrite Ef in E. injection E as <- <-. exact G.
           ++ rewrite (H4 t Hnin). apply get_set_same.
        -- destruct (H3 t' Ht') as [A B]. split; [now right|exact B].
      * intros t' Hn. rewrite H4 by (intro; apply Hn; now right).
        apply get_set_other. intro E. apply Hn. now left.
    + exists l. split; [exact H1|]. split; [simpl; lia|]. split; [|exact H4].
      intros t' Ht'. destruct (H3 t' Ht') as [A B]. split; [now right|exact B].
Qed.

Lemma fetch_missing_embeddings_profiles
  (now : Z) (tickers : list string) (max_fetch : nat) (file : embeddings_file) :
  let fetched := fst (fetch_missing_embeddings now tickers max_fetch file) in
  let file' := snd (fetch_missing_embeddings now tickers max_fetch file) in
  (forall t, In t fetched -> has_key t (companies file') = true) /\
  (forall t, ~ In t fetched -> get t (companies file') = get t (companies file)).
Proof.
  cbv zeta. unfold EmbeddingManager.fetch_missing_embeddings.
  destruct (get_missing_embeddings now tickers (companies file))
    as [missing outdated].
  destruct (firstn max_fetch (missing ++ outdated)) as [|t0 rest].
  - simpl. split; [intros t []|reflexivity].
  - destruct (fetch_fold (t0 :: rest) (companies file, []))
      as [l (H1 & _ & H3 & H4)].
    cbv zeta in H1, H3, H4. cbn [fst snd app] in H1, H3, H4.
    destruct (fold_left fetch_one (t0 :: rest) (companies file, [])) as [c' f'].
    cbn [fst snd] in *. subst f'.
    destruct l as [|x l'].
    + simpl. split; [intros t []|reflexivity].
    + split; [|exact H4].
      intros t Ht. destruct (H3 t Ht) as [_ [kv [r' [_ C]]]].
      change (has_key t c' = true). unfold has_key. now rewrite C.
Qed.

(** X24. [fetch_missing_embeddings] fetches at most [max_fetch] profiles,
    only for tickers it was given that are missing or outdated; every
    fetched ticker has the fetched profile afterwards, the profile of every
    other ticker is exactly what it was, and when nothing is fetched the
    file is not written. *)
Theorem fetch_is_capped_and_local
  (now : Z) (tickers : list string) (max_fetch : nat) (file : embeddings_file) :
  let fetched := fst (fetch_missing_embeddings now tickers max_fetch file) in
  let file' := snd (fetch_missing_embeddings now tickers max_fetch file) in
  (List.length fetched <= max_fetch)%nat /\
  (forall t, In t fetched ->
     In t tickers /\
     (has_key t (companies file) = false \/
      exists profile, get t (companies file) = Some profile /\
                      is_outdated now profile = true) /\
     exists profile, fetch_company_profile t = Some profile /\
                     profile <> [] /\
                     get t (companies file') = Some profile) /\
  (forall t, ~ In t fetched -> get t (companies file') = get t (companies file)) /\
  (fetched = [] -> file' = file).
Proof.
  cbv zeta. unfold EmbeddingManager.fetch_missing_embeddings.
  unfold EmbeddingManager.get_missing_embeddings.
  rewrite get_missing_fold. simpl fst. simpl snd. cbv zeta.
  set (missing := filter (fun t => negb (has_key t (companies file))) tickers).
  set (outdated := filter (fun t => match get t (companies file) with
                                    | Some profile => is_outdated now profile
                                    | None => false
                                    end) tickers).
  set (to_fetch := firstn max_fetch (missing ++ outdated)).
  assert (Hcap : (List.length to_fetch <= max_fetch)%nat)
    by (unfold to_fetch; rewrite length_firstn; lia).
  assert (Hsrc : forall t, In t to_fetch ->
            In t tickers /\
            (has_key t (companies file) = false \/
             exists profile, get t (companies file) = Some profile /\
                             is_outdated now profile = true)).
  { intros t Ht.
    assert (Hin : In t (missing ++ outdated)).
    { rewrite <- (firstn_skipn max_fetch). apply in_or_app. now left. }
    apply in_app_or in Hin. destruct Hin as [Hin|Hin];
      apply filter_In in Hin; destruct Hin as [Hin Hp].
    - split; [exact Hin|]. left. now apply negb_true_iff in Hp.
    - split; [exact Hin|]. right.
      destruct (get t (companies file)) as [profile|]; [|discriminate].
      exists profile. auto. }
  clearbody to_fetch. destruct to_fetch as [|t0 rest].
  - simpl. repeat split; auto; try lia; intros t [].
  - set (to_fetch := t0 :: rest) in *.
    destruct (fetch_fold to_fetch (companies file, [])) as [l (H1 & H2 & H3 & H4)].
    cbv zeta in H1, H3, H4. cbn [fst snd app] in H1, H3, H4.
    destruct (fold_left fetch_one to_fetch (companies file, [])) as [c' f'].
    cbn [fst snd] in *. subst f'.
    destruct l as [|x l'].
    + simpl. repeat split; auto; try lia; intros t [].
    + cbn [app fst snd companies].
      split; [unfold to_fetch in *; simpl List.length in *; lia|].
      split; [|split].
      * intros t Ht. destruct (H3 t Ht) as [A [kv [r' [B C]]]].
        destruct (Hsrc t A) as [S1 S2].
        split; [exact S1|]. split; [exact S2|].
        exists (kv :: r'). split; [exact B|]. split; [discriminate|exact C].
      * exact H4.
      * discriminate.
Qed.

(** X25. After a fetch no fetched ticker is missing any more, and a
    ticker that was not missing before is not missing afterwards. *)
Theorem fetched_tickers_are_no_longer_missing
  (now : Z) (tickers : list string) (max_fetch : nat) (file : embeddings_file)
  (t : string) :
  let fetched := fst (fetch_missing_embeddings now tickers max_fetch file) in
  let file' := snd (fetch_missing_embeddings now tickers max_fetch file) in
  (In t fetched \/
   ~ In t (fst (get_missing_embeddings now tickers (companies file)))) ->
  ~ In t (fst (get_missing_embeddings now tickers (companies file'))).
Proof.
  cbv zeta. intros H.
  destruct (fetch_missing_embeddings_profiles now tickers max_fetch file)
    as [F2 F3].
  unfold EmbeddingManager.get_missing_embeddings in *.
  rewrite get_missing_fold in *. simpl fst in *.
  intro Hm. apply filter_In in Hm. destruct Hm as [Ht Hm].
  apply negb_true_iff in Hm. unfold has_key in Hm.
  destruct (in_dec string_dec t
              (fst (fetch_missing_embeddings now tickers max_fetch file)))
    as [Hf|Hnf].
  - pose proof (F2 t Hf) as G. unfold has_key in G.
    destruct (get t (companies _)); discriminate.
  - rewrite (F3 t Hnf) in Hm. destruct H as [H|H]; [contradiction|].
    apply H. apply filter_In. split; [exact Ht|].
    apply negb_true_iff. unfold has_key. exact Hm.
Qed.

End WithBackend.

Lemma fetched_tickers_witness :
  let now := (20 * Phase2Feedback.day_us)%Z in
  let run := fetch_missing_embeddings iso_clock backend_knows_all now
               ["AAPL"; "MSFT"] 3 one_company in
  In "MSFT" (fst run) /\
  ~ In "MSFT" (fst (get_missing_embeddings iso_clock now ["AAPL"; "MSFT"]
                      (companies (snd run)))).
Proof.
  cbv zeta.
  assert (H : In "MSFT"
                (fst (fetch_missing_embeddings iso_clock backend_knows_all
                        (20 * Phase2Feedback.day_us)%Z ["AAPL"; "MSFT"] 3
                        one_company)))
    by (left; reflexivity).
  split; [exact H|].
  exact (fetched_tickers_are_no_longer_missing iso_clock backend_knows_all
           (20 * Phase2Feedback.day_us)%Z ["AAPL"; "MSFT"] 3 one_company "MSFT"
           (or_introl H)).
Defined.

End EmbeddingManagerLaws.

(** ** Phase-2 refinement: the record it returns and what it changes *)

Module RefinedStrategyLaws.
Import Py PyFacts PyLaws RefinedStrategy.

Lemma has_key_set {V} (k k' : string) (v : V) (d : dict V) :
  has_key k d = true -> has_key k (set k' v d) = true.
Proof.
  unfold has_key. destruct (String.eqb_spec k k') as [->|Hne].
  - now rewrite get_set_same.
  - now rewrite get_set_other.
Qed.

Lemma has_key_update {V} (k : string) (e d : dict V) :
  has_key k d = true -> has_key k (update d e) = true.
Proof.
  unfold update. revert d. induction e as [|[k' v] r IH]; intros d H; simpl.
  - exact H.
  - apply IH. now apply has_key_set.
Qed.

Lemma has_key_update_from_items (k : string) (items : list json) (d : dict json)
  (position : nat) :
  has_key k d = true -> has_key k (fst (update_from_items position d items)) = true.
Proof.
  revert d position.
  induction items as [|item rest IH]; intros d position H; [exact H|].
  simpl.
  repeat match goal with
         | |- context [match ?x with _ => _ end] =>
             match x with
             | update_from_items _ _ => fail 1
             | _ => destruct x
             end
         end;
    try exact H; try (apply IH; try apply has_key_set; exact H).
Qed.

Lemma has_key_keep_with (k reasoning : string) (current : dict Q) (d : dict json) :
  has_key k d = true -> has_key k (keep_with reasoning current d) = true.
Proof. intro H. unfold keep_with. now do 4 apply has_key_set. Qed.

Section WithBackend.

Variable json_loads : string -> result json.
Variable post : string -> reply.
Variable now : string.
Variable format_number : Q -> string.
Variable exception_text : failure -> string.
Variable py_str : json -> string.

Lemma has_key_apply_decision (k : string) (decision : json) (d : dict json) :
  has_key k d = true ->
  has_key k (fst (apply_decision format_number decision d)) = true.
Proof.
  intro H. unfold apply_decision.
  destruct decision as [| | |s|items|o]; try exact H.
  - destruct s; exact H.
  - pose proof (has_key_update_from_items k items d 0 H) as Hi.
    destruct (update_from_items 0 d items) as [d' [e|]]; exact Hi.
  - destruct (allocation_of_json _) as [new_alloc|e]; simpl.
    + destruct (Qlt_bool _ _); simpl.
      * apply has_key_set. now apply has_key_update.
      * now apply has_key_update.
    + now apply has_key_update.
Qed.

Lemma has_key_handle_reply (k : string) (current : dict Q) (d : dict json)
  (r : reply) :
  has_key k d = true ->
  has_key k (handle_reply json_loads format_number exception_text current d r)
  = true.
Proof.
  intro H. unfold handle_reply.
  destruct r as [e|status body]; [now apply has_key_keep_with|].
  destruct (status =? 200)%Z; [|now apply has_key_keep_with].
  destruct (json_loads body) as [[| | | | |b]|e];
    try (now apply has_key_keep_with).
  destruct (get_default "response" (JStr EmptyString) b) as [| | |raw| |];
    try (now apply has_key_keep_with).
  destruct (json_loads (extract_json_text (strip raw))) as [decision|e].
  - pose proof (has_key_apply_decision k decision d H) as Ha.
    destruct (apply_decision format_number decision d) as [d' [e|]];
      simpl in Ha; [now apply has_key_keep_with|exact Ha].
  - apply has_key_set. now apply has_key_keep_with.
Qed.

(** The builder returns on what it can show, and only on that. *)
Lemma join_first_two_returns (v : json) :
  (exists text, RefinementCall.join_first_two v = Ok text) <->
  RefinementCall.joinable v = true.
Proof.
  unfold RefinementCall.join_first_two, RefinementCall.joinable.
  destruct v as [| | |s|l|d];
    try (split; [intros [text H]; discriminate H|discriminate]).
  - split; [reflexivity|intros _; eexists; reflexivity].
  - generalize (firstn 2 l). intro items.
    assert (H : forall items,
              (exists parts,
                 mapM (fun x => match x with
                                | JStr s => Ok s
                                | _ => Raise "TypeError: sequence item: expected str instance"
                                end) items = Ok parts) <->
              forallb (fun x => match x with JStr _ => true | _ => false end)
                items = true).
    { clear. induction items as [|x r IH]; simpl.
      - split; [reflexivity|intros _; now exists []].
      - destruct x as [| | |s| |]; simpl;
          try (split; [intros [parts H]; discriminate H|discriminate]).
        rewrite <- IH. split.
        + intros [parts H]. destruct (mapM _ r) as [ps|]; [|discriminate H].
          now exists ps.
        + intros [ps ->]. simpl. eexists. reflexivity. }
    rewrite <- H. split.
    + intros [text Ht]. destruct (mapM _ items) as [parts|]; [|discriminate Ht].
      now exists parts.
    + intros [parts ->]. simpl. eexists. reflexivity.
Qed.

Lemma profile_text_returns ticker alloc profile :
  (exists text, RefinementCall.profile_text py_str ticker alloc profile = Ok text)
  <-> RefinementCall.presentable profile = true.
Proof.
  unfold RefinementCall.profile_text, RefinementCall.presentable.
  destruct profile as [| | | | |p];
    try (split; [intros [text H]; discriminate H|discriminate]).
  rewrite andb_true_iff, <- !join_first_two_returns. split.
  - intros [text H].
    destruct (RefinementCall.join_first_two (get_default "risks" (JArr []) p))
      as [r|]; [|discriminate H]. cbn [bind] in H.
    destruct (RefinementCall.join_first_two (get_default "catalysts" (JArr []) p))
      as [c|]; [|discriminate H].
    split; eexists; reflexivity.
  - intros [[r ->] [c ->]]. cbn [bind]. eexists. reflexivity.
Qed.

Lemma company_context_returns (items : dict Q) (embeddings : dict json) :
  (exists text, RefinementCall.company_context py_str items embeddings = Ok text)
  <-> forallb (fun t => match get t embeddings with
                        | Some profile => RefinementCall.presentable profile
                        | None => true
                        end) (keys items) = true.
Proof.
  induction items as [|[ticker alloc] rest IH]; simpl.
  - split; [reflexivity|intros _; eexists; reflexivity].
  - rewrite andb_true_iff, <- IH. split.
    + intros [text H]. destruct (get ticker embeddings) as [profile|].
      * destruct (RefinementCall.profile_text py_str ticker alloc profile)
          as [block|] eqn:Ep; [|discriminate H]. cbn [bind] in H.
        destruct (RefinementCall.company_context py_str rest embeddings)
          as [more|]; [|discriminate H].
        split; [|eexists; reflexivity].
        apply (profile_text_returns ticker alloc). now exists block.
      * cbn [bind] in H.
        destruct (RefinementCall.company_context py_str rest embeddings)
          as [more|]; [|discriminate H].
        split; [reflexivity|eexists; reflexivity].
    + intros [Hp [more ->]]. destruct (get ticker embeddings) as [profile|].
      * apply (profile_text_returns ticker alloc) in Hp. destruct Hp as [block ->].
        cbn [bind]. eexists. reflexivity.
      * cbn [bind]. eexists. reflexivity.
Qed.

Lemma build_refinement_prompt_returns sector sentiment_score
  (current_allocation : dict Q) (embeddings : dict json)
  (news : list (dict json)) :
  (exists prompt,
     RefinementCall.build_refinement_prompt py_str sector sentiment_score
       current_allocation embeddings news = Ok prompt)
  <-> RefinementCall.showable current_allocation embeddings = true.
Proof.
  unfold RefinementCall.build_refinement_prompt, RefinementCall.showable.
  rewrite <- company_context_returns.
  split.
  - intros [prompt H].
    destruct (RefinementCall.company_context py_str current_allocation embeddings)
      as [company|]; [|discriminate H].
    eexists; reflexivity.
  - intros [company ->]. cbn [bind]. eexists. reflexivity.
Qed.

(** X26. With the profiles and the news loaded, a call of
    [refine_allocation] raises exactly when some ticker of the allocation
    has a profile and [build_refinement_prompt] raises, which it does
    exactly when the profile of one of the tickers cannot be shown (it is
    not an object, or its [risks] or [catalysts] cannot be cut and
    joined); it has then posted and logged nothing.  Otherwise it returns
    a record,
    and then it posted at most one prompt, the built one, and none exactly
    when no ticker has a profile; it appended a line to the refinement log
    exactly when it posted, and the line is the record it returns; and
    whatever the backend replied, the record keeps the seven fields it
    started with (the reply can overwrite their values, never remove
    them). *)
Theorem refine_allocation_outcome_shape
  (embeddings : dict json) (news : list (dict json)) (sector : string)
  (sentiment_score : Q) (current_allocation : dict Q) (scenario : string) :
  let call := RefinementCall.refine_allocation json_loads post now format_number
                exception_text py_str embeddings news sector sentiment_score
                current_allocation scenario in
  let built := RefinementCall.build_refinement_prompt py_str sector
                 sentiment_score current_allocation embeddings news in
  let no_profile :=
    forall t, In t (keys current_allocation) -> has_key t embeddings = false in
  (forall e, call = Raise e <-> (~ no_profile /\ built = Raise e)) /\
  ((exists e, built = Raise e) <->
   RefinementCall.showable current_allocation embeddings = false) /\
  (forall o, call = Ok o ->
     (List.length (posted o) <= 1)%nat /\
     (posted o = [] <-> no_profile) /\
     (forall prompt, posted o = [prompt] -> built = Ok prompt) /\
     logged o = match posted o with [] => None | _ => Some (returned o) end /\
     forall k,
       In k ["sector"; "sentiment_score"; "scenario"; "original_allocation";
             "embedding_coverage"; "missing_embeddings"; "timestamp"] ->
       has_key k (returned o) = true).
Proof.
  cbv zeta. unfold RefinementCall.refine_allocation. cbv zeta.
  set (built := RefinementCall.build_refinement_prompt py_str sector
                  sentiment_score current_allocation embeddings news).
  set (have := filter (fun t => has_key t embeddings) (keys current_allocation)).
  set (r0 := initial_result now embeddings sector sentiment_score
               current_allocation scenario).
  assert (H0 : forall k,
            In k ["sector"; "sentiment_score"; "scenario"; "original_allocation";
                  "embedding_coverage"; "missing_embeddings"; "timestamp"] ->
            has_key k r0 = true).
  { intros k Hk. simpl in Hk.
    repeat (destruct Hk as [<-|Hk]; [reflexivity|]). contradiction. }
  assert (Hhave : have = [] <->
            forall t, In t (keys current_allocation) -> has_key t embeddings = false)
    by apply filter_nil_iff.
  split; [|split].
  - intro e. destruct have as [|t0 rest].
    + split; [discriminate|]. intros [Hn _]. exfalso. apply Hn.
      now apply Hhave.
    + assert (Hsome : ~ (forall t, In t (keys current_allocation) ->
                                   has_key t embeddings = false)).
      { intro H. apply Hhave in H. discriminate H. }
      destruct built as [prompt|e0]; cbn [bind].
      * split; [discriminate|]. intros [_ H]. discriminate H.
      * split; [intro H; injection H as ->; now split|].
        intros [_ H]. injection H as ->. reflexivity.
  - pose proof (build_refinement_prompt_returns sector sentiment_score
                  current_allocation embeddings news) as Hb.
    fold built in Hb.
    destruct (RefinementCall.showable current_allocation embeddings).
    + split; [|discriminate]. intros [e He].
      destruct (proj2 Hb eq_refl) as [prompt Hp]. congruence.
    + split; [reflexivity|]. intros _.
      destruct built as [prompt|e]; [|now exists e].
      exfalso. assert (false = true) by (apply Hb; now exists prompt).
      discriminate.
  - intros o Ho. destruct have as [|t0 rest].
    + injection Ho as <-. cbn [posted logged returned List.length].
      split; [lia|]. split; [split; [intros _; now apply Hhave|reflexivity]|].
      split; [intros prompt H; discriminate H|].
      split; [reflexivity|].
      intros k Hk. simpl in Hk.
      repeat (destruct Hk as [<-|Hk]; [reflexivity|]). contradiction.
    + destruct built as [prompt|e0]; cbn [bind] in Ho; [|discriminate Ho].
      injection Ho as <-. cbn [posted logged returned List.length].
      split; [lia|]. split.
      * split; [discriminate|]. intro H. apply Hhave in H. discriminate.
      * split; [intros p H; injection H as <-; reflexivity|].
        split; [reflexivity|].
        intros k Hk. apply has_key_handle_reply. now apply H0.
Qed.

End WithBackend.

(** A profile whose [risks] is [null]: the call raises, whatever the
    backend would have answered. *)
Example null_risks_raises :
  RefinementCall.showable [("AAPL", 100%Q)] RefinementCall.null_risks_profile
  = false /\
  exists e,
    RefinementCall.refine_allocation keep_other_loads reply_ok
      "2026-01-05T09:00:00" show_number show_failure RefinementCall.show_value
      RefinementCall.null_risks_profile [] "XLK" (1 # 2) [("AAPL", 100%Q)]
      "benchmark" = Raise e.
Proof.
  split; [reflexivity|]. eexists. vm_compute. reflexivity.
Qed.

End RefinedStrategyLaws.

(** ** Applying a refinement: what Phase 2 can change *)

Module TwoPhaseLaws.
Import Py PyFacts PyLaws TwoPhase TwoPhaseSpec.

Section WithRefinement.

Variable refine : string -> Q -> dict Q -> string -> dict json.
Variable fetch_embeddings : list (dict json) -> result unit.

Local Abbreviation run_phase2_refinement :=
  (run_phase2_refinement refine fetch_embeddings).
Local Abbreviation refinement_body := (refinement_body refine fetch_embeddings).
Local Abbreviation allocation_to_refine := (allocation_to_refine fetch_embeddings).

(** X27. Phase 2 changes the Phase-1 result only by applying an adjust
    decision.  Switched off, it returns the Phase-1 result and the store as
    they are.  Otherwise either everything but the phase label of the
    result is what Phase 1 returned, or the refinement of the Phase-1
    allocation said adjust and, with the feedback module loaded, the gate
    accepted its confidence.  Hence, when for every allocation the
    refinement does not say adjust or the gate does not accept its
    confidence, everything but the phase label is what Phase 1 returned. *)
Theorem phase2_keeps_phase1_unless_applied
  (ENABLE_PHASE2 feedback_enabled : bool) (now : Z) (phase1_result : dict json)
  (sector : string) (sentiment : Q) (scenario : string)
  (st : Phase2Feedback.store) :
  let out := run_phase2_refinement ENABLE_PHASE2 feedback_enabled now
               phase1_result sector sentiment scenario st in
  (ENABLE_PHASE2 = false -> out = (phase1_result, st)) /\
  ((forall k, k <> "phase" -> get k (fst out) = get k phase1_result) \/
   exists current,
     allocation_to_refine phase1_result = Ok (Some current) /\
     let refinement := refine sector sentiment current scenario in
     is_adjust (get_default "action" (JStr "keep") refinement) = true /\
     (feedback_enabled = true ->
      Phase2Feedback.should_apply_adjustment
        (get_default "confidence" (JNum 0) refinement) st = Ok true)) /\
  ((forall current,
      let refinement := refine sector sentiment current scenario in
      is_adjust (get_default "action" (JStr "keep") refinement) = false \/
      (feedback_enabled = true /\
       Phase2Feedback.should_apply_adjustment
         (get_default "confidence" (JNum 0) refinement) st <> Ok true)) ->
   forall k, k <> "phase" -> get k (fst out) = get k phase1_result).
Proof.
  cbv zeta.
  assert (Hcases :
    (forall k, k <> "phase" ->
       get k (fst (run_phase2_refinement ENABLE_PHASE2 feedback_enabled now
                     phase1_result sector sentiment scenario st))
       = get k phase1_result) \/
    exists current,
      allocation_to_refine phase1_result = Ok (Some current) /\
      is_adjust (get_default "action" (JStr "keep")
                   (refine sector sentiment current scenario)) = true /\
      (feedback_enabled = true ->
       Phase2Feedback.should_apply_adjustment
         (get_default "confidence" (JNum 0)
            (refine sector sentiment current scenario)) st = Ok true)).
  { unfold TwoPhase.run_phase2_refinement.
    destruct ENABLE_PHASE2; [|now left]. cbn [negb].
    destruct (refinement_body feedback_enabled now phase1_result sector sentiment
                scenario st) as [[r st']|e] eqn:E; [|now left].
    apply refinement_body_cases in E. cbn [fst].
    destruct E as [[_ [-> _]]|[current [Hread E]]]; [now left|].
    cbv zeta in E.
    destruct E as [[_ [Hsame _]]|[[_ [_ [_ [Hsame _]]]]|[Ha [Hs _]]]].
    - now left.
    - now left.
    - right. exists current. repeat split; assumption. }
  split; [|split].
  - intros ->. reflexivity.
  - exact Hcases.
  - intros Hno k Hk.
    destruct Hcases as [Hsame|[current [_ [Ha Hs]]]]; [now apply Hsame|].
    exfalso. destruct (Hno current) as [Hn|[Hf Hn]].
    + congruence.
    + apply Hn. now apply Hs.
Qed.

(** X28. Phase 2 writes to the decision log only: it appends at most
    one decision, stamped with the current instant and the sector and not
    yet evaluated, and only with the feedback module loaded.  A decision
    that is logged with another action than adjust has the Phase-1
    allocation as its final allocation.  The evaluation log and the
    configuration are never touched. *)
Theorem phase2_logs_at_most_one_decision
  (ENABLE_PHASE2 feedback_enabled : bool) (now : Z) (phase1_result : dict json)
  (sector : string) (sentiment : Q) (scenario : string)
  (st : Phase2Feedback.store) :
  let st' := snd (run_phase2_refinement ENABLE_PHASE2 feedback_enabled now
                    phase1_result sector sentiment scenario st) in
  Phase2Feedback.evaluations_file st' = Phase2Feedback.evaluations_file st /\
  Phase2Feedback.feedback_config_file st' = Phase2Feedback.feedback_config_file st /\
  (st' = st \/
   (ENABLE_PHASE2 = true /\ feedback_enabled = true /\
    exists d,
      Phase2Feedback.decisions st' = Phase2Feedback.decisions st ++ [d] /\
      Phase2Feedback.timestamp d = now /\
      Phase2Feedback.sector d = sector /\
      Phase2Feedback.evaluated d = Some false /\
      (Phase2Feedback.action d = "adjust" \/
       Phase2Feedback.final_allocation d = Phase2Feedback.original_allocation d))).
Proof.
  cbv zeta. unfold TwoPhase.run_phase2_refinement.
  destruct ENABLE_PHASE2; [|simpl; auto]. cbn [negb].
  destruct (refinement_body feedback_enabled now phase1_result sector sentiment
              scenario st) as [[r st']|e] eqn:E; [|simpl; auto].
  apply refinement_body_cases in E. cbn [snd].
  assert (Hlog : forall label confidence current final reasoning,
            (label = "adjust" \/ final = current) ->
            let s := snd (Phase2Feedback.log_decision now sector sentiment label
                            confidence current final reasoning st) in
            Phase2Feedback.evaluations_file s = Phase2Feedback.evaluations_file st /\
            Phase2Feedback.feedback_config_file s
            = Phase2Feedback.feedback_config_file st /\
            exists d,
              Phase2Feedback.decisions s = Phase2Feedback.decisions st ++ [d] /\
              Phase2Feedback.timestamp d = now /\
              Phase2Feedback.sector d = sector /\
              Phase2Feedback.evaluated d = Some false /\
              (Phase2Feedback.action d = "adjust" \/
               Phase2Feedback.final_allocation d
               = Phase2Feedback.original_allocation d)).
  { intros label confidence current final reasoning Hl. cbv zeta.
    unfold Phase2Feedback.log_decision. cbn [snd].
    cbn [Phase2Feedback.evaluations_file Phase2Feedback.feedback_config_file].
    split; [reflexivity|]. split; [reflexivity|].
    eexists. split; [unfold Phase2Feedback.decisions, Phase2Feedback.lines,
                       Phase2Feedback.append_line; simpl; reflexivity|].
    simpl. destruct Hl as [->| ->]; auto. }
  destruct E as [[_ [_ ->]]|[current [_ E]]]; [auto|]. cbv zeta in E.
  destruct E as [[_ [_ [_ Hst]]]|[[_ [-> [_ [_ [_ Hst]]]]]|[_ [_ [final [_ Hst]]]]]].
  - destruct feedback_enabled; [|subst st'; auto]. subst st'.
    destruct (Hlog (text_of (get_default "action" (JStr "keep")
                               (refine sector sentiment current scenario)))
                (get_default "confidence" (JNum 0)
                   (refine sector sentiment current scenario))
                current current
                (text_of (get_default "reasoning" (JStr EmptyString)
                            (refine sector sentiment current scenario)))
                (or_intror eq_refl)) as [A [B C]].
    split; [exact A|]. split; [exact B|]. right. auto.
  - subst st'.
    destruct (Hlog "keep_low_conf"
                (get_default "confidence" (JNum 0)
                   (refine sector sentiment current scenario))
                current current
                (text_of (get_default "reasoning" (JStr EmptyString)
                            (refine sector sentiment current scenario)))
                (or_intror eq_refl)) as [A [B C]].
    split; [exact A|]. split; [exact B|]. right. auto.
  - destruct feedback_enabled; [|subst st'; auto]. subst st'.
    destruct (Hlog "adjust"
                (get_default "confidence" (JNum 0)
                   (refine sector sentiment current scenario))
                current final
                (text_of (get_default "reasoning" (JStr EmptyString)
                            (refine sector sentiment current scenario)))
                (or_introl eq_refl)) as [A [B C]].
    split; [exact A|]. split; [exact B|]. right. auto.
Qed.

End WithRefinement.

Lemma phase2_keeps_phase1_witness :
  let keeps := fun (_ : string) (_ : Q) (_ : dict Q) (_ : string) =>
                 [("action", JStr "keep"); ("confidence", JNum (9 # 10))] in
  (forall current,
     is_adjust (get_default "action" (JStr "keep")
                  (keeps "XLK" (6 # 10) current "benchmark")) = false) /\
  get "selected_assets"
    (fst (run_phase2_refinement keeps fetch_nothing true true 0 phase1_example
            "XLK" (6 # 10) "benchmark" empty_store))
  = get "selected_assets" phase1_example.
Proof.
  cbv zeta. split; [intro current; reflexivity|].
  apply (phase2_keeps_phase1_unless_applied
           (fun _ _ _ _ => [("action", JStr "keep"); ("confidence", JNum (9 # 10))])
           fetch_nothing true true 0 phase1_example "XLK" (6 # 10) "benchmark"
           empty_store).
  - intro current. left. reflexivity.
  - discriminate.
Defined.

End TwoPhaseLaws.
